(** * HWP-Loader: the single-file extractor and the directory collector

    A shallow embedding of [langchain_hwp_hwpx/loader.py].

    Conventions of the embedding.
    - A Python [str] is the [string] of its UTF-8 encoding.  [strip] removes
      the white space of [str.strip()], that of Unicode included, and [int]
      reads the decimal digits of every script; [lower] and [upper] map the
      ASCII letters and leave every other character as it is, and [repr]
      takes the characters outside the ASCII range as printable ones.
    - A [pathlib.Path] is the string [str(path)], and an argument the code
      converts with [Path(...)] is given in this form; joining, [name],
      [suffix] and [with_suffix] are those of [PurePosixPath].
    - The file system is a collaborator too: its calls return or raise.
    - The parsing library is a collaborator: its objects are records of
      optional attributes ([None] = the attribute is missing) holding
      [PyVal]s, and its methods are fields that return a value or raise.
    - A generator is a computation in [Gen]: the ordered trace of what it did
      (documents yielded, warnings logged, directories created, collaborator
      calls) together with how it ended (normally or by raising). *)

From Stdlib Require Import ZArith NArith Ascii String List Sorting.Sorted Sorting.Permutation.
From Stdlib Require Import DecimalString.
From stdpp Require Import base option list gmap strings sorting.

#[global] Set Warnings "-register-all".

Open Scope list_scope.
Open Scope string_scope.

(** ** Python strings *)

Module PyStr.

Definition lower_ascii (c : ascii) : ascii :=
  let n := nat_of_ascii c in
  if (65 <=? n)%nat && (n <=? 90)%nat then ascii_of_nat (n + 32) else c.

Definition upper_ascii (c : ascii) : ascii :=
  let n := nat_of_ascii c in
  if (97 <=? n)%nat && (n <=? 122)%nat then ascii_of_nat (n - 32) else c.

(** [str.lower()] *)
Fixpoint lower (s : string) : string :=
  match s with
  | EmptyString => EmptyString
  | String c s' => String (lower_ascii c) (lower s')
  end.

(** [str.upper()] *)
Fixpoint upper (s : string) : string :=
  match s with
  | EmptyString => EmptyString
  | String c s' => String (upper_ascii c) (upper s')
  end.

(** The white space [str.strip()] removes, as [Py_UNICODE_ISSPACE] has it.
    In the ASCII range: tab, line feed, vertical tab, form feed, carriage
    return, the four separators 28-31 and the space. *)
Definition is_space (c : ascii) : bool :=
  let n := nat_of_ascii c in
  ((9 <=? n)%nat && (n <=? 13)%nat) || ((28 <=? n)%nat && (n <=? 32)%nat).

(** Encoded in two bytes: U+0085 (next line) and U+00A0 (no-break space). *)
Definition is_space2 (a b : ascii) : bool :=
  (nat_of_ascii a =? 194)%nat
  && ((nat_of_ascii b =? 133)%nat || (nat_of_ascii b =? 160)%nat).

(** Encoded in three bytes: U+1680, U+2000 to U+200A, U+2028, U+2029,
    U+202F, U+205F and U+3000 (the ideographic space). *)
Definition is_space3 (a b c : ascii) : bool :=
  let '(x, y, z) := (nat_of_ascii a, nat_of_ascii b, nat_of_ascii c) in
  ((x =? 225)%nat && (y =? 154)%nat && (z =? 128)%nat)
  || ((x =? 226)%nat && (y =? 128)%nat
      && (((128 <=? z)%nat && (z <=? 138)%nat)
          || (z =? 168)%nat || (z =? 169)%nat || (z =? 175)%nat))
  || ((x =? 226)%nat && (y =? 129)%nat && (z =? 159)%nat)
  || ((x =? 227)%nat && (y =? 128)%nat && (z =? 128)%nat).

(** The bytes above the ASCII range: those of the longer encodings. *)
Definition high (c : ascii) : bool := (128 <=? nat_of_ascii c)%nat.

(** What is left of [s] after the white-space character it starts with. *)
Definition skip_space (s : string) : option string :=
  match s with
  | String a s1 =>
      if is_space a then Some s1
      else
        match s1 with
        | String b s2 =>
            if is_space2 a b then Some s2
            else
              match s2 with
              | String c s3 => if is_space3 a b c then Some s3 else None
              | EmptyString => None
              end
        | EmptyString => None
        end
  | EmptyString => None
  end.

(** [str.lstrip()] *)
Fixpoint lstrip (s : string) : string :=
  match s with
  | EmptyString => EmptyString
  | String a s1 =>
      if is_space a then lstrip s1
      else
        match s1 with
        | String b s2 =>
            if is_space2 a b then lstrip s2
            else
              match s2 with
              | String c s3 => if is_space3 a b c then lstrip s3 else s
              | EmptyString => s
              end
        | EmptyString => s
        end
  end.

(** [str.isspace()] or empty: nothing but white space. *)
Definition blank (s : string) : bool := String.eqb (lstrip s) "".

(** [str.rstrip()]: the string up to its last character that is not white
    space. *)
Fixpoint rstrip (s : string) : string :=
  match s with
  | EmptyString => EmptyString
  | String c s' => if blank s then EmptyString else String c (rstrip s')
  end.

(** [str.strip()] *)
Definition strip (s : string) : string := rstrip (lstrip s).

(** [s.lstrip(".")]-style stripping of one leading character class. *)
Fixpoint lstrip_char (ch : ascii) (s : string) : string :=
  match s with
  | EmptyString => EmptyString
  | String c s' => if Ascii.eqb c ch then lstrip_char ch s' else s
  end.

(** [s.startswith(p)] *)
Definition startswith (p s : string) : bool := String.prefix p s.

(** [sub in s] *)
Fixpoint contains (sub s : string) : bool :=
  String.prefix sub s ||
  match s with
  | EmptyString => false
  | String _ s' => contains sub s'
  end.

(** [s.endswith(suf)] *)
Fixpoint endswith (suf s : string) : bool :=
  String.eqb suf s ||
  match s with
  | EmptyString => false
  | String _ s' => endswith suf s'
  end.

(** [sep.join(parts)] *)
Definition join (sep : string) (parts : list string) : string :=
  String.concat sep parts.

(** [s.replace(old, new)] for a non-empty [old]: non-overlapping occurrences
    are replaced from left to right.  [skip] counts the characters of a
    matched occurrence still to be dropped. *)
Fixpoint replace_go (old new : string) (skip : nat) (s : string) : string :=
  match s with
  | EmptyString => EmptyString
  | String c s' =>
      match skip with
      | S k => replace_go old new k s'
      | O =>
          if String.prefix old s
          then new ++ replace_go old new (String.length old - 1) s'
          else String c (replace_go old new 0 s')
      end
  end.

Definition replace (old new s : string) : string := replace_go old new 0 s.

(** [s.rfind(ch)]: the index of the last occurrence of a character. *)
Fixpoint rfind_char (ch : ascii) (s : string) : option nat :=
  match s with
  | EmptyString => None
  | String c s' =>
      match rfind_char ch s' with
      | Some i => Some (S i)
      | None => if Ascii.eqb c ch then Some 0%nat else None
      end
  end.

(** [s[i:]] *)
Fixpoint drop (i : nat) (s : string) : string :=
  match i, s with
  | O, _ => s
  | S k, EmptyString => EmptyString
  | S k, String _ s' => drop k s'
  end.

(** [str(n)] for an integer. *)
Definition of_Z (z : Z) : string :=
  match z with
  | Z0 => "0"
  | Zpos p => NilZero.string_of_uint (Pos.to_uint p)
  | Zneg p => "-" ++ NilZero.string_of_uint (Pos.to_uint p)
  end.

Definition of_nat (n : nat) : string := of_Z (Z.of_nat n).

(** [f"{n:03d}"]: decimal, left-padded with zeros to three characters. *)
Definition pad3 (n : nat) : string :=
  let d := of_nat n in
  match String.length d with
  | 1%nat => "00" ++ d
  | 2%nat => "0" ++ d
  | _ => d
  end.

(** [s[:i]] *)
Fixpoint take (i : nat) (s : string) : string :=
  match i, s with
  | S k, String c s' => String c (take k s')
  | _, _ => EmptyString
  end.

Definition hex_digit (n : nat) : ascii :=
  ascii_of_nat (if (n <? 10)%nat then 48 + n else 87 + n).

(** One character of [repr(s)] inside the quotes [quote]. *)
Definition repr_char (quote c : ascii) : string :=
  let n := nat_of_ascii c in
  if Ascii.eqb c quote || Ascii.eqb c "\" then String "\" (String c "")
  else if (n =? 9)%nat then "\t"
  else if (n =? 10)%nat then "\n"
  else if (n =? 13)%nat then "\r"
  else if (n <? 32)%nat || (n =? 127)%nat
  then "\x" ++ String (hex_digit (n / 16)) (String (hex_digit (n mod 16)) "")
  else String c "".

Fixpoint repr_body (quote : ascii) (s : string) : string :=
  match s with
  | EmptyString => EmptyString
  | String c s' => repr_char quote c ++ repr_body quote s'
  end.

(** [repr(s)]: double quotes are chosen when [s] has a single quote and no
    double quote.  The characters outside the ASCII range are taken as
    printable ones. *)
Definition repr (s : string) : string :=
  let quote : ascii :=
    if contains "'" s && negb (contains (String (ascii_of_nat 34) "") s)
    then ascii_of_nat 34 else "'"%char in
  String quote (repr_body quote s ++ String quote "").

End PyStr.

(** ** Paths ([pathlib.PurePosixPath]; a path is the string [str(path)]) *)

Module Path.

(** [s.split("/")] *)
Fixpoint split_slash (s : string) : list string :=
  match s with
  | EmptyString => [""]
  | String c s' =>
      match split_slash s' with
      | part :: parts =>
          if Ascii.eqb c "/" then "" :: part :: parts else String c part :: parts
      | [] => []
      end
  end.

(** The components a path string is parsed into: empty ones and "." are
    dropped. *)
Definition components (s : string) : list string :=
  List.filter (fun x => negb (String.eqb x "") && negb (String.eqb x "."))
    (split_slash s).

(** The root: "/", or "//" for exactly two leading slashes. *)
Definition root (s : string) : string :=
  if PyStr.startswith "//" s && negb (PyStr.startswith "///" s) then "//"
  else if PyStr.startswith "/" s then "/"
  else "".

(** [str(PurePosixPath(s))] *)
Definition of_str (s : string) : string :=
  match root s, components s with
  | "", [] => "."
  | r, parts => r ++ PyStr.join "/" parts
  end.

(** [dir / name]: an absolute [name] replaces [dir]; the result is parsed
    again. *)
Definition joinpath (dir name : string) : string :=
  of_str (if PyStr.startswith "/" name then name
          else if String.eqb dir "" || PyStr.endswith "/" dir then dir ++ name
          else dir ++ "/" ++ name).

(** [Path.name]: the final component, if there is one. *)
Definition name (p : string) : string :=
  if String.eqb p "." then ""
  else
    match PyStr.rfind_char "/" p with
    | Some i => PyStr.drop (S i) p
    | None => p
    end.

(** [Path.suffix]: from the last dot of the name, unless that dot is the
    first or the last character of the name. *)
Definition suffix (p : string) : string :=
  let n := name p in
  match PyStr.rfind_char "." n with
  | Some i =>
      if (0 <? i)%nat && (i <? String.length n - 1)%nat then PyStr.drop i n else ""
  | None => ""
  end.

(** [repr(path)] *)
Definition repr (p : string) : string := "PosixPath(" ++ PyStr.repr p ++ ")".

(** [Path.with_suffix(suffix)]: [inl] is the message of the [ValueError]. *)
Definition with_suffix (p suffix_ : string) : string + string :=
  if PyStr.contains "/" suffix_ then inl ("Invalid suffix " ++ PyStr.repr suffix_)
  else if (negb (String.eqb suffix_ "") && negb (PyStr.startswith "." suffix_))
          || String.eqb suffix_ "."
  then inl ("Invalid suffix " ++ PyStr.repr suffix_)
  else
    let n := name p in
    if String.eqb n "" then inl (repr p ++ " has an empty name")
    else
      let old := suffix p in
      let stem := PyStr.take (String.length n - String.length old) n in
      inr (PyStr.take (String.length p - String.length n) p ++ stem ++ suffix_).

End Path.

(** ** Python values held by the collaborator's attributes and by metadata *)

(** [PObj repr nm vl] is an object other than the listed scalars: [repr] is
    its [str()], [nm] and [vl] the [str()] of its [name] and [value]
    attributes where it has them (and they are not [None]). *)
Inductive PyVal : Type :=
| PNone
| PBool (b : bool)
| PInt (z : Z)
| PStr (s : string)
| PObj (repr : string) (nm vl : option string).

#[global] Instance PyVal_eq_dec : EqDecision PyVal.
Proof. solve_decision. Defined.

(** [getattr(obj, attr, default)] on an optional attribute. *)
Definition getattr {A} (attr : option A) (default : A) : A :=
  match attr with
  | Some v => v
  | None => default
  end.

(** [str(value)] *)
Definition py_str (v : PyVal) : string :=
  match v with
  | PNone => "None"
  | PBool true => "True"
  | PBool false => "False"
  | PInt z => PyStr.of_Z z
  | PStr s => s
  | PObj repr _ _ => repr
  end.

(** [bool(value)] *)
Definition py_bool (v : PyVal) : bool :=
  match v with
  | PNone => false
  | PBool b => b
  | PInt z => negb (Z.eqb z 0)
  | PStr s => negb (String.eqb s "")
  | PObj _ _ _ => true
  end.

(** [getattr(value, "name", None)] and [getattr(value, "value", None)],
    already passed through [str] when present. *)
Definition attr_name (v : PyVal) : option string :=
  match v with
  | PObj _ nm _ => nm
  | _ => None
  end.

Definition attr_value (v : PyVal) : option string :=
  match v with
  | PObj _ _ vl => vl
  | _ => None
  end.

(** The code point a string starts with, read from its UTF-8 encoding, and
    what follows it. *)
Definition decode_char (s : string) : option (N * string) :=
  let cont (c : ascii) : N := (N_of_ascii c - 128)%N in
  match s with
  | String a s1 =>
      let x := N_of_ascii a in
      if (x <? 128)%N then Some (x, s1)
      else
        match s1 with
        | String b s2 =>
            if (x <? 224)%N then Some ((x - 192) * 64 + cont b, s2)%N
            else
              match s2 with
              | String c s3 =>
                  if (x <? 240)%N
                  then Some ((x - 224) * 4096 + cont b * 64 + cont c, s3)%N
                  else
                    match s3 with
                    | String d s4 =>
                        Some ((x - 240) * 262144 + cont b * 4096 + cont c * 64 + cont d,
                              s4)%N
                    | EmptyString => None
                    end
              | EmptyString => None
              end
        | EmptyString => None
        end
  | EmptyString => None
  end.

(** The code points of the digits zero of Unicode 14: each is followed by
    the digits one to nine of its script. *)
Definition digit_zeros : list N :=
  [48; 1632; 1776; 1984; 2406; 2534; 2662; 2790; 2918; 3046; 3174; 3302; 3430; 3558;
   3664; 3792; 3872; 4160; 4240; 6112; 6160; 6470; 6608; 6784; 6800; 6992; 7088; 7232;
   7248; 42528; 43216; 43264; 43472; 43504; 43600; 44016; 65296; 66720; 68912; 69734;
   69872; 69942; 70096; 70384; 70736; 70864; 71248; 71360; 71472; 71904; 72016; 72784;
   73040; 73120; 92768; 92864; 93008; 120782; 120792; 120802; 120812; 120822; 123200;
   123632; 125264; 130032]%N.

(** [Py_UNICODE_TODECIMAL]: the value of a decimal digit. *)
Definition digit_value (cp : N) : option Z :=
  match List.find (fun z => (z <=? cp)%N && (cp <? z + 10)%N) digit_zeros with
  | Some z => Some (Z.of_N (cp - z))
  | None => None
  end.

(** The decimal digit a string starts with, and what follows it. *)
Definition next_digit (s : string) : option (Z * string) :=
  match decode_char s with
  | Some (cp, rest) =>
      match digit_value cp with
      | Some d => Some (d, rest)
      | None => None
      end
  | None => None
  end.

(** The white space [int] accepts around a number: that of [str.strip],
    without the separators 28-31. *)
Definition skip_int_space (s : string) : option string :=
  match s with
  | String a _ =>
      if (28 <=? nat_of_ascii a)%nat && (nat_of_ascii a <=? 31)%nat then None
      else PyStr.skip_space s
  | EmptyString => None
  end.

Fixpoint int_lstrip (fuel : nat) (s : string) : string :=
  match fuel with
  | O => s
  | S fuel' =>
      match skip_int_space s with
      | Some rest => int_lstrip fuel' rest
      | None => s
      end
  end.

(** The digits of [int(s)] and how many they are: decimal digits, single
    underscores allowed between two digits, white space allowed after the
    last one.  [fuel] bounds the characters read. *)
Fixpoint parse_digits (fuel : nat) (acc : Z) (count : nat) (after_digit : bool)
    (s : string) : option (Z * nat) :=
  match fuel with
  | O => None
  | S fuel' =>
      match next_digit s with
      | Some (d, rest) => parse_digits fuel' (10 * acc + d) (S count) true rest
      | None =>
          match s with
          | String "_" rest =>
              if after_digit then parse_digits fuel' acc count false rest else None
          | _ =>
              if after_digit && String.eqb (int_lstrip (String.length s) s) ""
              then Some (acc, count) else None
          end
      end
  end.

(** [sys.get_int_max_str_digits()], at its default. *)
Definition int_max_str_digits : nat := 4300.

(** [int(s)] for a string: [None] stands for [ValueError]. *)
Definition int_of_str (s : string) : option Z :=
  let t := int_lstrip (String.length s) s in
  let '(negative, digits) :=
    match t with
    | String "+" r => (false, r)
    | String "-" r => (true, r)
    | _ => (false, t)
    end in
  match parse_digits (S (String.length digits)) 0 0 false digits with
  | Some (z, count) =>
      if (int_max_str_digits <? count)%nat then None
      else Some (if negative then Z.opp z else z)
  | None => None
  end.

(** [_safe_int]: [int(value)], [None] on [TypeError] or [ValueError]. *)
Definition _safe_int (value : PyVal) : option Z :=
  match value with
  | PNone => None
  | PBool b => Some (if b then 1 else 0)%Z
  | PInt z => Some z
  | PStr s => int_of_str s
  | PObj _ _ _ => None
  end.

(** [_string]: the empty string for [None], [str(value)] otherwise. *)
Definition _string (value : PyVal) : string :=
  match value with
  | PNone => ""
  | v => py_str v
  end.

(** ** Documents, exceptions and generators *)

Record Document : Type := mkDocument {
  page_content : string;
  metadata : gmap string PyVal
}.

(** The exceptions the loaders distinguish.  [PyException] is an instance of
    [Exception] that is neither a [HwpHwpxLoaderError] nor a [_SkipFile];
    [PyBaseException] is one that [except Exception] does not catch. *)
Inductive exn : Type :=
| HwpHwpxLoaderError (msg : string) (cause : option exn)
| _SkipFile
| PyException (cls msg : string)
| PyBaseException (cls msg : string).

(** [exc.__class__.__name__] *)
Definition class_name (e : exn) : string :=
  match e with
  | HwpHwpxLoaderError _ _ => "HwpHwpxLoaderError"
  | _SkipFile => "_SkipFile"
  | PyException cls _ => cls
  | PyBaseException cls _ => cls
  end.

(** [str(exc)] *)
Definition exn_str (e : exn) : string :=
  match e with
  | HwpHwpxLoaderError msg _ => msg
  | _SkipFile => ""
  | PyException _ msg => msg
  | PyBaseException _ msg => msg
  end.

(** [isinstance(exc, Exception)] *)
Definition is_Exception (e : exn) : bool :=
  match e with
  | PyBaseException _ _ => false
  | _ => true
  end.

(** What a run of the loader does, in order. *)
Inductive event : Type :=
| Yield (d : Document)
| LogWarning (msg : string)
| Mkdir (dir : string)
| ImageSave (path : string)
| ReaderOpen (path : string)
| ExtractCall (with_options : bool)
| GetTablesCall
| GetImagesCall.

(** A generator (or any effectful method): its trace and its ending. *)
Definition Gen (A : Type) : Type := list event * (exn + A).

Definition ret {A} (a : A) : Gen A := ([], inr a).

Definition raise {A} (e : exn) : Gen A := ([], inl e).

Definition emit (ev : event) : Gen unit := ([ev], inr tt).

Definition bind {A B} (m : Gen A) (k : A -> Gen B) : Gen B :=
  match m with
  | (tr, inl e) => (tr, inl e)
  | (tr, inr a) => let '(tr', r) := k a in ((tr ++ tr')%list, r)
  end.

(** [try: m except ...: h]: the trace of [m] up to the exception is kept. *)
Definition try_except {A} (m : Gen A) (h : exn -> Gen A) : Gen A :=
  match m with
  | (tr, inl e) => let '(tr', r) := h e in ((tr ++ tr')%list, r)
  | (tr, inr a) => (tr, inr a)
  end.

(** A collaborator call: it either raises or returns. *)
Definition call {A} (r : exn + A) : Gen A := ([], r).

(** The outcome of a library function that raises [ValueError] with the
    message on the left. *)
Definition value_error {A} (r : string + A) : exn + A :=
  match r with
  | inl msg => inl (PyException "ValueError" msg)
  | inr a => inr a
  end.

Declare Scope gen_scope.
Delimit Scope gen_scope with gen.
Notation "x <- m ;; k" := (bind m (fun x => k))
  (at level 100, m at next level, right associativity) : gen_scope.
Notation "m ;;; k" := (bind m (fun _ => k))
  (at level 100, right associativity) : gen_scope.

(** The documents a trace yields, the warnings it logs, and its file-system
    effects. *)
Definition yielded (tr : list event) : list Document :=
  omap (fun ev => match ev with Yield d => Some d | _ => None end) tr.

Definition warnings (tr : list event) : list string :=
  omap (fun ev => match ev with LogWarning m => Some m | _ => None end) tr.

Definition is_fs_effect (ev : event) : bool :=
  match ev with
  | Mkdir _ | ImageSave _ => true
  | _ => false
  end.

Definition fs_effects (tr : list event) : list event := List.filter is_fs_effect tr.

(** ** Sorting ([sorted(xs, key=...)], a stable sort) *)

Section Sorted.
Context {A : Type} (key : A -> string).

Fixpoint insert_by (x : A) (l : list A) : list A :=
  match l with
  | [] => [x]
  | y :: l' =>
      if String.leb (key x) (key y) then x :: l else y :: insert_by x l'
  end.

(** Elements are inserted from the right, and an element goes before the
    ones with an equal key: equal keys keep their input order. *)
Definition sorted (l : list A) : list A := foldr insert_by [] l.
End Sorted.

(** ** The collaborator: the parsing library's objects *)

Module Table.
Record t : Type := mk {
  row_count : option PyVal;
  col_count : option PyVal;
  to_csv : option (string -> PyVal);
  to_inline : option PyVal;
  to_markdown : option PyVal;
  rows : option PyVal;
  self_value : PyVal
}.
End Table.

Module Note.
Record t : Type := mk {
  note_type : option PyVal;
  number : option PyVal;
  text : option PyVal
}.
End Note.

Module Memo.
Record t : Type := mk {
  id : option PyVal;
  memo_id : option PyVal;
  author : option PyVal;
  referenced_text : option PyVal;
  text : option PyVal
}.
End Memo.

(** A hyperlink record: a tuple or list, a dict, or an object with
    attributes. *)
Inductive Hyperlink : Type :=
| HSeq (items : list PyVal)
| HDict (d : gmap string PyVal)
| HObj (text url : option PyVal).

Module Image.
Record t : Type := mk {
  filename : option PyVal;
  format : option PyVal;
  save : option (string -> option exn)
}.
End Image.

Module Options.
Record t : Type := mk {
  paragraph_separator : option PyVal;
  table_style : option PyVal;
  table_delimiter : option PyVal
}.
End Options.

Module Result.
Record t : Type := mk {
  text : option PyVal;
  tables : option (list Table.t);
  notes : option (list Note.t);
  memos : option (list Memo.t);
  hyperlinks : option (list Hyperlink)
}.
End Result.

Module Reader.
Record t : Type := mk {
  file_type : option PyVal;
  is_encrypted : option PyVal;
  is_valid : option PyVal;
  text : option PyVal;
  extract_text_with_notes : option Options.t -> exn + Result.t;
  get_tables : option (exn + list Table.t);
  get_images : option (exn + list Image.t)
}.
End Reader.

(** What the loaders read from their environment: the file system, the
    installed parser ([None]: the import fails), the version strings and the
    clock.  [Path.exists], [is_dir] and [is_file] return a Boolean or raise
    (an [OSError] the system reports for the path); [fs_glob dir pattern]
    gives the entries the enumeration yields, in its order, and the exception
    that ends it, if one does. *)
Record Env : Type := mkEnv {
  fs_exists : string -> exn + bool;
  fs_is_dir : string -> exn + bool;
  fs_is_file : string -> exn + bool;
  fs_glob : string -> string -> list string * option exn;
  fs_mkdir : string -> option exn;
  parser_Reader : option (string -> exn + Reader.t);
  parser_version : option string;
  loader_version : string;
  utc_now : string
}.

(** ** Module-level helpers of [loader.py] *)

Definition nl : string := String (ascii_of_nat 10) EmptyString.

(** U+00A0, the no-break space, and U+3000, the ideographic space. *)
Definition nbsp : string := String (ascii_of_nat 194) (String (ascii_of_nat 160) "").

Definition ideographic_space : string :=
  String (ascii_of_nat 227) (String (ascii_of_nat 128) (String (ascii_of_nat 128) "")).

Definition truthy (s : string) : bool := negb (String.eqb s "").

Definition _VALID_MODES : list string := ["single"; "elements"].
Definition _VALID_STATUS_POLICIES : list string := ["raise"; "skip"; "placeholder"].
Definition _VALID_ERROR_POLICIES : list string := ["raise"; "skip"; "warn"].
Definition _VALID_IMAGE_DOCUMENT_MODES : list string := ["metadata_only"; "save_and_reference"].
Definition _SUPPORTED_EXTENSIONS : list string := [".hwp"; ".hwpx"].

(** [value in allowed] *)
Definition str_in (value : string) (allowed : list string) : bool :=
  existsb (String.eqb value) allowed.

(** [dir.glob(pattern)]: an empty pattern and an absolute one are refused
    before the file system is read. *)
Definition path_glob (env : Env) (dir pattern : string) : list string * option exn :=
  if String.eqb pattern "" then
    ([], Some (PyException "ValueError" "Unacceptable pattern: ''"))
  else if PyStr.startswith "/" pattern then
    ([], Some (PyException "NotImplementedError" "Non-relative patterns are unsupported"))
  else fs_glob env dir pattern.

Definition _import_parser (env : Env) : Gen (string -> exn + Reader.t) :=
  match parser_Reader env with
  | Some mk => ret mk
  | None =>
      raise (PyException "ImportError"
               "hwp-hwpx-parser is required. Install with: pip install hwp-hwpx-parser")
  end.

Definition _iso_utc_now (env : Env) : string := utc_now env.

Definition _parser_version (env : Env) : string :=
  match parser_version env with
  | Some v => v
  | None => "unknown"
  end.

Definition _validate_literal (value name : string) (allowed : list string) : Gen unit :=
  if negb (str_in value allowed) then
    let options := PyStr.join ", " (sorted (fun s => s) allowed) in
    raise (PyException "ValueError"
             ("Invalid " ++ name ++ "=" ++ PyStr.repr value
              ++ ". Expected one of: " ++ options))
  else ret tt.

(** The candidate strings [_normalize_file_type] scans, in order. *)
Definition file_type_candidates (value : PyVal) (file_path : string) : list string :=
  (match value with
   | PNone => []
   | v =>
       ([_string v]
        ++ (match attr_name v with Some n => [n] | None => [] end)
        ++ (match attr_value v with Some r => [r] | None => [] end))%list
   end
   ++ [PyStr.lstrip_char "." (Path.suffix file_path)])%list.

(** The body of the [for token in candidates] loop: [Some] is a [return]. *)
Definition classify_token (token : string) : option string :=
  let lowered := PyStr.lower token in
  if PyStr.contains "hwpx" lowered then Some "hwpx"
  else if PyStr.contains "hwp5" lowered || String.eqb lowered "hwp" then Some "hwp"
  else if PyStr.endswith ".hwpx" lowered then Some "hwpx"
  else if PyStr.endswith ".hwp" lowered then Some "hwp"
  else None.

Fixpoint scan_candidates (candidates : list string) : option string :=
  match candidates with
  | [] => None
  | token :: rest =>
      match classify_token token with
      | Some t => Some t
      | None => scan_candidates rest
      end
  end.

Definition _normalize_file_type (value : PyVal) (file_path : string) : string :=
  match scan_candidates (file_type_candidates value file_path) with
  | Some t => t
  | None => PyStr.lower (PyStr.lstrip_char "." (Path.suffix file_path))
  end.

Definition _normalize_hyperlink (hyperlink : Hyperlink) : string * string :=
  match hyperlink with
  | HSeq items =>
      let text := match items with v :: _ => _string v | [] => "" end in
      let url := match items with _ :: v :: _ => _string v | _ => "" end in
      (PyStr.strip text, PyStr.strip url)
  | HDict d =>
      let text := _string (getattr (d !! "text") (PStr "")) in
      let url := _string (getattr (d !! "url") (PStr "")) in
      (PyStr.strip text, PyStr.strip url)
  | HObj t u =>
      let text := _string (getattr t (PStr "")) in
      let url := _string (getattr u (PStr "")) in
      (PyStr.strip text, PyStr.strip url)
  end.

(** ** [HwpHwpxLoader] *)

Module HwpHwpxLoader.

Record t : Type := mk {
  file_path : string;
  mode : string;
  extract_options : option Options.t;
  include_tables : bool;
  include_notes : bool;
  include_memos : bool;
  include_hyperlinks : bool;
  include_images : bool;
  images_dir : option string;
  image_document_mode : string;
  on_encrypted : string;
  on_invalid : string;
  on_error : string;
  extra_metadata : gmap string PyVal;
  include_extracted_at : bool
}.

(** The keyword arguments of [__init__]; [None] takes the default. *)
Record kwargs : Type := mkKwargs {
  kw_mode : option string;
  kw_extract_options : option Options.t;
  kw_include_tables : option bool;
  kw_include_notes : option bool;
  kw_include_memos : option bool;
  kw_include_hyperlinks : option bool;
  kw_include_images : option bool;
  kw_images_dir : option string;
  kw_image_document_mode : option string;
  kw_on_encrypted : option string;
  kw_on_invalid : option string;
  kw_on_error : option string;
  kw_extra_metadata : option (gmap string PyVal);
  kw_include_extracted_at : option bool
}.

Definition no_kwargs : kwargs :=
  mkKwargs None None None None None None None None None None None None None None.

Definition __init__ (path : string) (kw : kwargs) : Gen t :=
  let mode := getattr (kw_mode kw) "single" in
  let on_encrypted := getattr (kw_on_encrypted kw) "raise" in
  let on_invalid := getattr (kw_on_invalid kw) "raise" in
  let on_error := getattr (kw_on_error kw) "raise" in
  let image_document_mode := getattr (kw_image_document_mode kw) "metadata_only" in
  (_validate_literal mode "mode" _VALID_MODES ;;;
   _validate_literal on_encrypted "on_encrypted" _VALID_STATUS_POLICIES ;;;
   _validate_literal on_invalid "on_invalid" _VALID_STATUS_POLICIES ;;;
   _validate_literal on_error "on_error" _VALID_ERROR_POLICIES ;;;
   _validate_literal image_document_mode "image_document_mode"
     _VALID_IMAGE_DOCUMENT_MODES ;;;
   ret {| file_path := path;
          mode := mode;
          extract_options := kw_extract_options kw;
          include_tables := getattr (kw_include_tables kw) true;
          include_notes := getattr (kw_include_notes kw) true;
          include_memos := getattr (kw_include_memos kw) true;
          include_hyperlinks := getattr (kw_include_hyperlinks kw) true;
          include_images := getattr (kw_include_images kw) false;
          images_dir := kw_images_dir kw;
          image_document_mode := image_document_mode;
          on_encrypted := on_encrypted;
          on_invalid := on_invalid;
          on_error := on_error;
          extra_metadata := getattr (kw_extra_metadata kw) ∅;
          include_extracted_at := getattr (kw_include_extracted_at kw) true |})%gen.

(** The same loader with another [on_invalid] policy. *)
Definition set_on_invalid (policy : string) (self : t) : t :=
  {| file_path := file_path self;
     mode := mode self;
     extract_options := extract_options self;
     include_tables := include_tables self;
     include_notes := include_notes self;
     include_memos := include_memos self;
     include_hyperlinks := include_hyperlinks self;
     include_images := include_images self;
     images_dir := images_dir self;
     image_document_mode := image_document_mode self;
     on_encrypted := on_encrypted self;
     on_invalid := policy;
     on_error := on_error self;
     extra_metadata := extra_metadata self;
     include_extracted_at := include_extracted_at self |}.

Section Methods.
Variable env : Env.
Variable self : t.

Definition _create_reader (path : string) : Gen Reader.t :=
  (parser <- _import_parser env ;;
   emit (ReaderOpen path) ;;;
   call (parser path))%gen.

Definition _extract_result (reader : Reader.t) : Gen Result.t :=
  match extract_options self with
  | None =>
      (emit (ExtractCall false) ;;;
       call (Reader.extract_text_with_notes reader None))%gen
  | Some opts =>
      (emit (ExtractCall true) ;;;
       call (Reader.extract_text_with_notes reader (Some opts)))%gen
  end.

Definition _build_common_metadata (path : string) (reader : Reader.t)
  : gmap string PyVal :=
  let metadata : gmap string PyVal :=
    <["parser" := PStr ("hwp-hwpx-parser/" ++ _parser_version env)]>
    (<["loader" := PStr ("langchain_hwp_hwpx/" ++ loader_version env)]>
    (<["file_type" :=
         PStr (_normalize_file_type (getattr (Reader.file_type reader) PNone) path)]>
    (<["file_name" := PStr (Path.name path)]>
    (<["source" := PStr path]> ∅)))) in
  let metadata :=
    if include_extracted_at self
    then <["extracted_at" := PStr (_iso_utc_now env)]> metadata
    else metadata in
  (* metadata.update(self.extra_metadata) *)
  extra_metadata self ∪ metadata.

Definition _resolve_status_policy (policy status path : string)
    (base_metadata : gmap string PyVal) : Gen (option Document) :=
  let message := "Document skipped because it is " ++ status ++ ": " ++ path in
  if String.eqb policy "raise" then raise (HwpHwpxLoaderError message None)
  else if String.eqb policy "skip" then raise _SkipFile
  else
    let placeholder_metadata := base_metadata in
    let placeholder_metadata := <["status" := PStr status]> placeholder_metadata in
    let placeholder_metadata :=
      <["element_type" := PStr "placeholder"]> placeholder_metadata in
    ret (Some {| page_content :=
                   "[" ++ PyStr.upper status ++ "] " ++ Path.name path
                   ++ " cannot be parsed by policy.";
                 metadata := placeholder_metadata |}).

Definition _handle_file_status (reader : Reader.t)
    (base_metadata : gmap string PyVal) : Gen (option Document) :=
  if py_bool (getattr (Reader.is_encrypted reader) (PBool false)) then
    _resolve_status_policy (on_encrypted self) "encrypted" (file_path self)
      base_metadata
  else if negb (py_bool (getattr (Reader.is_valid reader) (PBool true))) then
    _resolve_status_policy (on_invalid self) "invalid" (file_path self)
      base_metadata
  else ret None.

Definition _handle_runtime_error (path : string) (exc : exn) : Gen unit :=
  let message := "Failed to parse " ++ path ++ ": " ++ class_name exc in
  if String.eqb (on_error self) "raise" then
    match exc with
    | HwpHwpxLoaderError _ _ => raise exc
    | _ => raise (HwpHwpxLoaderError message (Some exc))
    end
  else if String.eqb (on_error self) "warn" then
    emit (LogWarning (message ++ " (" ++ exn_str exc ++ ")"))
  else ret tt.

Definition _element_metadata (base_metadata : gmap string PyVal)
    (element_type : string) (element_index : nat) : gmap string PyVal :=
  let metadata := base_metadata in
  let metadata := <["element_type" := PStr element_type]> metadata in
  let metadata := <["element_index" := PInt (Z.of_nat element_index)]> metadata in
  metadata.

Definition _extract_body_text (reader : Reader.t) (result : Result.t) : string :=
  let text := PyStr.strip (_string (getattr (Result.text result) (PStr ""))) in
  if truthy text then text
  else PyStr.strip (_string (getattr (Reader.text reader) (PStr ""))).

Definition _collect_tables (reader : Reader.t) (result : Result.t)
  : Gen (list Table.t) :=
  match Result.tables result with
  | Some tables => ret tables
  | None =>
      match Reader.get_tables reader with
      | Some get_tables => (emit GetTablesCall ;;; call get_tables)%gen
      | None => ret []
      end
  end.

Definition _collect_notes (result : Result.t) : list Note.t :=
  match Result.notes result with
  | Some notes => notes
  | None => []
  end.

Definition _collect_memos (result : Result.t) : list Memo.t :=
  match Result.memos result with
  | Some memos => memos
  | None => []
  end.

Definition _collect_hyperlinks (result : Result.t) : list Hyperlink :=
  match Result.hyperlinks result with
  | Some links => links
  | None => []
  end.

Definition _collect_images (reader : Reader.t) : Gen (list Image.t) :=
  match Reader.get_images reader with
  | Some get_images => (emit GetImagesCall ;;; call get_images)%gen
  | None => ret []
  end.

(** [getattr(self.extract_options, attr, default)]; [None] has no
    attributes. *)
Definition option_attr (attr : Options.t -> option PyVal) (default : PyVal) : PyVal :=
  match extract_options self with
  | Some opts => getattr (attr opts) default
  | None => default
  end.

Definition _render_table (table : Table.t) : string :=
  let style_name :=
    _string (PStr (getattr (attr_name (option_attr Options.table_style PNone)) "")) in
  let style_name :=
    if negb (truthy style_name)
    then _string (option_attr Options.table_style (PStr ""))
    else style_name in
  let style_name := PyStr.upper style_name in
  match (if PyStr.contains "CSV" style_name then Table.to_csv table else None) with
  | Some to_csv =>
      let csv_delimiter :=
        PyStr.strip (_string (option_attr Options.table_delimiter (PStr ","))) in
      let csv_delimiter := if negb (truthy csv_delimiter) then "," else csv_delimiter in
      PyStr.strip (_string (to_csv csv_delimiter))
  | None =>
      match (if PyStr.contains "INLINE" style_name then Table.to_inline table
             else None) with
      | Some inline => PyStr.strip (_string inline)
      | None =>
          match Table.to_markdown table with
          | Some markdown => PyStr.strip (_string markdown)
          | None =>
              PyStr.strip
                (_string (getattr (Table.rows table) (Table.self_value table)))
          end
      end
  end.

(** [_materialize_image] writes into the [metadata] dict it is given: the
    updated dict is returned with the content. *)
Definition _materialize_image (path : string) (image_index : nat)
    (image : Image.t) (metadata : gmap string PyVal)
  : Gen (string * gmap string PyVal) :=
  let filename := PyStr.strip (_string (getattr (Image.filename image) (PStr ""))) in
  let fmt :=
    let f := PyStr.lower (PyStr.strip (_string (getattr (Image.format image) (PStr "bin")))) in
    if truthy f then f else "bin" in
  let generated_name := "image_" ++ PyStr.pad3 image_index ++ "." ++ fmt in
  let resolved_name := if truthy filename then filename else generated_name in
  let metadata := <["filename" := PStr resolved_name]> metadata in
  let metadata := <["image_format" := PStr fmt]> metadata in
  let fallback :=
    ret (resolved_name ++ " (" ++ fmt ++ ") from " ++ Path.name path, metadata) in
  match (if String.eqb (image_document_mode self) "save_and_reference"
         then images_dir self else None) with
  | Some dir =>
      (emit (Mkdir dir) ;;;
       call (match fs_mkdir env dir with Some e => inl e | None => inr tt end) ;;;
       let output_path := Path.joinpath dir resolved_name in
       output_path <- (if String.eqb (Path.suffix output_path) ""
                       then call (value_error (Path.with_suffix output_path ("." ++ fmt)))
                       else ret output_path) ;;
       match Image.save image with
       | Some save =>
           emit (ImageSave output_path) ;;;
           call (match save output_path with Some e => inl e | None => inr tt end) ;;;
           let metadata := <["saved_path" := PStr output_path]> metadata in
           ret (resolved_name ++ " -> " ++ output_path, metadata)
       | None => fallback
       end)%gen
  | None => fallback
  end.

Definition _render_tables_for_single (reader : Reader.t) (result : Result.t)
  : Gen string :=
  (tables <- _collect_tables reader result ;;
   match tables with
   | [] => ret ""
   | _ =>
       let delimiter :=
         PyStr.strip
           (_string (option_attr Options.paragraph_separator (PStr (nl ++ nl)))) in
       let delimiter := if negb (truthy delimiter) then nl ++ nl else delimiter in
       let rendered := List.map _render_table tables in
       ret ("## Tables" ++ nl ++ PyStr.join delimiter rendered)
   end)%gen.

Definition note_line (note : Note.t) : string :=
  let note_type :=
    PyStr.lower (_string (getattr (Note.note_type note) (PStr "footnote"))) in
  let number := _safe_int (getattr (Note.number note) PNone) in
  let marker :=
    match number with
    | Some n => "[" ++ note_type ++ ":" ++ PyStr.of_Z n ++ "]"
    | None => "[" ++ note_type ++ "]"
    end in
  let text := PyStr.strip (_string (getattr (Note.text note) (PStr ""))) in
  PyStr.strip (marker ++ " " ++ text).

Definition _render_notes_for_single (result : Result.t) : string :=
  match _collect_notes result with
  | [] => ""
  | notes => PyStr.join nl ("## Notes" :: List.map note_line notes)
  end.

Definition memo_line (idx : nat) (memo : Memo.t) : string :=
  let author := PyStr.strip (_string (getattr (Memo.author memo) (PStr ""))) in
  let text := PyStr.strip (_string (getattr (Memo.text memo) (PStr ""))) in
  let label := "[memo:" ++ PyStr.of_nat idx ++ "]" in
  let label := if truthy author then label ++ " (" ++ author ++ ")" else label in
  PyStr.strip (label ++ " " ++ text).

(** [enumerate(xs, start)] *)
Fixpoint enumerate {A} (start : nat) (xs : list A) : list (nat * A) :=
  match xs with
  | [] => []
  | x :: xs' => (start, x) :: enumerate (S start) xs'
  end.

Definition _render_memos_for_single (result : Result.t) : string :=
  match _collect_memos result with
  | [] => ""
  | memos =>
      PyStr.join nl
        ("## Memos" :: List.map (fun '(idx, memo) => memo_line idx memo)
                         (enumerate 1 memos))
  end.

Definition hyperlink_lines (hyperlink : Hyperlink) : list string :=
  let '(text, url) := _normalize_hyperlink hyperlink in
  if truthy text && truthy url then ["- " ++ text ++ ": " ++ url]
  else if truthy url then ["- " ++ url]
  else if truthy text then ["- " ++ text]
  else [].

Definition _render_hyperlinks_for_single (result : Result.t) : string :=
  match _collect_hyperlinks result with
  | [] => ""
  | links => PyStr.join nl ("## Hyperlinks" :: List.concat (List.map hyperlink_lines links))
  end.

(** A [for] loop over [xs] that threads a loop variable. *)
Fixpoint for_each {A S} (xs : list A) (s : S) (body : S -> A -> Gen S) : Gen S :=
  match xs with
  | [] => ret s
  | x :: xs' => (s' <- body s x ;; for_each xs' s' body)%gen
  end.

Definition _render_images_for_single (path : string) (reader : Reader.t)
  : Gen string :=
  (images <- _collect_images reader ;;
   match images with
   | [] => ret ""
   | _ =>
       lines <- for_each (enumerate 0 images) ["## Images"]
                  (fun lines '(image_index, image) =>
                     r <- _materialize_image path image_index image ∅ ;;
                     ret (lines ++ [fst r])%list) ;;
       ret (PyStr.join nl lines)
   end)%gen.

(** [if flag: text = render; if text: chunks.append(text)] *)
Definition append_section (include : bool) (render : Gen string)
    (chunks : list string) : Gen (list string) :=
  if include then
    (text <- render ;;
     ret (if truthy text then (chunks ++ [text])%list else chunks))%gen
  else ret chunks.

Definition _build_single_document (path : string) (reader : Reader.t)
    (result : Result.t) (base_metadata : gmap string PyVal) : Gen Document :=
  (let chunks : list string := [] in
   let body_text := _extract_body_text reader result in
   let chunks := if truthy body_text then (chunks ++ [body_text])%list else chunks in
   chunks <- append_section (include_tables self)
               (_render_tables_for_single reader result) chunks ;;
   chunks <- append_section (include_notes self)
               (ret (_render_notes_for_single result)) chunks ;;
   chunks <- append_section (include_memos self)
               (ret (_render_memos_for_single result)) chunks ;;
   chunks <- append_section (include_hyperlinks self)
               (ret (_render_hyperlinks_for_single result)) chunks ;;
   chunks <- append_section (include_images self)
               (_render_images_for_single path reader) chunks ;;
   let metadata := base_metadata in
   let metadata := <["element_type" := PStr "document"]> metadata in
   let content := PyStr.strip (PyStr.join (nl ++ nl) (List.filter truthy chunks)) in
   ret {| page_content := content; metadata := metadata |})%gen.

(** The loop bodies of [_build_element_documents]; each takes the running
    [index] and returns its value after the iteration. *)
Definition table_element (base_metadata : gmap string PyVal) (index : nat)
    (table : Table.t) : Gen nat :=
  let table_metadata := _element_metadata base_metadata "table" index in
  let row_count := _safe_int (getattr (Table.row_count table) PNone) in
  let col_count := _safe_int (getattr (Table.col_count table) PNone) in
  let table_metadata :=
    match row_count with
    | Some n => <["row_count" := PInt n]> table_metadata
    | None => table_metadata
    end in
  let table_metadata :=
    match col_count with
    | Some n => <["col_count" := PInt n]> table_metadata
    | None => table_metadata
    end in
  (emit (Yield {| page_content := _render_table table; metadata := table_metadata |}) ;;;
   ret (index + 1)%nat)%gen.

Definition note_element (base_metadata : gmap string PyVal) (index : nat)
    (note : Note.t) : Gen nat :=
  let note_type :=
    PyStr.lower (_string (getattr (Note.note_type note) (PStr "footnote"))) in
  let element_type := if String.eqb note_type "endnote" then "endnote" else "footnote" in
  let note_metadata := _element_metadata base_metadata element_type index in
  let note_metadata := <["note_type" := PStr note_type]> note_metadata in
  let number := _safe_int (getattr (Note.number note) PNone) in
  let note_metadata :=
    match number with
    | Some n => <["note_number" := PInt n]> note_metadata
    | None => note_metadata
    end in
  (emit (Yield {| page_content :=
                    PyStr.strip (_string (getattr (Note.text note) (PStr "")));
                  metadata := note_metadata |}) ;;;
   ret (index + 1)%nat)%gen.

(** [if value not in (None, ""): memo_metadata[key] = value] *)
Definition copy_memo_key (key : string) (value : PyVal)
    (memo_metadata : gmap string PyVal) : gmap string PyVal :=
  match value with
  | PNone => memo_metadata
  | PStr "" => memo_metadata
  | v => <[key := v]> memo_metadata
  end.

Definition memo_element (base_metadata : gmap string PyVal) (index : nat)
    (memo : Memo.t) : Gen nat :=
  let memo_metadata := _element_metadata base_metadata "memo" index in
  let memo_metadata := copy_memo_key "id" (getattr (Memo.id memo) PNone) memo_metadata in
  let memo_metadata :=
    copy_memo_key "memo_id" (getattr (Memo.memo_id memo) PNone) memo_metadata in
  let memo_metadata :=
    copy_memo_key "author" (getattr (Memo.author memo) PNone) memo_metadata in
  let memo_metadata :=
    copy_memo_key "referenced_text" (getattr (Memo.referenced_text memo) PNone)
      memo_metadata in
  (emit (Yield {| page_content :=
                    PyStr.strip (_string (getattr (Memo.text memo) (PStr "")));
                  metadata := memo_metadata |}) ;;;
   ret (index + 1)%nat)%gen.

Definition hyperlink_element (base_metadata : gmap string PyVal) (index : nat)
    (hyperlink : Hyperlink) : Gen nat :=
  let hyperlink_metadata := _element_metadata base_metadata "hyperlink" index in
  let '(text, url) := _normalize_hyperlink hyperlink in
  if negb (truthy text) && negb (truthy url) then
    (* continue *)
    ret index
  else
    let hyperlink_metadata :=
      if truthy url then <["url" := PStr url]> hyperlink_metadata
      else hyperlink_metadata in
    let hyperlink_metadata :=
      if truthy text then <["text" := PStr text]> hyperlink_metadata
      else hyperlink_metadata in
    let content := if truthy text then text else url in
    (emit (Yield {| page_content := content; metadata := hyperlink_metadata |}) ;;;
     ret (index + 1)%nat)%gen.

Definition image_element (path : string) (base_metadata : gmap string PyVal)
    (index : nat) (item : nat * Image.t) : Gen nat :=
  let '(image_index, image) := item in
  let image_metadata := _element_metadata base_metadata "image" index in
  (r <- _materialize_image path image_index image image_metadata ;;
   emit (Yield {| page_content := fst r; metadata := snd r |}) ;;;
   ret (index + 1)%nat)%gen.

Definition _build_element_documents (path : string) (reader : Reader.t)
    (result : Result.t) (base_metadata : gmap string PyVal) : Gen unit :=
  (let index := 0%nat in
   let body_text := _extract_body_text reader result in
   index <- (if truthy body_text then
               emit (Yield {| page_content := body_text;
                              metadata := _element_metadata base_metadata "body" index |}) ;;;
               ret (index + 1)%nat
             else ret index) ;;
   index <- (if include_tables self then
               tables <- _collect_tables reader result ;;
               for_each tables index (table_element base_metadata)
             else ret index) ;;
   index <- (if include_notes self then
               for_each (_collect_notes result) index (note_element base_metadata)
             else ret index) ;;
   index <- (if include_memos self then
               for_each (_collect_memos result) index (memo_element base_metadata)
             else ret index) ;;
   index <- (if include_hyperlinks self then
               for_each (_collect_hyperlinks result) index
                 (hyperlink_element base_metadata)
             else ret index) ;;
   index <- (if include_images self then
               images <- _collect_images reader ;;
               for_each (enumerate 0 images) index (image_element path base_metadata)
             else ret index) ;;
   ret tt)%gen.

(** The [try] block of [lazy_load]. *)
Definition lazy_load_body (path : string) : Gen unit :=
  (reader <- _create_reader path ;;
   let base_metadata := _build_common_metadata path reader in
   placeholder <- _handle_file_status reader base_metadata ;;
   match placeholder with
   | Some doc => emit (Yield doc)
   | None =>
       result <- _extract_result reader ;;
       if String.eqb (mode self) "single" then
         doc <- _build_single_document path reader result base_metadata ;;
         emit (Yield doc)
       else _build_element_documents path reader result base_metadata
   end)%gen.

Definition lazy_load : Gen unit :=
  let path := file_path self in
  if negb (str_in (PyStr.lower (Path.suffix path)) _SUPPORTED_EXTENSIONS) then
    raise (PyException "ValueError"
             ("Unsupported extension for " ++ path ++ ". Use .hwp or .hwpx"))
  else
    (found <- call (fs_exists env path) ;;
     if negb found then
       raise (PyException "FileNotFoundError" ("File not found: " ++ path))
     else
       try_except (lazy_load_body path)
         (fun exc =>
            match exc with
            | _SkipFile => ret tt
            | HwpHwpxLoaderError _ _ => raise exc
            | PyException _ _ => _handle_runtime_error path exc
            | PyBaseException _ _ => raise exc
            end))%gen.

End Methods.

End HwpHwpxLoader.

(** ** [HwpHwpxDirectoryLoader] *)

Module HwpHwpxDirectoryLoader.

Record t : Type := mk {
  dir_path : string;
  glob : string;
  recursive : bool;
  extensions : list string;
  loader_kwargs : HwpHwpxLoader.kwargs;
  on_error : string
}.

Definition _normalize_extension (extension : string) : Gen string :=
  let extension := PyStr.lower (PyStr.strip extension) in
  if negb (truthy extension) then
    raise (PyException "ValueError" "extensions must not contain empty values")
  else if negb (PyStr.startswith "." extension) then ret ("." ++ extension)
  else ret extension.

(** [tuple(f(x) for x in xs)] for an [f] that may raise. *)
Fixpoint map_gen {A B} (f : A -> Gen B) (xs : list A) : Gen (list B) :=
  match xs with
  | [] => ret []
  | x :: xs' => (y <- f x ;; ys <- map_gen f xs' ;; ret (y :: ys))%gen
  end.

Definition set_on_error (v : string) (kw : HwpHwpxLoader.kwargs) : HwpHwpxLoader.kwargs :=
  let 'HwpHwpxLoader.mkKwargs a b c d e f g h i j k _ m n := kw in
  HwpHwpxLoader.mkKwargs a b c d e f g h i j k (Some v) m n.

Definition __init__ (dir glob_pattern : string) (recursive : bool)
    (extensions : list string) (loader_kwargs : HwpHwpxLoader.kwargs) : Gen t :=
  (extensions <- map_gen _normalize_extension extensions ;;
   let on_error := getattr (HwpHwpxLoader.kw_on_error loader_kwargs) "raise" in
   _validate_literal on_error "on_error" _VALID_ERROR_POLICIES ;;;
   let loader_kwargs :=
     match HwpHwpxLoader.kw_on_error loader_kwargs with
     | None => set_on_error on_error loader_kwargs
     | Some _ => loader_kwargs
     end in
   ret {| dir_path := dir; glob := glob_pattern; recursive := recursive;
          extensions := extensions; loader_kwargs := loader_kwargs;
          on_error := on_error |})%gen.

Section Methods.
Variable env : Env.
Variable self : t.

(** The paths the glob enumerates, in the order the file system gives
    them, and the exception that ends the enumeration, if one does. *)
Definition candidates : list string * option exn :=
  let pattern := glob self in
  if recursive self then path_glob env (dir_path self) pattern
  else
    let local_pattern := PyStr.replace "**" "*" (PyStr.replace "**/" "" pattern) in
    path_glob env (dir_path self) local_pattern.

(** The list comprehension over the enumerated entries: each entry is
    examined as it comes, and the first call that raises ends it. *)
Fixpoint select_files (entries : list string) : exn + list string :=
  match entries with
  | [] => inr []
  | path :: rest =>
      match fs_is_file env path with
      | inl e => inl e
      | inr is_file =>
          match select_files rest with
          | inl e => inl e
          | inr files =>
              inr (if is_file
                      && str_in (PyStr.lower (Path.suffix path)) (extensions self)
                   then path :: files else files)
          end
      end
  end.

Definition _collect_files : exn + list string :=
  let '(entries, pending) := candidates in
  match select_files entries with
  | inl e => inl e
  | inr files =>
      match pending with
      | Some e => inl e
      | None => inr (sorted (fun item => item) files)
      end
  end.

(** One iteration of the [for file_path in ...] loop. *)
Definition load_file (path : string) : Gen unit :=
  try_except
    (loader <- HwpHwpxLoader.__init__ path (loader_kwargs self) ;;
     HwpHwpxLoader.lazy_load env loader)%gen
    (fun exc =>
       if is_Exception exc then
         let message := "Failed to load file " ++ path ++ ": " ++ class_name exc in
         if String.eqb (on_error self) "raise" then
           raise (HwpHwpxLoaderError message (Some exc))
         else if String.eqb (on_error self) "warn" then
           emit (LogWarning (message ++ " (" ++ exn_str exc ++ ")"))
         else ret tt
       else raise exc).

Definition lazy_load : Gen unit :=
  (found <- call (fs_exists env (dir_path self)) ;;
   if negb found then
     raise (PyException "FileNotFoundError" ("Directory not found: " ++ dir_path self))
   else
     is_dir <- call (fs_is_dir env (dir_path self)) ;;
     if negb is_dir then
       raise (PyException "NotADirectoryError"
                ("Expected directory path: " ++ dir_path self))
     else
       files <- call _collect_files ;;
       HwpHwpxLoader.for_each files tt (fun _ path => load_file path))%gen.

End Methods.

End HwpHwpxDirectoryLoader.

(** ** Sample collaborators (after [tests/test_loader.py]) *)

Module Fixtures.

Definition sample_file : string := "/tmp/sample.hwp".

Definition FakeTable : Table.t :=
  {| Table.row_count := Some (PInt 2);
     Table.col_count := Some (PInt 2);
     Table.to_csv := Some (fun d => PStr ("A" ++ d ++ "B" ++ nl ++ "1" ++ d ++ "2"));
     Table.to_inline := Some (PStr "A:1, B:2");
     Table.to_markdown := Some (PStr ("|A|B|" ++ nl ++ "|---|---|" ++ nl ++ "|1|2|"));
     Table.rows := None;
     Table.self_value := PObj "<FakeTable object>" None None |}.

Definition FakeImage : Image.t :=
  {| Image.filename := Some (PStr "diagram.png");
     Image.format := Some (PStr "png");
     Image.save := Some (fun _ => None) |}.


Definition footnote : Note.t :=
  {| Note.note_type := Some (PStr "footnote");
     Note.number := Some (PInt 1);
     Note.text := Some (PStr "footnote text") |}.

Definition endnote : Note.t :=
  {| Note.note_type := Some (PStr "endnote");
     Note.number := Some (PInt 2);
     Note.text := Some (PStr "endnote text") |}.

Definition memo : Memo.t :=
  {| Memo.id := Some (PStr "m1");
     Memo.memo_id := None;
     Memo.author := Some (PStr "tester");
     Memo.referenced_text := None;
     Memo.text := Some (PStr "memo text") |}.

Definition link : Hyperlink := HSeq [PStr "site"; PStr "https://example.com"].

(** A hyperlink record with nothing but white space in it. *)
Definition blank_link : Hyperlink := HSeq [PStr (" " ++ ideographic_space); PStr nbsp].

Definition fake_result : Result.t :=
  {| Result.text := Some (PStr "body [footnote:1]");
     Result.tables := None;
     Result.notes := Some [footnote; endnote];
     Result.memos := Some [memo];
     Result.hyperlinks := Some [link] |}.

(** A result with nothing in it. *)
Definition empty_result : Result.t :=
  {| Result.text := Some (PStr (ideographic_space ++ " " ++ nbsp));
     Result.tables := Some [];
     Result.notes := Some [];
     Result.memos := None;
     Result.hyperlinks := Some [] |}.

(** [FakeFileType.HWP5], an [Enum] member with an [auto()] value. *)
Definition HWP5 : PyVal := PObj "FakeFileType.HWP5" (Some "HWP5") (Some "1").

Definition reader_with (is_encrypted is_valid : bool) (text : string)
    (extract : exn + Result.t) : Reader.t :=
  {| Reader.file_type := Some HWP5;
     Reader.is_encrypted := Some (PBool is_encrypted);
     Reader.is_valid := Some (PBool is_valid);
     Reader.text := Some (PStr text);
     Reader.extract_text_with_notes := fun _ => extract;
     Reader.get_tables := Some (inr [FakeTable]);
     Reader.get_images := Some (inr [FakeImage]) |}.

Definition FakeReader : Reader.t := reader_with false true "reader text" (inr fake_result).

Definition EncryptedReader : Reader.t :=
  reader_with true true "reader text" (inr fake_result).

(** Encrypted and invalid at once. *)
Definition BrokenReader : Reader.t :=
  reader_with true false "reader text" (inr fake_result).

Definition FailingReader : Reader.t :=
  reader_with false true "reader text" (inl (PyException "RuntimeError" "boom")).

Definition BlankReader : Reader.t :=
  {| Reader.file_type := Some HWP5;
     Reader.is_encrypted := Some (PBool false);
     Reader.is_valid := Some (PBool true);
     Reader.text := None;
     Reader.extract_text_with_notes := fun _ => inr empty_result;
     Reader.get_tables := None;
     Reader.get_images := Some (inr []) |}.

(** A directory [/docs] whose enumeration gives [listing]; every path that
    has an extension is a regular file, and every file opens as [reader]. *)
Definition env_with (reader : Reader.t) (listing : list string) : Env :=
  {| fs_exists := fun _ => inr true;
     fs_is_dir := fun p => inr (String.eqb (Path.suffix p) "");
     fs_is_file := fun p => inr (negb (String.eqb (Path.suffix p) ""));
     fs_glob := fun _ _ => (listing, None);
     fs_mkdir := fun _ => None;
     parser_Reader := Some (fun _ => inr reader);
     parser_version := Some "1.0.0";
     loader_version := "0.1.0";
     utc_now := "2026-01-01T00:00:00+00:00" |}.

Definition listing : list string :=
  ["/docs/b.hwp"; "/docs/a.HWPX"; "/docs/sub"; "/docs/sub/c.hwp"; "/docs/ignored.txt"].

Definition env : Env := env_with FakeReader listing.

(** The same directory when every file is encrypted. *)
Definition encrypted_env : Env := env_with EncryptedReader listing.

(** [HwpHwpxLoader(sample_file, mode=..., include_images=True, on_encrypted=...,
    on_error=..., include_extracted_at=False)] *)
Definition loader (mode on_encrypted on_error : string) : HwpHwpxLoader.t :=
  {| HwpHwpxLoader.file_path := sample_file;
     HwpHwpxLoader.mode := mode;
     HwpHwpxLoader.extract_options := None;
     HwpHwpxLoader.include_tables := true;
     HwpHwpxLoader.include_notes := true;
     HwpHwpxLoader.include_memos := true;
     HwpHwpxLoader.include_hyperlinks := true;
     HwpHwpxLoader.include_images := true;
     HwpHwpxLoader.images_dir := None;
     HwpHwpxLoader.image_document_mode := "metadata_only";
     HwpHwpxLoader.on_encrypted := on_encrypted;
     HwpHwpxLoader.on_invalid := "raise";
     HwpHwpxLoader.on_error := on_error;
     HwpHwpxLoader.extra_metadata := ∅;
     HwpHwpxLoader.include_extracted_at := false |}.

(** The same with [images_dir="/out"] and
    [image_document_mode="save_and_reference"]. *)
Definition saving_loader : HwpHwpxLoader.t :=
  {| HwpHwpxLoader.file_path := sample_file;
     HwpHwpxLoader.mode := "elements";
     HwpHwpxLoader.extract_options := None;
     HwpHwpxLoader.include_tables := true;
     HwpHwpxLoader.include_notes := true;
     HwpHwpxLoader.include_memos := true;
     HwpHwpxLoader.include_hyperlinks := true;
     HwpHwpxLoader.include_images := true;
     HwpHwpxLoader.images_dir := Some "/out";
     HwpHwpxLoader.image_document_mode := "save_and_reference";
     HwpHwpxLoader.on_encrypted := "raise";
     HwpHwpxLoader.on_invalid := "raise";
     HwpHwpxLoader.on_error := "raise";
     HwpHwpxLoader.extra_metadata := ∅;
     HwpHwpxLoader.include_extracted_at := false |}.

(** [HwpHwpxDirectoryLoader("/docs")] after its [__init__]. *)
Definition directory_loader : HwpHwpxDirectoryLoader.t :=
  {| HwpHwpxDirectoryLoader.dir_path := "/docs";
     HwpHwpxDirectoryLoader.glob := "**/*";
     HwpHwpxDirectoryLoader.recursive := true;
     HwpHwpxDirectoryLoader.extensions := [".hwp"; ".hwpx"];
     HwpHwpxDirectoryLoader.loader_kwargs :=
       HwpHwpxDirectoryLoader.set_on_error "raise" HwpHwpxLoader.no_kwargs;
     HwpHwpxDirectoryLoader.on_error := "raise" |}.

(** [list(HwpHwpxLoader(path, **kw).lazy_load())] *)
Definition run (env : Env) (path : string) (kw : HwpHwpxLoader.kwargs) : Gen unit :=
  bind (HwpHwpxLoader.__init__ path kw) (HwpHwpxLoader.lazy_load env).

(** The run yields one document, and its content has all the [parts]. *)
Definition content_has (out : Gen unit) (parts : list string) : bool :=
  match yielded (fst out) with
  | [doc] => forallb (fun part => PyStr.contains part (page_content doc)) parts
  | _ => false
  end.

(** [SimpleNamespace(table_style=SimpleNamespace(name="CSV"),
    table_delimiter=";", paragraph_separator="\n\n")] *)
Definition csv_options : Options.t :=
  {| Options.paragraph_separator := Some (PStr (nl ++ nl));
     Options.table_style := Some (PObj "namespace(name='CSV')" (Some "CSV") None);
     Options.table_delimiter := Some (PStr ";") |}.

End Fixtures.

(** ** Vocabulary of the statements *)

(** The extension of [path] is one of the supported ones. *)
Definition supported (path : string) : Prop :=
  str_in (PyStr.lower (Path.suffix path)) _SUPPORTED_EXTENSIONS = true.

(** The file exists and the parser library opens it as [reader]. *)
Definition opens (env : Env) (path : string) (reader : Reader.t) : Prop :=
  fs_exists env path = inr true /\
  exists mkr, parser_Reader env = Some mkr /\ mkr path = inr reader.

Definition reports_encrypted (reader : Reader.t) : bool :=
  py_bool (getattr (Reader.is_encrypted reader) (PBool false)).

Definition reports_invalid (reader : Reader.t) : bool :=
  negb (py_bool (getattr (Reader.is_valid reader) (PBool true))).

(** The kind of a note as the loader reads it. *)
Definition note_kind (note : Note.t) : string :=
  PyStr.lower (_string (getattr (Note.note_type note) (PStr "footnote"))).

(** Materialising [image] raises nothing: the directory can be created and
    the image saved, where the configuration asks for it. *)
Definition materializes (env : Env) (self : HwpHwpxLoader.t) (path : string)
    (image_index : nat) (image : Image.t) : Prop :=
  forall md, exists r,
    snd (HwpHwpxLoader._materialize_image env self path image_index image md) = inr r.

(** The same result with other hyperlink records. *)
Definition with_hyperlinks (links : list Hyperlink) (result : Result.t) : Result.t :=
  {| Result.text := Result.text result;
     Result.tables := Result.tables result;
     Result.notes := Result.notes result;
     Result.memos := Result.memos result;
     Result.hyperlinks := Some links |}.

Definition element_type (d : Document) : option PyVal := metadata d !! "element_type".

Definition element_index (d : Document) : option PyVal := metadata d !! "element_index".

(** A document of the given element type and index. *)
Definition is_element (ty : string) (i : nat) (d : Document) : Prop :=
  element_type d = Some (PStr ty) /\ element_index d = Some (PInt (Z.of_nat i)).

(** [m] ends normally with [a], after the trace [tr]. *)
Definition returns {A} (m : Gen A) (tr : list event) (a : A) : Prop := m = (tr, inr a).

(** A computation that ends normally and yields nothing on the way. *)
Definition quiet {A} (m : Gen A) (a : A) : Prop :=
  exists tr, returns m tr a /\ yielded tr = [].

(** The form [_normalize_extension] gives an extension it accepts. *)
Definition normalized_extension (extension : string) : string :=
  let extension := PyStr.lower (PyStr.strip extension) in
  if PyStr.startswith "." extension then extension else "." ++ extension.

(** The order [sorted] sorts by: the keys compared as strings. *)
Definition key_le {A : Type} (key : A -> string) (a b : A) : Prop :=
  String.le (key a) (key b).

(** The regular-file check of an entry returned [True]. *)
Definition is_regular (env : Env) (path : string) : bool :=
  match fs_is_file env path with
  | inr b => b
  | inl _ => false
  end.

(** A candidate string [_normalize_file_type] recognises. *)
Definition recognised (token : string) : bool :=
  let lowered := PyStr.lower token in
  PyStr.contains "hwpx" lowered || PyStr.contains "hwp5" lowered
  || String.eqb lowered "hwp" || PyStr.endswith ".hwp" lowered.

(** The format and the name [_materialize_image] resolves for an image. *)
Definition image_fmt (image : Image.t) : string :=
  let f := PyStr.lower (PyStr.strip (_string (getattr (Image.format image) (PStr "bin")))) in
  if truthy f then f else "bin".

Definition image_name (image_index : nat) (image : Image.t) : string :=
  let filename := PyStr.strip (_string (getattr (Image.filename image) (PStr ""))) in
  if truthy filename then filename
  else "image_" ++ PyStr.pad3 image_index ++ "." ++ image_fmt image.

(** ["{name} ({format}) from {source file name}"] *)
Definition image_description (path : string) (image_index : nat) (image : Image.t)
  : string :=
  image_name image_index image ++ " (" ++ image_fmt image ++ ") from " ++ Path.name path.

(** What [_materialize_image] returns on its descriptive path: the
    description, and the metadata with the file name and the format. *)
Definition described (path : string) (idx : nat) (image : Image.t)
    (md : gmap string PyVal) : string * gmap string PyVal :=
  (image_description path idx image,
   <["image_format" := PStr (image_fmt image)]>
     (<["filename" := PStr (image_name idx image)]> md)).

(** ** Vocabulary of the further properties *)

(** Every event of the run satisfies [Q]. *)
Definition all_events {A} (Q : event -> Prop) (m : Gen A) : Prop := Forall Q (fst m).

(** The run touches the file system nowhere. *)
Definition no_fs_effect (ev : event) : Prop := is_fs_effect ev = false.

(** The status the gate acts on and the policy it applies, if any. *)
Definition gate_policy (self : HwpHwpxLoader.t) (reader : Reader.t)
  : option (string * string) :=
  if reports_encrypted reader then Some (HwpHwpxLoader.on_encrypted self, "encrypted")
  else if reports_invalid reader then Some (HwpHwpxLoader.on_invalid self, "invalid")
  else None.

(** The values [__init__] validates, after the defaults are filled in. *)
Definition literals_valid (kw : HwpHwpxLoader.kwargs) : bool :=
  str_in (getattr (HwpHwpxLoader.kw_mode kw) "single") _VALID_MODES
  && str_in (getattr (HwpHwpxLoader.kw_on_encrypted kw) "raise") _VALID_STATUS_POLICIES
  && str_in (getattr (HwpHwpxLoader.kw_on_invalid kw) "raise") _VALID_STATUS_POLICIES
  && str_in (getattr (HwpHwpxLoader.kw_on_error kw) "raise") _VALID_ERROR_POLICIES
  && str_in (getattr (HwpHwpxLoader.kw_image_document_mode kw) "metadata_only")
       _VALID_IMAGE_DOCUMENT_MODES.

(** The [element_index] values [start], [start + 1], ... of [n] documents. *)
Definition indices_from (start n : nat) : list (option PyVal) :=
  List.map (fun k => Some (PInt (Z.of_nat k))) (seq start n).

(** A part of elements mode that is entered with the running index at
    [start]: the documents it yields carry the indices from [start] on, and
    when it ends normally it hands on the index after the last one. *)
Definition counts_from (start : nat) (m : Gen nat) : Prop :=
  List.map element_index (yielded (fst m))
  = indices_from start (length (yielded (fst m))) /\
  forall next, snd m = inr next -> next = (start + length (yielded (fst m)))%nat.

(** The element type of a note's document. *)
Definition note_element_type (note : Note.t) : string :=
  if String.eqb (note_kind note) "endnote" then "endnote" else "footnote".

(** A hyperlink record that elements mode keeps. *)
Definition link_kept (link : Hyperlink) : bool :=
  let '(text, url) := _normalize_hyperlink link in truthy text || truthy url.

(** The element types of a run of elements mode that finds the given tables
    and images. *)
Definition expected_types (self : HwpHwpxLoader.t) (reader : Reader.t)
    (result : Result.t) (tables : list Table.t) (images : list Image.t) : list string :=
  ((if truthy (HwpHwpxLoader._extract_body_text reader result) then ["body"] else [])
   ++ (if HwpHwpxLoader.include_tables self
       then List.map (fun _ => "table") tables else [])
   ++ (if HwpHwpxLoader.include_notes self
       then List.map note_element_type (HwpHwpxLoader._collect_notes result) else [])
   ++ (if HwpHwpxLoader.include_memos self
       then List.map (fun _ => "memo") (HwpHwpxLoader._collect_memos result) else [])
   ++ (if HwpHwpxLoader.include_hyperlinks self
       then List.map (fun _ => "hyperlink")
              (List.filter link_kept (HwpHwpxLoader._collect_hyperlinks result))
       else [])
   ++ (if HwpHwpxLoader.include_images self
       then List.map (fun _ => "image") images else []))%list.

(** [m] ends normally, and the documents it yields have the types [tys]. *)
Definition yields_types {A} (m : Gen A) (tys : list string) : Prop :=
  exists tr a, returns m tr a /\
               List.map element_type (yielded tr) = List.map (fun ty => Some (PStr ty)) tys.

(** The keys of the common metadata. *)
Definition common_keys : list string :=
  ["source"; "file_name"; "file_type"; "loader"; "parser"; "extracted_at"].

(** The value the loader itself gives a common key. *)
Definition standard_value (env : Env) (self : HwpHwpxLoader.t) (reader : Reader.t)
    (key : string) : option PyVal :=
  if String.eqb key "source" then Some (PStr (HwpHwpxLoader.file_path self))
  else if String.eqb key "file_name"
  then Some (PStr (Path.name (HwpHwpxLoader.file_path self)))
  else if String.eqb key "file_type"
  then Some (PStr (_normalize_file_type (getattr (Reader.file_type reader) PNone)
                     (HwpHwpxLoader.file_path self)))
  else if String.eqb key "loader"
  then Some (PStr ("langchain_hwp_hwpx/" ++ loader_version env))
  else if String.eqb key "parser"
  then Some (PStr ("hwp-hwpx-parser/" ++ _parser_version env))
  else if String.eqb key "extracted_at"
  then (if HwpHwpxLoader.include_extracted_at self
        then Some (PStr (_iso_utc_now env)) else None)
  else None.

(** [d] has the common keys as [base] has them. *)
Definition carries (base : gmap string PyVal) (d : Document) : Prop :=
  forall key, key ∈ common_keys -> metadata d !! key = base !! key.

(** Every document of the run has the common keys as [base] has them. *)
Definition carried (base : gmap string PyVal) (ev : event) : Prop :=
  match ev with
  | Yield d => carries base d
  | _ => True
  end.

(** A string without white space at either end. *)
Definition trimmed (s : string) : Prop := PyStr.strip s = s.

(** The documents whose content the loader trims: all but the images and
    the placeholders. *)
Definition trimmed_event (ev : event) : Prop :=
  match ev with
  | Yield d =>
      element_type d = Some (PStr "image") \/ element_type d = Some (PStr "placeholder")
      \/ trimmed (page_content d)
  | _ => True
  end.

(** The path [_materialize_image] saves an image to, where [pathlib]
    forms one. *)
Definition image_output_path (dir : string) (image_index : nat) (image : Image.t)
  : exn + string :=
  let output_path := Path.joinpath dir (image_name image_index image) in
  if String.eqb (Path.suffix output_path) ""
  then value_error (Path.with_suffix output_path ("." ++ image_fmt image))
  else inr output_path.

(** The line of a hyperlink record in the "Hyperlinks" section. *)
Definition hyperlink_line (link : Hyperlink) : string :=
  let '(text, url) := _normalize_hyperlink link in
  if truthy text && truthy url then "- " ++ text ++ ": " ++ url
  else if truthy url then "- " ++ url
  else "- " ++ text.

(** The element types a loader in the given mode tags its documents with. *)
Definition element_vocabulary (mode : string) : list string :=
  if String.eqb mode "single" then ["placeholder"; "document"]
  else ["placeholder"; "body"; "table"; "footnote"; "endnote"; "memo"; "hyperlink";
        "image"].

(** A document tagged with one of the given element types. *)
Definition tagged (types : list string) (d : Document) : Prop :=
  exists ty, ty ∈ types /\ element_type d = Some (PStr ty).

Definition tagged_event (types : list string) (ev : event) : Prop :=
  match ev with
  | Yield d => tagged types d
  | _ => True
  end.

(** ** Further sample collaborators *)

Module Samples.

(** A reader whose [get_images] raises. *)
Definition NoImagesReader : Reader.t :=
  {| Reader.file_type := Some Fixtures.HWP5;
     Reader.is_encrypted := Some (PBool false);
     Reader.is_valid := Some (PBool true);
     Reader.text := Some (PStr "reader text");
     Reader.extract_text_with_notes := fun _ => inr Fixtures.fake_result;
     Reader.get_tables := Some (inr [Fixtures.FakeTable]);
     Reader.get_images := Some (inl (PyException "OSError" "unreadable")) |}.

(** A reader that reports the document invalid. *)
Definition InvalidReader : Reader.t :=
  Fixtures.reader_with false false "reader text" (inr Fixtures.fake_result).

Definition env_of (reader : Reader.t) : Env := Fixtures.env_with reader Fixtures.listing.

(** A loader for [sample_file] with the metadata overlay
    [{"source": "archive", "owner": "kim"}]. *)
Definition loader (mode on_invalid on_error : string) (include_tables include_images : bool)
  : HwpHwpxLoader.t :=
  {| HwpHwpxLoader.file_path := Fixtures.sample_file;
     HwpHwpxLoader.mode := mode;
     HwpHwpxLoader.extract_options := None;
     HwpHwpxLoader.include_tables := include_tables;
     HwpHwpxLoader.include_notes := true;
     HwpHwpxLoader.include_memos := true;
     HwpHwpxLoader.include_hyperlinks := true;
     HwpHwpxLoader.include_images := include_images;
     HwpHwpxLoader.images_dir := Some "/out";
     HwpHwpxLoader.image_document_mode := "save_and_reference";
     HwpHwpxLoader.on_encrypted := "raise";
     HwpHwpxLoader.on_invalid := on_invalid;
     HwpHwpxLoader.on_error := on_error;
     HwpHwpxLoader.extra_metadata :=
       <["source" := PStr "archive"]> (<["owner" := PStr "kim"]> ∅);
     HwpHwpxLoader.include_extracted_at := true |}.

(** The same loader for a file with another extension. *)
Definition text_loader : HwpHwpxLoader.t :=
  {| HwpHwpxLoader.file_path := "/tmp/notes.txt";
     HwpHwpxLoader.mode := "single";
     HwpHwpxLoader.extract_options := None;
     HwpHwpxLoader.include_tables := true;
     HwpHwpxLoader.include_notes := true;
     HwpHwpxLoader.include_memos := true;
     HwpHwpxLoader.include_hyperlinks := true;
     HwpHwpxLoader.include_images := false;
     HwpHwpxLoader.images_dir := None;
     HwpHwpxLoader.image_document_mode := "metadata_only";
     HwpHwpxLoader.on_encrypted := "skip";
     HwpHwpxLoader.on_invalid := "skip";
     HwpHwpxLoader.on_error := "skip";
     HwpHwpxLoader.extra_metadata := ∅;
     HwpHwpxLoader.include_extracted_at := false |}.

(** A file system on which [sample_file] is missing. *)
Definition empty_env : Env :=
  {| fs_exists := fun _ => inr false;
     fs_is_dir := fun _ => inr false;
     fs_is_file := fun _ => inr false;
     fs_glob := fun _ _ => ([], None);
     fs_mkdir := fun _ => None;
     parser_Reader := Some (fun _ => inr Fixtures.FakeReader);
     parser_version := None;
     loader_version := "0.1.0";
     utc_now := "2026-01-01T00:00:00+00:00" |}.

(** A file system that cannot examine [sample_file]: the name is too long
    for it. *)
Definition unreadable_env : Env :=
  {| fs_exists :=
       fun p => inl (PyException "OSError" ("[Errno 36] File name too long: '" ++ p ++ "'"));
     fs_is_dir := fun _ => inr false;
     fs_is_file := fun _ => inr false;
     fs_glob := fun _ _ => ([], None);
     fs_mkdir := fun _ => None;
     parser_Reader := Some (fun _ => inr Fixtures.FakeReader);
     parser_version := None;
     loader_version := "0.1.0";
     utc_now := "2026-01-01T00:00:00+00:00" |}.

(** The directory of [Fixtures.env] when its sub-directory may not be
    searched: the regular-file check of the entry below it raises. *)
Definition locked_env : Env :=
  {| fs_exists := fun _ => inr true;
     fs_is_dir := fun p => inr (String.eqb (Path.suffix p) "");
     fs_is_file :=
       fun p =>
         if PyStr.startswith "/docs/sub/" p
         then inl (PyException "PermissionError"
                     ("[Errno 13] Permission denied: '" ++ p ++ "'"))
         else inr (negb (String.eqb (Path.suffix p) ""));
     fs_glob := fun _ _ => (Fixtures.listing, None);
     fs_mkdir := fun _ => None;
     parser_Reader := Some (fun _ => inr Fixtures.FakeReader);
     parser_version := Some "1.0.0";
     loader_version := "0.1.0";
     utc_now := "2026-01-01T00:00:00+00:00" |}.

(** [HwpHwpxDirectoryLoader("/docs", glob=..., recursive=..., on_error="skip")] *)
Definition skipping_collector (glob : string) (recursive : bool)
  : HwpHwpxDirectoryLoader.t :=
  {| HwpHwpxDirectoryLoader.dir_path := "/docs";
     HwpHwpxDirectoryLoader.glob := glob;
     HwpHwpxDirectoryLoader.recursive := recursive;
     HwpHwpxDirectoryLoader.extensions := [".hwp"; ".hwpx"];
     HwpHwpxDirectoryLoader.loader_kwargs :=
       HwpHwpxDirectoryLoader.set_on_error "skip" HwpHwpxLoader.no_kwargs;
     HwpHwpxDirectoryLoader.on_error := "skip" |}.

(** A result with two hyperlink records, the first of them empty. *)
Definition links_result : Result.t :=
  with_hyperlinks [Fixtures.blank_link; Fixtures.link] Fixtures.fake_result.

(** An image whose file name has a "." component and no extension. *)
Definition DottedImage : Image.t :=
  {| Image.filename := Some (PStr "./pic");
     Image.format := Some (PStr "PNG");
     Image.save := Some (fun _ => None) |}.

(** A loader whose metadata overlay has the reserved keys. *)
Definition forging_loader (mode : string) : HwpHwpxLoader.t :=
  {| HwpHwpxLoader.file_path := Fixtures.sample_file;
     HwpHwpxLoader.mode := mode;
     HwpHwpxLoader.extract_options := None;
     HwpHwpxLoader.include_tables := true;
     HwpHwpxLoader.include_notes := true;
     HwpHwpxLoader.include_memos := true;
     HwpHwpxLoader.include_hyperlinks := true;
     HwpHwpxLoader.include_images := true;
     HwpHwpxLoader.image_document_mode := "metadata_only";
     HwpHwpxLoader.images_dir := None;
     HwpHwpxLoader.on_encrypted := "raise";
     HwpHwpxLoader.on_invalid := "raise";
     HwpHwpxLoader.on_error := "raise";
     HwpHwpxLoader.extra_metadata :=
       <["element_type" := PStr "forged"]> (<["element_index" := PInt 99]> ∅);
     HwpHwpxLoader.include_extracted_at := false |}.

End Samples.

(** * Properties *)

(** ** Strings *)

Lemma prefix_app (p s : string) : String.prefix p (p ++ s) = true.
Proof.
  induction p as [|c p IH]; simpl.
  - by destruct s.
  - unfold String.app. simpl. destruct (ascii_dec c c); [exact IH | done].
Qed.

Lemma contains_app_l (p s : string) : PyStr.contains p (p ++ s) = true.
Proof.
  pose proof (prefix_app p s) as H.
  destruct (p ++ s); unfold PyStr.contains; fold PyStr.contains; rewrite H; done.
Qed.

(** ** The generator monad *)

Lemma bind_ret {A B} (a : A) (k : A -> Gen B) : bind (ret a) k = k a.
Proof. unfold bind, ret. by destruct (k a). Qed.

Lemma bind_raise {A B} (e : exn) (k : A -> Gen B) : bind (raise e) k = raise e.
Proof. reflexivity. Qed.

Lemma bind_call {A B} (a : A) (k : A -> Gen B) : bind (call (inr a)) k = k a.
Proof. apply bind_ret. Qed.

Lemma bind_emit {B} (ev : event) (k : unit -> Gen B) :
  bind (emit ev) k = (ev :: fst (k tt), snd (k tt)).
Proof. unfold bind, emit. by destruct (k tt). Qed.

Lemma bind_pair {A B} (tr : list event) (a : A) (k : A -> Gen B) :
  bind (tr, inr a) k = ((tr ++ fst (k a))%list, snd (k a)).
Proof. unfold bind. by destruct (k a). Qed.

Lemma bind_assoc {A B C} (m : Gen A) (k : A -> Gen B) (h : B -> Gen C) :
  bind (bind m k) h = bind m (fun a => bind (k a) h).
Proof.
  destruct m as [tr [e|a]]; [reflexivity|].
  unfold bind at 2 3. destruct (k a) as [tr' [e|b]]; simpl; [reflexivity|].
  destruct (h b) as [tr'' r]. by rewrite app_assoc.
Qed.

Lemma bind_ext {A B} (m : Gen A) (k k' : A -> Gen B) :
  (forall a, k a = k' a) -> bind m k = bind m k'.
Proof. intros H. destruct m as [tr [e|a]]; [reflexivity|]. unfold bind. by rewrite H. Qed.

Lemma for_each_skip {A S} (body : S -> A -> Gen S) (x : A) (pre post : list A) :
  (forall s, body s x = ret s) ->
  forall s,
    HwpHwpxLoader.for_each (pre ++ x :: post) s body
    = HwpHwpxLoader.for_each (pre ++ post) s body.
Proof.
  intros Hx. induction pre as [|y pre IH]; intros s; cbn [HwpHwpxLoader.for_each app].
  - by rewrite Hx, bind_ret.
  - apply bind_ext. intros s'. apply IH.
Qed.

Lemma returns_ret {A} (a : A) : returns (ret a) [] a.
Proof. reflexivity. Qed.

Lemma returns_bind {A B} (m : Gen A) (k : A -> Gen B) tr a tr' b :
  returns m tr a -> returns (k a) tr' b -> returns (bind m k) (tr ++ tr')%list b.
Proof. unfold returns. intros -> H. unfold bind. by rewrite H. Qed.

Lemma returns_for_each_nil {A S} (body : S -> A -> Gen S) s :
  returns (HwpHwpxLoader.for_each [] s body) [] s.
Proof. reflexivity. Qed.

Lemma returns_for_each_cons {A S} (body : S -> A -> Gen S) x xs s tr s' tr' s'' :
  returns (body s x) tr s' -> returns (HwpHwpxLoader.for_each xs s' body) tr' s'' ->
  returns (HwpHwpxLoader.for_each (x :: xs) s body) (tr ++ tr')%list s''.
Proof. intros. cbn [HwpHwpxLoader.for_each]. by eapply returns_bind. Qed.

Lemma returns_intro {A} (m : Gen A) a : snd m = inr a -> returns m (fst m) a.
Proof. destruct m as [tr r]. cbn. by intros ->. Qed.

Lemma yielded_app (a b : list event) : yielded (a ++ b) = (yielded a ++ yielded b)%list.
Proof. unfold yielded. apply omap_app. Qed.

(** ** The single-file extractor: opening and the status gate *)

Section SingleFile.
Import HwpHwpxLoader.
Variable env : Env.

Lemma create_reader_opened path reader :
  opens env path reader ->
  _create_reader env path = ([ReaderOpen path], inr reader).
Proof.
  intros (_ & mkr & Hp & Hmk).
  unfold _create_reader, _import_parser. rewrite Hp, bind_ret, bind_emit, Hmk.
  reflexivity.
Qed.

Lemma extract_result_eq self reader :
  _extract_result self reader =
  ([ExtractCall (bool_decide (is_Some (extract_options self)))],
   Reader.extract_text_with_notes reader (extract_options self)).
Proof.
  unfold _extract_result.
  destruct (extract_options self); rewrite bind_emit; reflexivity.
Qed.

Lemma handle_file_status_pass self reader md :
  reports_encrypted reader = false -> reports_invalid reader = false ->
  _handle_file_status self reader md = ret None.
Proof.
  unfold reports_encrypted, reports_invalid, _handle_file_status.
  intros -> ->. reflexivity.
Qed.

Lemma lazy_load_checked self reader :
  supported (file_path self) -> opens env (file_path self) reader ->
  lazy_load env self =
  try_except (lazy_load_body env self (file_path self))
    (fun exc =>
       match exc with
       | _SkipFile => ret tt
       | HwpHwpxLoaderError _ _ => raise exc
       | PyException _ _ => _handle_runtime_error self (file_path self) exc
       | PyBaseException _ _ => raise exc
       end).
Proof.
  intros Hs [He _]. unfold lazy_load. unfold supported in Hs.
  by rewrite Hs, He, bind_call.
Qed.

(** When the status gate lets the file through, the [try] block is the
    extraction call followed by the mode's assembly. *)
Lemma lazy_load_body_pass self reader :
  opens env (file_path self) reader ->
  reports_encrypted reader = false -> reports_invalid reader = false ->
  lazy_load_body env self (file_path self) =
  bind ([ReaderOpen (file_path self);
         ExtractCall (bool_decide (is_Some (extract_options self)))],
        Reader.extract_text_with_notes reader (extract_options self))
    (fun result =>
       let base_metadata := _build_common_metadata env self (file_path self) reader in
       if String.eqb (mode self) "single" then
         bind (_build_single_document env self (file_path self) reader result
                 base_metadata)
           (fun doc => emit (Yield doc))
       else _build_element_documents env self (file_path self) reader result
              base_metadata).
Proof.
  intros Ho Henc Hinv. unfold lazy_load_body.
  rewrite (create_reader_opened _ _ Ho), bind_pair. cbv beta.
  rewrite (handle_file_status_pass _ _ _ Henc Hinv), bind_ret.
  rewrite extract_result_eq.
  destruct (Reader.extract_text_with_notes reader (extract_options self)) as [e|result].
  - reflexivity.
  - rewrite !bind_pair. reflexivity.
Qed.

(** C2. When the reader's structured-extraction call raises an ordinary
    exception, [on_error="raise"] makes [lazy_load] raise a
    [HwpHwpxLoaderError] whose message carries the file path and the class
    name of the original exception (which is its cause); [on_error="warn"]
    yields no document, ends normally and logs exactly one warning, which
    contains "Failed to parse"; [on_error="skip"] yields no document, ends
    normally and logs nothing. *)
Theorem on_error_policies self reader cls msg :
  supported (file_path self) -> opens env (file_path self) reader ->
  reports_encrypted reader = false -> reports_invalid reader = false ->
  Reader.extract_text_with_notes reader (extract_options self)
    = inl (PyException cls msg) ->
  let out := lazy_load env self in
  (on_error self = "raise" ->
     yielded (fst out) = [] /\
     snd out = inl (HwpHwpxLoaderError
                      ("Failed to parse " ++ file_path self ++ ": " ++ cls)
                      (Some (PyException cls msg)))) /\
  (on_error self = "warn" ->
     yielded (fst out) = [] /\ snd out = inr tt /\
     exists m, warnings (fst out) = [m] /\ PyStr.contains "Failed to parse" m = true) /\
  (on_error self = "skip" ->
     yielded (fst out) = [] /\ snd out = inr tt /\ warnings (fst out) = []).
Proof.
  intros Hs Ho Henc Hinv Hx out. subst out.
  rewrite (lazy_load_checked _ _ Hs Ho).
  rewrite (lazy_load_body_pass _ _ Ho Henc Hinv), Hx.
  unfold bind, try_except, _handle_runtime_error.
  cbn [fst snd class_name exn_str].
  repeat split.
  all: try (rewrite H; reflexivity).
  rewrite H. cbn. eexists; split; [reflexivity|].
  exact (contains_app_l "Failed to parse"
           (" " ++ file_path self ++ ": " ++ cls ++ " (" ++ msg ++ ")")).
Qed.

(** C4. With [on_encrypted="placeholder"] and a reader that reports the
    document encrypted, [lazy_load] opens the reader, yields exactly one
    document and ends: nothing is extracted.  The content is the
    upper-cased tag [ENCRYPTED] in brackets followed by the file name, and
    the metadata has [status = "encrypted"] and
    [element_type = "placeholder"]. *)
Theorem encrypted_placeholder self reader :
  supported (file_path self) -> opens env (file_path self) reader ->
  reports_encrypted reader = true ->
  on_encrypted self = "placeholder" ->
  exists doc,
    lazy_load env self = ([ReaderOpen (file_path self); Yield doc], inr tt) /\
    page_content doc =
      "[ENCRYPTED] " ++ Path.name (file_path self) ++ " cannot be parsed by policy." /\
    PyStr.contains "ENCRYPTED" (page_content doc) = true /\
    metadata doc !! "status" = Some (PStr "encrypted") /\
    element_type doc = Some (PStr "placeholder").
Proof.
  intros Hs Ho Henc Hpol.
  rewrite (lazy_load_checked _ _ Hs Ho). unfold lazy_load_body.
  rewrite (create_reader_opened _ _ Ho), bind_pair. cbv beta.
  unfold _handle_file_status. fold (reports_encrypted reader). rewrite Henc.
  unfold _resolve_status_policy. rewrite Hpol. cbn [String.eqb Ascii.eqb Bool.eqb].
  rewrite bind_ret. eexists. split; [reflexivity|]. cbn [page_content metadata].
  split; [reflexivity|]. split; [reflexivity|]. unfold element_type. cbn [metadata].
  split.
  - rewrite lookup_insert_ne by done. apply lookup_insert_eq.
  - apply lookup_insert_eq.
Qed.

(** C5. For a reader that reports both encrypted and invalid, the status
    gate is the encrypted policy applied to the status "encrypted", and
    the whole run of [lazy_load] is the same whatever the invalid policy
    is: [on_invalid] is not consulted. *)
Theorem encrypted_before_invalid self reader :
  opens env (file_path self) reader ->
  reports_encrypted reader = true -> reports_invalid reader = true ->
  (forall md,
     _handle_file_status self reader md =
     _resolve_status_policy (on_encrypted self) "encrypted" (file_path self) md) /\
  (forall policy, lazy_load env (set_on_invalid policy self) = lazy_load env self).
Proof.
  intros Ho Henc _. split.
  - intros md. unfold _handle_file_status. fold (reports_encrypted reader).
    by rewrite Henc.
  - intros policy. unfold lazy_load.
    change (file_path (set_on_invalid policy self)) with (file_path self).
    destruct (negb (str_in _ _)); [reflexivity|].
    rewrite (proj1 Ho), !bind_call. cbn [negb].
    unfold lazy_load_body.
    rewrite (create_reader_opened _ _ Ho), !bind_pair. cbv beta.
    unfold _handle_file_status. fold (reports_encrypted reader). rewrite Henc.
    change (on_encrypted (set_on_invalid policy self)) with (on_encrypted self).
    change (file_path (set_on_invalid policy self)) with (file_path self).
    unfold _resolve_status_policy.
    destruct (String.eqb (on_encrypted self) "raise"); [reflexivity|].
    destruct (String.eqb (on_encrypted self) "skip"); [reflexivity|].
    rewrite !bind_ret. reflexivity.
Qed.

End SingleFile.

(** ** Elements mode *)

Section Elements.
Import HwpHwpxLoader.
Variable env : Env.
Variable self : t.

Lemma lookup_type_element_metadata md ty i :
  _element_metadata md ty i !! "element_type" = Some (PStr ty).
Proof. unfold _element_metadata. rewrite lookup_insert_ne by done. apply lookup_insert_eq. Qed.

Lemma lookup_index_element_metadata md ty i :
  _element_metadata md ty i !! "element_index" = Some (PInt (Z.of_nat i)).
Proof. unfold _element_metadata. apply lookup_insert_eq. Qed.

Lemma table_element_spec md i table :
  exists d, table_element self md i table = ([Yield d], inr (i + 1)%nat) /\
            is_element "table" i d.
Proof.
  unfold table_element. rewrite bind_emit. eexists. split; [reflexivity|].
  unfold is_element, element_type, element_index. cbn [metadata].
  destruct (_safe_int (getattr (Table.row_count table) PNone));
    destruct (_safe_int (getattr (Table.col_count table) PNone));
    rewrite ?lookup_insert_ne by done;
    rewrite lookup_type_element_metadata, lookup_index_element_metadata; done.
Qed.

Lemma note_element_spec md i note :
  exists d, note_element md i note = ([Yield d], inr (i + 1)%nat) /\
            is_element (if String.eqb (note_kind note) "endnote" then "endnote"
                        else "footnote") i d.
Proof.
  unfold note_element. fold (note_kind note). rewrite bind_emit.
  eexists. split; [reflexivity|].
  unfold is_element, element_type, element_index. cbn [metadata].
  destruct (_safe_int (getattr (Note.number note) PNone));
    rewrite ?lookup_insert_ne by done;
    rewrite lookup_type_element_metadata, lookup_index_element_metadata; done.
Qed.

Lemma lookup_copy_memo_key key v (m : gmap string PyVal) k :
  key <> k -> copy_memo_key key v m !! k = m !! k.
Proof.
  intros Hne. unfold copy_memo_key.
  destruct v as [| | |s|]; try (by rewrite lookup_insert_ne); [done|].
  destruct s; [done|]. by rewrite lookup_insert_ne.
Qed.

Lemma memo_element_spec md i memo :
  exists d, memo_element md i memo = ([Yield d], inr (i + 1)%nat) /\
            is_element "memo" i d.
Proof.
  unfold memo_element. rewrite bind_emit. eexists. split; [reflexivity|].
  unfold is_element, element_type, element_index. cbn [metadata].
  rewrite !lookup_copy_memo_key by done.
  rewrite lookup_type_element_metadata, lookup_index_element_metadata; done.
Qed.

Lemma hyperlink_element_empty md i h :
  _normalize_hyperlink h = ("", "") -> hyperlink_element md i h = ret i.
Proof. unfold hyperlink_element. intros ->. reflexivity. Qed.

Lemma hyperlink_element_spec md i h :
  _normalize_hyperlink h <> ("", "") ->
  exists d, hyperlink_element md i h = ([Yield d], inr (i + 1)%nat) /\
            is_element "hyperlink" i d.
Proof.
  unfold hyperlink_element. destruct (_normalize_hyperlink h) as [text url].
  intros Hne.
  assert (negb (truthy text) && negb (truthy url) = false) as ->.
  { unfold truthy. destruct text; destruct url; try reflexivity. done. }
  rewrite bind_emit. eexists. split; [reflexivity|].
  unfold is_element, element_type, element_index. cbn [metadata].
  destruct (truthy url); destruct (truthy text);
    rewrite ?lookup_insert_ne by done;
    rewrite lookup_type_element_metadata, lookup_index_element_metadata; done.
Qed.

(** The runs of [_materialize_image], case by case. *)
Lemma materialize_image_outcome path idx image md :
  _materialize_image env self path idx image md
  = match (if String.eqb (image_document_mode self) "save_and_reference"
           then images_dir self else None) with
    | None => ([], inr (described path idx image md))
    | Some dir =>
        match fs_mkdir env dir with
        | Some e => ([Mkdir dir], inl e)
        | None =>
            match image_output_path dir idx image with
            | inl e => ([Mkdir dir], inl e)
            | inr output =>
                match Image.save image with
                | None => ([Mkdir dir], inr (described path idx image md))
                | Some save =>
                    match save output with
                    | Some e => ([Mkdir dir; ImageSave output], inl e)
                    | None =>
                        ([Mkdir dir; ImageSave output],
                         inr (image_name idx image ++ " -> " ++ output,
                              <["saved_path" := PStr output]>
                                (snd (described path idx image md))))
                    end
                end
            end
        end
    end.
Proof.
  unfold _materialize_image, image_output_path, described, image_description, image_name,
    image_fmt. cbv zeta.
  destruct (if String.eqb _ _ then _ else _) as [dir|]; [|reflexivity].
  rewrite bind_emit. unfold call at 1.
  destruct (fs_mkdir env dir); [reflexivity|]. rewrite bind_pair. cbn [fst snd app].
  destruct (String.eqb (Path.suffix _) "").
  - unfold call. destruct (value_error _) as [e|output]; [reflexivity|].
    rewrite bind_pair. cbn [fst snd app].
    destruct (Image.save image) as [save|]; [|reflexivity].
    rewrite bind_emit. unfold call. destruct (save output); reflexivity.
  - rewrite bind_ret.
    destruct (Image.save image) as [save|]; [|reflexivity].
    rewrite bind_emit. unfold call. destruct (save _); reflexivity.
Qed.

Lemma materialize_image_trace path idx image md :
  yielded (fst (_materialize_image env self path idx image md)) = [].
Proof.
  rewrite materialize_image_outcome.
  repeat match goal with
         | |- context [match ?x with _ => _ end] => destruct x
         end; reflexivity.
Qed.

Lemma materialize_image_metadata path idx image md r k :
  snd (_materialize_image env self path idx image md) = inr r ->
  k <> "filename" -> k <> "image_format" -> k <> "saved_path" ->
  snd r !! k = md !! k.
Proof.
  rewrite materialize_image_outcome. intros Hr H1 H2 H3.
  repeat match type of Hr with
         | context [match ?x with _ => _ end] => destruct x
         end; cbn [snd] in Hr; try discriminate Hr; injection Hr as <-;
    unfold described; cbn [snd]; by rewrite !lookup_insert_ne by done.
Qed.

Lemma image_element_spec path md i idx image :
  materializes env self path idx image ->
  exists tr d,
    image_element env self path md i (idx, image) = ((tr ++ [Yield d])%list, inr (i + 1)%nat) /\
    yielded tr = [] /\ is_element "image" i d.
Proof.
  intros Hm. unfold image_element.
  destruct (Hm (_element_metadata md "image" i)) as [r Hr].
  pose proof (materialize_image_trace path idx image (_element_metadata md "image" i)) as Htr.
  pose proof (materialize_image_metadata _ _ _ _ _ "element_type" Hr) as Hty.
  pose proof (materialize_image_metadata _ _ _ _ _ "element_index" Hr) as Hix.
  destruct (_materialize_image env self path idx image _) as [tr res].
  cbn [fst snd] in *. subst res. rewrite bind_pair, bind_emit. cbn [fst snd ret].
  exists tr. eexists. split; [reflexivity|]. split; [exact Htr|].
  unfold is_element, element_type, element_index. cbn [metadata].
  rewrite Hty, Hix by done.
  by rewrite lookup_type_element_metadata, lookup_index_element_metadata.
Qed.

Lemma collect_tables_trace reader result :
  yielded (fst (_collect_tables reader result)) = [].
Proof.
  unfold _collect_tables. destruct (Result.tables result); [reflexivity|].
  destruct (Reader.get_tables reader); reflexivity.
Qed.

Lemma collect_images_trace reader : yielded (fst (_collect_images reader)) = [].
Proof. unfold _collect_images. destruct (Reader.get_images reader); reflexivity. Qed.

(** C1. In elements mode with every inclusion flag set, when the reader and
    its result supply a non-empty body, one table, a footnote and an
    endnote, one memo, one non-empty hyperlink and one image, [lazy_load]
    ends normally after yielding exactly seven documents, whose
    [element_type]s are body, table, footnote, endnote, memo, hyperlink,
    image in this order and whose [element_index]es are 0 to 6: one
    counter runs through all the element types. *)
Theorem elements_order reader result table fn en memo link image :
  supported (file_path self) -> opens env (file_path self) reader ->
  reports_encrypted reader = false -> reports_invalid reader = false ->
  Reader.extract_text_with_notes reader (extract_options self) = inr result ->
  mode self = "elements" ->
  include_tables self = true -> include_notes self = true ->
  include_memos self = true -> include_hyperlinks self = true ->
  include_images self = true ->
  _extract_body_text reader result <> "" ->
  snd (_collect_tables reader result) = inr [table] ->
  _collect_notes result = [fn; en] ->
  note_kind fn = "footnote" -> note_kind en = "endnote" ->
  _collect_memos result = [memo] ->
  _collect_hyperlinks result = [link] -> _normalize_hyperlink link <> ("", "") ->
  snd (_collect_images reader) = inr [image] ->
  materializes env self (file_path self) 0 image ->
  let out := lazy_load env self in
  snd out = inr tt /\
  List.map element_type (yielded (fst out)) =
    List.map (fun ty => Some (PStr ty))
      ["body"; "table"; "footnote"; "endnote"; "memo"; "hyperlink"; "image"] /\
  List.map element_index (yielded (fst out)) =
    List.map (fun i => Some (PInt i)) [0; 1; 2; 3; 4; 5; 6]%Z.
Proof.
  intros Hs Ho Henc Hinv Hx Hmode Ht Hn Hm Hh Hi Hbody Htab Hnotes Hfn Hen Hmemos
    Hlinks Hlink Himgs Hmat out. subst out.
  rewrite (lazy_load_checked _ _ _ Hs Ho), (lazy_load_body_pass _ _ _ Ho Henc Hinv), Hx.
  cbv zeta. rewrite Hmode. cbn [String.eqb Ascii.eqb Bool.eqb].
  set (md := _build_common_metadata env self (file_path self) reader).
  destruct (table_element_spec md 1 table) as (dt & Rt & Hdt).
  destruct (note_element_spec md 2 fn) as (dfn & Rfn & Hdfn).
  destruct (note_element_spec md 3 en) as (den & Ren & Hden).
  destruct (memo_element_spec md 4 memo) as (dm & Rm & Hdm).
  destruct (hyperlink_element_spec md 5 link Hlink) as (dh & Rh & Hdh).
  destruct (image_element_spec (file_path self) md 6 0 image Hmat) as (tri & di & Ri & Htri & Hdi).
  rewrite Hfn in Hdfn. rewrite Hen in Hden. cbn [String.eqb Ascii.eqb Bool.eqb] in Hdfn, Hden.
  pose proof (collect_tables_trace reader result) as Htt.
  pose proof (collect_images_trace reader) as Hit.
  apply returns_intro in Htab, Himgs.
  set (trt := fst (_collect_tables reader result)) in *.
  set (tri0 := fst (_collect_images reader)) in *.
  assert (truthy (_extract_body_text reader result) = true) as Hb.
  { unfold truthy. destruct (_extract_body_text reader result); done. }
  assert (exists tr,
    returns (_build_element_documents env self (file_path self) reader result md) tr tt /\
    exists d0, yielded tr = [d0; dt; dfn; den; dm; dh; di] /\ is_element "body" 0 d0)
    as (tr & Hret & d0 & Hy & Hd0).
  { unfold _build_element_documents. rewrite Ht, Hn, Hm, Hh, Hi, Hnotes, Hmemos, Hlinks, Hb.
    cbv zeta. eexists. split.
    - eapply returns_bind.
      { eapply returns_bind; [reflexivity|apply returns_ret]. }
      eapply returns_bind.
      { eapply returns_bind; [exact Htab|].
        eapply returns_for_each_cons; [exact Rt|apply returns_for_each_nil]. }
      eapply returns_bind.
      { eapply returns_for_each_cons; [exact Rfn|].
        eapply returns_for_each_cons; [exact Ren|apply returns_for_each_nil]. }
      eapply returns_bind.
      { eapply returns_for_each_cons; [exact Rm|apply returns_for_each_nil]. }
      eapply returns_bind.
      { eapply returns_for_each_cons; [exact Rh|apply returns_for_each_nil]. }
      eapply returns_bind.
      { eapply returns_bind; [exact Himgs|].
        eapply returns_for_each_cons; [exact Ri|apply returns_for_each_nil]. }
      apply returns_ret.
    - eexists. split.
      + rewrite !yielded_app, Htt, Hit, Htri. reflexivity.
      + split; [apply lookup_type_element_metadata|apply lookup_index_element_metadata]. }
  rewrite bind_pair. cbv beta. rewrite Hret. cbn [try_except fst snd].
  split; [reflexivity|].
  rewrite yielded_app, Hy. cbn [yielded omap list_omap app List.map].
  destruct Hd0 as [-> ->], Hdt as [-> ->], Hdfn as [-> ->], Hden as [-> ->],
    Hdm as [-> ->], Hdh as [-> ->], Hdi as [-> ->].
  split; reflexivity.
Qed.

(** C7. A hyperlink record whose normalised text and url are both empty
    yields nothing and leaves the element index as it is: the loop ends its
    iteration with the same index, the whole run of elements mode is the run
    without that record, and a following non-empty hyperlink gets the index
    the skipped one would have had. *)
Theorem empty_hyperlink_skipped link :
  _normalize_hyperlink link = ("", "") ->
  (forall md index, hyperlink_element md index link = ([], inr index)) /\
  (forall path reader result pre post md,
     Result.hyperlinks result = Some (pre ++ link :: post)%list ->
     _build_element_documents env self path reader result md =
     _build_element_documents env self path reader
       (with_hyperlinks (pre ++ post)%list result) md) /\
  (forall md index next,
     _normalize_hyperlink next <> ("", "") ->
     exists d,
       for_each [link; next] index (hyperlink_element md) = ([Yield d], inr (index + 1)%nat) /\
       is_element "hyperlink" index d).
Proof.
  intros Hempty. split; [|split].
  - intros md index. by apply hyperlink_element_empty.
  - intros path reader result pre post md Hlinks.
    unfold _build_element_documents. cbv zeta.
    change (_extract_body_text reader (with_hyperlinks (pre ++ post)%list result))
      with (_extract_body_text reader result).
    do 4 (apply bind_ext; intros ?).
    f_equal. destruct (include_hyperlinks self); [|reflexivity].
    unfold _collect_hyperlinks at 1. rewrite Hlinks.
    change (_collect_hyperlinks (with_hyperlinks (pre ++ post)%list result))
      with (pre ++ post)%list.
    apply for_each_skip. intros s. by apply hyperlink_element_empty.
  - intros md index next Hnext.
    destruct (hyperlink_element_spec md index next Hnext) as (d & Hd & Hel).
    exists d. split; [|exact Hel].
    cbn [for_each]. rewrite (hyperlink_element_empty md index link Hempty), bind_ret, Hd.
    reflexivity.
Qed.

End Elements.

(** ** Single mode *)

Section SingleMode.
Import HwpHwpxLoader.
Variable env : Env.
Variable self : t.

Lemma quiet_ret {A} (a : A) : quiet (ret a) a.
Proof. exists []. split; reflexivity. Qed.

Lemma quiet_bind {A B} (m : Gen A) (k : A -> Gen B) a b :
  quiet m a -> quiet (k a) b -> quiet (bind m k) b.
Proof.
  intros (tr & Hm & Hy) (tr' & Hk & Hy'). exists (tr ++ tr')%list. split.
  - by eapply returns_bind.
  - by rewrite yielded_app, Hy, Hy'.
Qed.

Lemma quiet_collect_tables reader result tables :
  snd (_collect_tables reader result) = inr tables ->
  quiet (_collect_tables reader result) tables.
Proof.
  intros H. eexists. split; [by apply returns_intro|]. apply collect_tables_trace.
Qed.

Lemma quiet_collect_images reader images :
  snd (_collect_images reader) = inr images -> quiet (_collect_images reader) images.
Proof.
  intros H. eexists. split; [by apply returns_intro|]. apply collect_images_trace.
Qed.

Lemma quiet_materialize path idx image md :
  materializes env self path idx image ->
  exists r, quiet (_materialize_image env self path idx image md) r.
Proof.
  intros Hm. destruct (Hm md) as [r Hr]. exists r. eexists.
  split; [by apply returns_intro|]. apply materialize_image_trace.
Qed.

Lemma quiet_render_tables reader result tables :
  snd (_collect_tables reader result) = inr tables ->
  exists text, quiet (_render_tables_for_single self reader result) text /\
               (tables = [] -> text = "").
Proof.
  intros H. apply quiet_collect_tables in H. unfold _render_tables_for_single.
  destruct tables as [|table tables].
  - exists "". split; [|done]. eapply quiet_bind; [exact H|apply quiet_ret].
  - eexists. split; [eapply quiet_bind; [exact H|apply quiet_ret]|done].
Qed.

Lemma quiet_image_lines path images :
  forall start lines,
    (forall i image, images !! i = Some image ->
                     materializes env self path (start + i) image) ->
    exists lines',
      quiet (for_each (enumerate start images) lines
               (fun lines '(image_index, image) =>
                  bind (_materialize_image env self path image_index image ∅)
                    (fun r => ret (lines ++ [fst r])%list)))
        lines'.
Proof.
  induction images as [|image images IH]; intros start lines Hm.
  - exists lines. apply quiet_ret.
  - cbn [enumerate for_each].
    destruct (quiet_materialize path start image ∅) as [r Hr].
    { specialize (Hm 0%nat image eq_refl). by rewrite Nat.add_0_r in Hm. }
    destruct (IH (S start) (lines ++ [fst r])%list) as [lines' Hl].
    { intros i img Hi. specialize (Hm (S i) img Hi).
      by rewrite Nat.add_succ_r in Hm. }
    exists lines'. eapply quiet_bind; [|exact Hl].
    eapply quiet_bind; [exact Hr|apply quiet_ret].
Qed.

Lemma quiet_render_images path reader images :
  snd (_collect_images reader) = inr images ->
  (forall i image, images !! i = Some image -> materializes env self path i image) ->
  exists text, quiet (_render_images_for_single env self path reader) text /\
               (images = [] -> text = "").
Proof.
  intros H Hm. apply quiet_collect_images in H. unfold _render_images_for_single.
  destruct images as [|image images].
  - exists "". split; [|done]. eapply quiet_bind; [exact H|apply quiet_ret].
  - destruct (quiet_image_lines path (image :: images) 0 ["## Images"] Hm) as [lines Hl].
    eexists. split.
    + eapply quiet_bind; [exact H|]. eapply quiet_bind; [exact Hl|]. apply quiet_ret.
    + done.
Qed.

Lemma quiet_append_section (include : bool) render chunks :
  (include = true -> exists text, quiet render text) ->
  exists chunks', quiet (append_section include render chunks) chunks'.
Proof.
  intros H. unfold append_section. destruct include.
  - destruct (H eq_refl) as [text Ht]. eexists.
    eapply quiet_bind; [exact Ht|apply quiet_ret].
  - eexists. apply quiet_ret.
Qed.

Lemma quiet_append_section_empty (include : bool) render chunks :
  include = false \/ quiet render "" ->
  quiet (append_section include render chunks) chunks.
Proof.
  unfold append_section. intros [->|H]; [apply quiet_ret|].
  destruct include; [|apply quiet_ret].
  eapply quiet_bind; [exact H|apply quiet_ret].
Qed.

(** When the collaborator calls of the assembly raise nothing,
    [_build_single_document] returns a document of type "document". *)
Lemma build_single_document_returns reader result md :
  (include_tables self = true ->
   exists tables, snd (_collect_tables reader result) = inr tables) ->
  (include_images self = true ->
   exists images,
     snd (_collect_images reader) = inr images /\
     forall i image, images !! i = Some image ->
                     materializes env self (file_path self) i image) ->
  exists content,
    quiet (_build_single_document env self (file_path self) reader result md)
      {| page_content := content; metadata := <["element_type" := PStr "document"]> md |}.
Proof.
  intros Ht Hi. unfold _build_single_document. cbv zeta.
  set (chunks0 := if truthy _ then _ else _).
  destruct (quiet_append_section (include_tables self)
              (_render_tables_for_single self reader result) chunks0) as [c1 H1].
  { intros E. destruct (Ht E) as [tables Htab].
    destruct (quiet_render_tables _ _ _ Htab) as (text & Hq & _). by exists text. }
  destruct (quiet_append_section (include_notes self)
              (ret (_render_notes_for_single result)) c1) as [c2 H2].
  { intros _. eexists. apply quiet_ret. }
  destruct (quiet_append_section (include_memos self)
              (ret (_render_memos_for_single result)) c2) as [c3 H3].
  { intros _. eexists. apply quiet_ret. }
  destruct (quiet_append_section (include_hyperlinks self)
              (ret (_render_hyperlinks_for_single result)) c3) as [c4 H4].
  { intros _. eexists. apply quiet_ret. }
  destruct (quiet_append_section (include_images self)
              (_render_images_for_single env self (file_path self) reader) c4) as [c5 H5].
  { intros E. destruct (Hi E) as (images & Himg & Hmat).
    destruct (quiet_render_images _ _ _ Himg Hmat) as (text & Hq & _). by exists text. }
  eexists.
  eapply quiet_bind; [exact H1|]. eapply quiet_bind; [exact H2|].
  eapply quiet_bind; [exact H3|]. eapply quiet_bind; [exact H4|].
  eapply quiet_bind; [exact H5|]. apply quiet_ret.
Qed.

(** With an empty body and every section excluded or empty, the content is
    the empty string. *)
Lemma build_single_document_empty reader result md :
  _extract_body_text reader result = "" ->
  include_tables self = false \/ snd (_collect_tables reader result) = inr [] ->
  include_notes self = false \/ _collect_notes result = [] ->
  include_memos self = false \/ _collect_memos result = [] ->
  include_hyperlinks self = false \/ _collect_hyperlinks result = [] ->
  include_images self = false \/ snd (_collect_images reader) = inr [] ->
  quiet (_build_single_document env self (file_path self) reader result md)
    {| page_content := ""; metadata := <["element_type" := PStr "document"]> md |}.
Proof.
  intros Hb Ht Hn Hm Hh Hi. unfold _build_single_document. cbv zeta.
  rewrite Hb. cbn [truthy String.eqb negb].
  eapply quiet_bind.
  { apply quiet_append_section_empty. destruct Ht as [Ht|Ht]; [by left|right].
    destruct (quiet_render_tables _ _ _ Ht) as (text & Hq & He). by rewrite (He eq_refl) in Hq. }
  eapply quiet_bind.
  { apply quiet_append_section_empty. destruct Hn as [Hn|Hn]; [by left|right].
    unfold _render_notes_for_single. rewrite Hn. apply quiet_ret. }
  eapply quiet_bind.
  { apply quiet_append_section_empty. destruct Hm as [Hm|Hm]; [by left|right].
    unfold _render_memos_for_single. rewrite Hm. apply quiet_ret. }
  eapply quiet_bind.
  { apply quiet_append_section_empty. destruct Hh as [Hh|Hh]; [by left|right].
    unfold _render_hyperlinks_for_single. rewrite Hh. apply quiet_ret. }
  eapply quiet_bind.
  { apply quiet_append_section_empty. destruct Hi as [Hi|Hi]; [by left|right].
    destruct (quiet_render_images (file_path self) _ _ Hi) as (text & Hq & He); [done|].
    by rewrite (He eq_refl) in Hq. }
  apply quiet_ret.
Qed.

(** C10. In single mode, when the status gate lets the file through and the
    collaborator calls of the assembly raise nothing, [lazy_load] ends
    normally after yielding exactly one document, whose [element_type] is
    "document".  This also holds when the body is empty and every section is
    excluded or empty: the document is still yielded, and its content is the
    empty string. *)
Theorem single_mode_one_document reader result :
  supported (file_path self) -> opens env (file_path self) reader ->
  reports_encrypted reader = false -> reports_invalid reader = false ->
  Reader.extract_text_with_notes reader (extract_options self) = inr result ->
  mode self = "single" ->
  (include_tables self = true ->
   exists tables, snd (_collect_tables reader result) = inr tables) ->
  (include_images self = true ->
   exists images,
     snd (_collect_images reader) = inr images /\
     forall i image, images !! i = Some image ->
                     materializes env self (file_path self) i image) ->
  let out := lazy_load env self in
  snd out = inr tt /\
  exists doc,
    yielded (fst out) = [doc] /\
    element_type doc = Some (PStr "document") /\
    (_extract_body_text reader result = "" ->
     include_tables self = false \/ snd (_collect_tables reader result) = inr [] ->
     include_notes self = false \/ _collect_notes result = [] ->
     include_memos self = false \/ _collect_memos result = [] ->
     include_hyperlinks self = false \/ _collect_hyperlinks result = [] ->
     include_images self = false \/ snd (_collect_images reader) = inr [] ->
     page_content doc = "").
Proof.
  intros Hs Ho Henc Hinv Hx Hmode Ht Hi out.
  set (md := _build_common_metadata env self (file_path self) reader).
  destruct (build_single_document_returns reader result md Ht Hi)
    as (content & tr & Hret & Hy).
  set (doc := {| page_content := content;
                 metadata := <["element_type" := PStr "document"]> md |}) in *.
  assert (out = (([ReaderOpen (file_path self);
                   ExtractCall (bool_decide (is_Some (extract_options self)))]
                  ++ tr ++ [Yield doc])%list, inr tt)) as ->.
  { subst out.
    rewrite (lazy_load_checked _ _ _ Hs Ho), (lazy_load_body_pass _ _ _ Ho Henc Hinv), Hx.
    cbv zeta. rewrite Hmode. cbn [String.eqb Ascii.eqb Bool.eqb].
    rewrite bind_pair. cbv beta. fold md. unfold returns in Hret. rewrite Hret.
    reflexivity. }
  cbn [fst snd]. split; [reflexivity|].
  exists doc. split; [|split].
  - rewrite !yielded_app, Hy. reflexivity.
  - apply lookup_insert_eq.
  - intros Hb Het Hen Hem Heh Hei.
    destruct (build_single_document_empty reader result md Hb Het Hen Hem Heh Hei)
      as (tr' & Hret' & _).
    unfold returns in Hret, Hret'. rewrite Hret in Hret'. by injection Hret'.
Qed.

End SingleMode.

(** ** Sorting *)

Section SortedProps.
Context {A : Type} (key : A -> string).

Lemma insert_by_Permutation x l : insert_by key x l ≡ₚ x :: l.
Proof.
  induction l as [|y l IH]; cbn [insert_by]; [done|].
  destruct (String.leb (key x) (key y)); [done|].
  rewrite IH. apply Permutation_swap.
Qed.

Lemma sorted_Permutation l : sorted key l ≡ₚ l.
Proof.
  induction l as [|x l IH]; [done|].
  unfold sorted in *. cbn [foldr]. by rewrite insert_by_Permutation, IH.
Qed.

Lemma insert_by_StronglySorted x l :
  StronglySorted (key_le key) l -> StronglySorted (key_le key) (insert_by key x l).
Proof.
  induction 1 as [|y l Hl IH Hy]; cbn [insert_by].
  - repeat constructor.
  - destruct (String.leb (key x) (key y)) eqn:Hxy.
    + constructor; [by constructor|]. constructor.
      * unfold key_le, String.le. by rewrite Hxy.
      * eapply Forall_impl; [exact Hy|]. intros z Hz. unfold key_le in *.
        etrans; [|exact Hz]. unfold String.le. by rewrite Hxy.
    + constructor; [exact IH|].
      rewrite insert_by_Permutation. constructor; [|exact Hy].
      unfold key_le. destruct (total String.le (key x) (key y)) as [H|H]; [|done].
      unfold String.le in H. by rewrite Hxy in H.
Qed.

Lemma sorted_StronglySorted l : StronglySorted (key_le key) (sorted key l).
Proof.
  induction l as [|x l IH]; [constructor|].
  unfold sorted in *. cbn [foldr]. by apply insert_by_StronglySorted.
Qed.

End SortedProps.

Lemma sorted_by_str_unique (l1 l2 : list string) :
  l1 ≡ₚ l2 -> sorted (fun item => item) l1 = sorted (fun item => item) l2.
Proof.
  intros Hp. apply (StronglySorted_unique String.le).
  - apply (sorted_StronglySorted (fun item => item)).
  - apply (sorted_StronglySorted (fun item => item)).
  - by rewrite !sorted_Permutation.
Qed.

Lemma str_in_elem_of (v : string) (l : list string) : str_in v l = true <-> v ∈ l.
Proof.
  unfold str_in. rewrite existsb_exists. split.
  - intros (x & Hx & Heq). apply String.eqb_eq in Heq. subst. by apply list_elem_of_In.
  - intros H. exists v. split; [by apply list_elem_of_In|apply String.eqb_refl].
Qed.

Lemma filter_Permutation_bool {A} (f : A -> bool) (l1 l2 : list A) :
  l1 ≡ₚ l2 -> List.filter f l1 ≡ₚ List.filter f l2.
Proof.
  induction 1 as [|x l1 l2 _ IH|x y l|l1 l2 l3 _ IH1 _ IH2]; cbn [List.filter].
  - done.
  - destruct (f x); by rewrite IH.
  - destruct (f x), (f y); try done. apply Permutation_swap.
  - by etrans.
Qed.

(** ** The directory collector *)

Section Directory.
Import HwpHwpxDirectoryLoader.

Lemma normalize_extension_cases e :
  (exists err, _normalize_extension e = raise err) \/
  _normalize_extension e = ret (normalized_extension e).
Proof.
  unfold _normalize_extension, normalized_extension.
  destruct (negb (truthy _)); [left; by eexists|right].
  by destruct (PyStr.startswith "." _).
Qed.

Lemma map_gen_normalize exts :
  forall l, snd (map_gen _normalize_extension exts) = inr l ->
            l = List.map normalized_extension exts.
Proof.
  induction exts as [|e exts IH]; intros l; cbn [map_gen List.map].
  - cbn. by intros [= <-].
  - destruct (normalize_extension_cases e) as [[err ->]| ->]; [done|].
    rewrite bind_ret.
    destruct (map_gen _normalize_extension exts) as [tr [err|l']]; [done|].
    rewrite bind_pair. cbn. intros [= <-]. f_equal. by apply IH.
Qed.

Lemma init_extensions dir pat rec exts kw self :
  snd (__init__ dir pat rec exts kw) = inr self ->
  extensions self = List.map normalized_extension exts.
Proof.
  unfold __init__.
  pose proof (map_gen_normalize exts) as Hn.
  destruct (map_gen _normalize_extension exts) as [tr [err|l]]; [done|].
  rewrite bind_pair. cbv beta zeta. unfold _validate_literal.
  destruct (negb (str_in _ _)); [done|].
  rewrite bind_ret. cbn [snd ret]. intros [= <-]. cbn [extensions].
  by apply Hn.
Qed.

Lemma select_files_filter env self entries :
  (forall path, path ∈ entries -> exists b, fs_is_file env path = inr b) ->
  select_files env self entries
  = inr (List.filter
           (fun path =>
              is_regular env path
              && str_in (PyStr.lower (Path.suffix path)) (extensions self))
           entries).
Proof.
  induction entries as [|path rest IH]; intros H; [done|].
  cbn [select_files List.filter]. unfold is_regular at 1.
  destruct (H path) as [b ->]; [apply elem_of_cons; by left|].
  rewrite IH; [done|]. intros p Hp. apply H, elem_of_cons. by right.
Qed.

(** C6. For a collector built by [__init__], when the enumeration and the
    regular-file checks raise nothing, the files it processes are exactly
    the enumerated entries that are regular files and whose lower-cased
    extension is one of the configured extensions in their normalised
    (stripped, lower-cased, dotted) form; they come sorted by path string in
    ascending order; the list is the same for every enumeration order of the
    same entries; and [lazy_load] processes the files of this list one after
    the other. *)
Theorem collect_files_filtered_sorted env dir pat rec exts kw self entries :
  snd (__init__ dir pat rec exts kw) = inr self ->
  candidates env self = (entries, None) ->
  (forall path, path ∈ entries -> exists b, fs_is_file env path = inr b) ->
  exists files,
    _collect_files env self = inr files /\
    (forall path,
       path ∈ files <->
       path ∈ entries /\ fs_is_file env path = inr true /\
       exists e, e ∈ exts /\ PyStr.lower (Path.suffix path) = normalized_extension e) /\
    files ≡ₚ List.filter
               (fun path =>
                  is_regular env path &&
                  str_in (PyStr.lower (Path.suffix path))
                    (List.map normalized_extension exts))
               entries /\
    StronglySorted String.le files /\
    (forall env' entries',
       candidates env' self = (entries', None) -> entries' ≡ₚ entries ->
       (forall path, fs_is_file env' path = fs_is_file env path) ->
       _collect_files env' self = inr files) /\
    (fs_exists env (dir_path self) = inr true ->
     fs_is_dir env (dir_path self) = inr true ->
     lazy_load env self
     = HwpHwpxLoader.for_each files tt (fun _ path => load_file env self path)).
Proof.
  intros Hinit Hcand Hfile.
  assert (_collect_files env self
          = inr (sorted (fun item => item)
                   (List.filter
                      (fun path =>
                         is_regular env path &&
                         str_in (PyStr.lower (Path.suffix path))
                           (List.map normalized_extension exts))
                      entries))) as Hfiles.
  { unfold _collect_files. rewrite Hcand, (select_files_filter _ _ _ Hfile).
    by rewrite (init_extensions _ _ _ _ _ _ Hinit). }
  eexists. split; [exact Hfiles|].
  split; [|split; [|split; [|split]]].
  - intros path. rewrite sorted_Permutation, list_elem_of_In, filter_In.
    rewrite <- list_elem_of_In, andb_true_iff, str_in_elem_of, list_elem_of_fmap.
    unfold is_regular. split.
    + intros (Hc & Hf & e & He & Hin). destruct (fs_is_file env path) as [?|[]]; naive_solver.
    + intros (Hc & Hf & e & Hin & He). rewrite Hf. eauto.
  - apply sorted_Permutation.
  - apply (sorted_StronglySorted (fun item => item)).
  - intros env' entries' Hcand' Hperm Hfile'. unfold _collect_files.
    rewrite Hcand', select_files_filter, (init_extensions _ _ _ _ _ _ Hinit).
    + f_equal. apply sorted_by_str_unique.
      rewrite (filter_Permutation_bool _ _ _ Hperm).
      erewrite filter_ext; [reflexivity|]. intros path. cbv beta.
      unfold is_regular. by rewrite Hfile'.
    + intros path Hp. rewrite Hfile'. apply Hfile. by rewrite <- Hperm.
  - intros Hex Hdir. unfold lazy_load. rewrite Hex, bind_call. cbn [negb].
    by rewrite Hdir, bind_call, Hfiles, bind_call.
Qed.

End Directory.

(** ** The file type token *)

Lemma contains_tail sub c s : PyStr.contains sub s = true -> PyStr.contains sub (String c s) = true.
Proof. intros H. cbn [PyStr.contains]. rewrite H. apply orb_true_r. Qed.

Lemma contains_app_pre (sub t pre : string) :
  PyStr.contains sub t = true -> PyStr.contains sub (pre ++ t) = true.
Proof.
  intros H. induction pre as [|c pre IH]; [exact H|].
  change (String c pre ++ t) with (String c (pre ++ t)). by apply contains_tail.
Qed.

Lemma endswith_app (suf s : string) :
  PyStr.endswith suf s = true -> exists pre, s = pre ++ suf.
Proof.
  induction s as [|c s IH]; cbn [PyStr.endswith]; intros H;
    apply orb_true_iff in H as [H|H].
  - apply String.eqb_eq in H. exists "". by subst.
  - done.
  - apply String.eqb_eq in H. exists "". by subst.
  - destruct (IH H) as [pre ->]. by exists (String c pre).
Qed.

Lemma endswith_dot_hwpx (s : string) :
  PyStr.endswith ".hwpx" s = true -> PyStr.contains "hwpx" s = true.
Proof.
  intros H. destruct (endswith_app _ _ H) as [pre ->].
  by apply contains_app_pre.
Qed.

Lemma classify_unrecognised token : recognised token = false -> classify_token token = None.
Proof.
  unfold recognised, classify_token. cbv zeta. intros H.
  apply orb_false_iff in H as [H H4]. apply orb_false_iff in H as [H H3].
  apply orb_false_iff in H as [H1 H2]. rewrite H1, H2, H3, H4. cbn [orb].
  destruct (PyStr.endswith ".hwpx" _) eqn:E; [|done].
  apply endswith_dot_hwpx in E. congruence.
Qed.

Lemma scan_candidates_skip pre rest :
  Forall (fun t => recognised t = false) pre ->
  scan_candidates (pre ++ rest) = scan_candidates rest.
Proof.
  induction 1 as [|t pre Ht _ IH]; [done|].
  cbn [app scan_candidates]. by rewrite (classify_unrecognised _ Ht).
Qed.

(** C8 (amended). [_normalize_file_type] scans, in this order, the string
    form of the reported type object, its [name] and its [value] (where it
    has them) and last the file extension without its dot.  The first
    candidate that is recognised decides: lower-cased, one that contains
    "hwpx" gives "hwpx"; otherwise one that contains "hwp5", is "hwp" or ends
    with ".hwp" gives "hwp".  A candidate that only contains "hwp" is not
    recognised.  When no candidate is recognised the token is the lower-cased
    extension. *)
Theorem normalize_file_type_first_recognised value path :
  (forall pre token post,
     file_type_candidates value path = (pre ++ token :: post)%list ->
     Forall (fun t => recognised t = false) pre ->
     let lowered := PyStr.lower token in
     (PyStr.contains "hwpx" lowered = true -> _normalize_file_type value path = "hwpx") /\
     (PyStr.contains "hwpx" lowered = false ->
      PyStr.contains "hwp5" lowered = true \/ lowered = "hwp"
      \/ PyStr.endswith ".hwp" lowered = true ->
      _normalize_file_type value path = "hwp")) /\
  (Forall (fun t => recognised t = false) (file_type_candidates value path) ->
   _normalize_file_type value path =
   PyStr.lower (PyStr.lstrip_char "." (Path.suffix path))).
Proof.
  split.
  - intros pre token post Hc Hpre lowered. unfold _normalize_file_type.
    rewrite Hc, (scan_candidates_skip _ _ Hpre). cbn [scan_candidates].
    unfold classify_token. fold lowered. split.
    + by intros ->.
    + intros Hx [H|[H|H]]; rewrite Hx.
      * by rewrite H.
      * rewrite H. by destruct (PyStr.contains "hwp5" "hwp").
      * destruct (PyStr.contains "hwp5" lowered || String.eqb lowered "hwp"); [done|].
        destruct (PyStr.endswith ".hwpx" lowered) eqn:E; [|by rewrite H].
        apply endswith_dot_hwpx in E. congruence.
  - intros Hall. unfold _normalize_file_type.
    rewrite <- (app_nil_r (file_type_candidates value path)).
    by rewrite (scan_candidates_skip _ [] Hall).
Qed.

Lemma normalize_file_type_first_recognised_witness :
  _normalize_file_type Fixtures.HWP5 Fixtures.sample_file = "hwp" /\
  _normalize_file_type (PStr "odt") "/docs/notes.TXT" = "txt".
Proof.
  split.
  - apply (proj1 (normalize_file_type_first_recognised Fixtures.HWP5 Fixtures.sample_file)
             [] "FakeFileType.HWP5" ["HWP5"; "1"; "hwp"]);
      [reflexivity | constructor | reflexivity | left; reflexivity].
  - apply (proj2 (normalize_file_type_first_recognised (PStr "odt") "/docs/notes.TXT")).
    repeat constructor.
Defined.

(** C8 as stated fails.  A candidate that contains "hwp" (and not "hwpx")
    does not give "hwp": with the extension [txt] the token is "txt".  And a
    candidate that contains "hwpx" does not give "hwpx" when an earlier
    candidate is recognised: a reader that reports [HWP5] for [report.hwpx]
    gives "hwp". *)
Lemma normalize_file_type_counterexample :
  let value := PObj "DocType.HWP_BINARY" (Some "HWP_BINARY") (Some "hwp-binary") in
  (file_type_candidates value "/docs/report.txt"
     = ["DocType.HWP_BINARY"; "HWP_BINARY"; "hwp-binary"; "txt"] /\
   PyStr.contains "hwp" (PyStr.lower "DocType.HWP_BINARY") = true /\
   _normalize_file_type value "/docs/report.txt" = "txt") /\
  (file_type_candidates Fixtures.HWP5 "/docs/report.hwpx"
     = ["FakeFileType.HWP5"; "HWP5"; "1"; "hwpx"] /\
   PyStr.contains "hwpx" (PyStr.lower "hwpx") = true /\
   _normalize_file_type Fixtures.HWP5 "/docs/report.hwpx" = "hwp").
Proof. cbv zeta. repeat split; vm_compute; reflexivity. Qed.

(** ** Image materialisation *)

Section Images.
Import HwpHwpxLoader.
Variable env : Env.
Variable self : t.


End Images.



(** ** Structured errors through the containment layers *)

(** A structured error raised inside the [try] block of the single-file
    extractor leaves [lazy_load] as it is. *)
Lemma lazy_load_keeps_structured_error env self reader tr msg cause :
  supported (HwpHwpxLoader.file_path self) ->
  opens env (HwpHwpxLoader.file_path self) reader ->
  HwpHwpxLoader.lazy_load_body env self (HwpHwpxLoader.file_path self)
    = (tr, inl (HwpHwpxLoaderError msg cause)) ->
  HwpHwpxLoader.lazy_load env self = (tr, inl (HwpHwpxLoaderError msg cause)).
Proof.
  intros Hs Ho Hbody. rewrite (lazy_load_checked _ _ _ Hs Ho), Hbody.
  cbn. by rewrite app_nil_r.
Qed.

(** Under [on_error="raise"] the directory collector wraps whatever
    exception a file's processing raises, structured or not. *)
Lemma load_file_wraps env self path tr exc :
  HwpHwpxDirectoryLoader.on_error self = "raise" ->
  is_Exception exc = true ->
  bind (HwpHwpxLoader.__init__ path (HwpHwpxDirectoryLoader.loader_kwargs self))
    (fun loader => HwpHwpxLoader.lazy_load env loader) = (tr, inl exc) ->
  HwpHwpxDirectoryLoader.load_file env self path
  = (tr, inl (HwpHwpxLoaderError
                ("Failed to load file " ++ path ++ ": " ++ class_name exc) (Some exc))).
Proof.
  intros Hpol Hexc Hrun. unfold HwpHwpxDirectoryLoader.load_file.
  rewrite Hrun. cbn [try_except]. rewrite Hexc, Hpol. cbn. by rewrite app_nil_r.
Qed.

(** C3 (defect of the code).  The single-file extractor lets a structured
    error through as it is, but the directory collector's per-file
    containment does not: with every policy at "raise" and an encrypted
    first file, the extractor raises the [HwpHwpxLoaderError] of the status
    gate, and the collector raises a new [HwpHwpxLoaderError] that wraps
    it. *)
Theorem directory_rewraps_structured_error :
  let inner :=
    HwpHwpxLoaderError "Document skipped because it is encrypted: /docs/a.HWPX" None in
  snd (bind (HwpHwpxLoader.__init__ "/docs/a.HWPX"
               (HwpHwpxDirectoryLoader.loader_kwargs Fixtures.directory_loader))
         (fun loader => HwpHwpxLoader.lazy_load Fixtures.encrypted_env loader))
  = inl inner /\
  snd (HwpHwpxDirectoryLoader.lazy_load Fixtures.encrypted_env Fixtures.directory_loader)
  = inl (HwpHwpxLoaderError "Failed to load file /docs/a.HWPX: HwpHwpxLoaderError"
           (Some inner)).
Proof. cbv zeta. split; vm_compute; reflexivity. Qed.

(** ** The repository's tests, run on the embedding *)

Example lower_mixed_case : PyStr.lower ".HwPx" = ".hwpx".
Proof. reflexivity. Qed.

Example strip_both_ends : PyStr.strip ("  a b" ++ nl ++ " ") = "a b".
Proof. reflexivity. Qed.

Example strip_unicode_space :
  PyStr.strip (ideographic_space ++ " a" ++ nbsp ++ "b" ++ nbsp ++ ideographic_space)
  = "a" ++ nbsp ++ "b"
  /\ PyStr.strip (nbsp ++ ideographic_space) = ""
  /\ _normalize_hyperlink (HSeq [PStr ideographic_space; PNone]) = ("", "").
Proof. repeat split; reflexivity. Qed.

Example repr_of_strings :
  PyStr.repr "pages" = "'pages'" /\ PyStr.repr "it's" = String (ascii_of_nat 34) "it's"
                                                        ++ String (ascii_of_nat 34) ""
  /\ PyStr.repr ("a\b" ++ nl) = "'a\\b\n'".
Proof. repeat split; reflexivity. Qed.

Example pad3_of_7 : PyStr.pad3 7 = "007" /\ PyStr.pad3 1234 = "1234".
Proof. split; reflexivity. Qed.

Example suffix_of_names :
  Path.suffix "/docs/a.tar.GZ" = ".GZ" /\ Path.suffix "/docs/.profile" = ""
  /\ Path.suffix "/docs/name." = "" /\ Path.name "/docs/sub/c.hwp" = "c.hwp".
Proof. repeat split; reflexivity. Qed.

Example joinpath_of_names :
  Path.joinpath "/out" "./pic.png" = "/out/pic.png"
  /\ Path.joinpath "/out" "a//b/" = "/out/a/b"
  /\ Path.joinpath "/out" "/etc/x.png" = "/etc/x.png"
  /\ Path.joinpath "." "." = "." /\ Path.name "." = ""
  /\ Path.with_suffix "/out/pic" ".png" = inr "/out/pic.png"
  /\ Path.with_suffix "/out/pic" ".a/b" = inl "Invalid suffix '.a/b'"
  /\ Path.with_suffix "/" ".png" = inl "PosixPath('/') has an empty name".
Proof. repeat split; reflexivity. Qed.

Example safe_int_of_values :
  _safe_int (PStr " 1_000 ") = Some 1000%Z /\ _safe_int (PStr "1__0") = None
  /\ _safe_int (PStr "-7") = Some (-7)%Z /\ _safe_int PNone = None
  /\ _safe_int (PStr "") = None
  /\ _safe_int (PStr (ideographic_space ++ "12" ++ nbsp)) = Some 12%Z
  /\ _safe_int (PStr (String (ascii_of_nat 28) "12")) = None
  /\ _safe_int (PStr (String (ascii_of_nat 217) (String (ascii_of_nat 163) ""))) = Some 3%Z.
Proof. repeat split; reflexivity. Qed.

(** [glob="**/*"] with [recursive=False] *)
Example non_recursive_pattern :
  PyStr.replace "**" "*" (PyStr.replace "**/" "" "**/*") = "*".
Proof. reflexivity. Qed.

Example test_single_mode_contains_required_sections :
  let out := Fixtures.run Fixtures.env Fixtures.sample_file HwpHwpxLoader.no_kwargs in
  Fixtures.content_has out
    ["body"; "## Tables"; "## Notes"; "## Memos"; "## Hyperlinks";
     "- site: https://example.com"] = true /\
  List.map (fun doc => (metadata doc !! "source", metadata doc !! "file_type"))
    (yielded (fst out))
  = [(Some (PStr "/tmp/sample.hwp"), Some (PStr "hwp"))].
Proof. split; vm_compute; reflexivity. Qed.

Example test_csv_style_uses_table_delimiter :
  let kw :=
    HwpHwpxLoader.mkKwargs (Some "single") (Some Fixtures.csv_options) None None None None None
      None None None None None None None in
  Fixtures.content_has (Fixtures.run Fixtures.env Fixtures.sample_file kw)
    ["A;B" ++ nl ++ "1;2"] = true.
Proof. vm_compute. reflexivity. Qed.

Example test_encrypted_policy_skip_returns_empty :
  let kw :=
    HwpHwpxLoader.mkKwargs None None None None None None None None None (Some "skip")
      None None None None in
  Fixtures.run Fixtures.encrypted_env Fixtures.sample_file kw
  = ([ReaderOpen "/tmp/sample.hwp"], inr tt).
Proof. vm_compute. reflexivity. Qed.

Example test_invalid_mode_is_rejected :
  let kw :=
    HwpHwpxLoader.mkKwargs (Some "pages") None None None None None None None None None
      None None None None in
  Fixtures.run Fixtures.env Fixtures.sample_file kw
  = ([], inl (PyException "ValueError"
                "Invalid mode='pages'. Expected one of: elements, single")).
Proof. vm_compute. reflexivity. Qed.

Example test_directory_loader_orders_files_stably :
  let out :=
    bind (HwpHwpxDirectoryLoader.__init__ "/docs" "**/*" true [".hwp"; ".hwpx"]
            HwpHwpxLoader.no_kwargs)
      (HwpHwpxDirectoryLoader.lazy_load Fixtures.env) in
  snd out = inr tt /\
  List.map (fun doc => metadata doc !! "source") (yielded (fst out))
  = [Some (PStr "/docs/a.HWPX"); Some (PStr "/docs/b.hwp"); Some (PStr "/docs/sub/c.hwp")].
Proof. split; vm_compute; reflexivity. Qed.

(** ** The properties on the sample collaborators *)

Lemma elements_order_witness :
  let out := HwpHwpxLoader.lazy_load Fixtures.env (Fixtures.loader "elements" "raise" "raise") in
  snd out = inr tt /\
  List.map element_type (yielded (fst out)) =
    List.map (fun ty => Some (PStr ty))
      ["body"; "table"; "footnote"; "endnote"; "memo"; "hyperlink"; "image"] /\
  List.map element_index (yielded (fst out)) =
    List.map (fun i => Some (PInt i)) [0; 1; 2; 3; 4; 5; 6]%Z.
Proof.
  apply (elements_order Fixtures.env (Fixtures.loader "elements" "raise" "raise")
           Fixtures.FakeReader Fixtures.fake_result Fixtures.FakeTable
           Fixtures.footnote Fixtures.endnote Fixtures.memo Fixtures.link
           Fixtures.FakeImage);
    try reflexivity.
  - split; [reflexivity|]. eexists. split; reflexivity.
  - vm_compute. discriminate.
  - vm_compute. discriminate.
  - intros md. eexists. reflexivity.
Defined.

Lemma on_error_policies_witness :
  let env := Fixtures.env_with Fixtures.FailingReader Fixtures.listing in
  snd (HwpHwpxLoader.lazy_load env (Fixtures.loader "single" "raise" "raise"))
  = inl (HwpHwpxLoaderError "Failed to parse /tmp/sample.hwp: RuntimeError"
           (Some (PyException "RuntimeError" "boom"))) /\
  (yielded (fst (HwpHwpxLoader.lazy_load env (Fixtures.loader "single" "raise" "warn"))) = [] /\
   exists m,
     warnings (fst (HwpHwpxLoader.lazy_load env (Fixtures.loader "single" "raise" "warn"))) = [m] /\
     PyStr.contains "Failed to parse" m = true) /\
  HwpHwpxLoader.lazy_load env (Fixtures.loader "single" "raise" "skip")
  = ([ReaderOpen "/tmp/sample.hwp"; ExtractCall false], inr tt).
Proof.
  intros env.
  assert (forall pol,
            supported (HwpHwpxLoader.file_path (Fixtures.loader "single" "raise" pol)))
    as Hs by (intros pol; reflexivity).
  assert (forall pol,
            opens env (HwpHwpxLoader.file_path (Fixtures.loader "single" "raise" pol))
              Fixtures.FailingReader) as Ho.
  { intros pol. split; [reflexivity|]. eexists. split; reflexivity. }
  split; [|split].
  - apply (on_error_policies env (Fixtures.loader "single" "raise" "raise")
             Fixtures.FailingReader "RuntimeError" "boom" (Hs _) (Ho _)
             eq_refl eq_refl eq_refl).
    reflexivity.
  - destruct (on_error_policies env (Fixtures.loader "single" "raise" "warn")
                Fixtures.FailingReader "RuntimeError" "boom" (Hs _) (Ho _)
                eq_refl eq_refl eq_refl) as (_ & Hwarn & _).
    destruct (Hwarn eq_refl) as (Hy & _ & Hm). split; [exact Hy|exact Hm].
  - reflexivity.
Defined.

Lemma encrypted_placeholder_witness :
  let env := Fixtures.env_with Fixtures.EncryptedReader Fixtures.listing in
  exists doc,
    HwpHwpxLoader.lazy_load env (Fixtures.loader "single" "placeholder" "raise")
    = ([ReaderOpen "/tmp/sample.hwp"; Yield doc], inr tt) /\
    page_content doc = "[ENCRYPTED] sample.hwp cannot be parsed by policy." /\
    metadata doc !! "status" = Some (PStr "encrypted") /\
    element_type doc = Some (PStr "placeholder").
Proof.
  intros env.
  destruct (encrypted_placeholder env (Fixtures.loader "single" "placeholder" "raise")
              Fixtures.EncryptedReader) as (doc & Hrun & Hc & _ & Hst & Hty);
    try reflexivity.
  - split; [reflexivity|]. eexists. split; reflexivity.
  - exists doc. repeat split; assumption.
Defined.

Lemma encrypted_before_invalid_witness :
  let env := Fixtures.env_with Fixtures.BrokenReader Fixtures.listing in
  let self := Fixtures.loader "single" "placeholder" "raise" in
  HwpHwpxLoader.lazy_load env (HwpHwpxLoader.set_on_invalid "skip" self)
  = HwpHwpxLoader.lazy_load env self.
Proof.
  intros env self.
  apply (encrypted_before_invalid env self Fixtures.BrokenReader); try reflexivity.
  split; [reflexivity|]. eexists. split; reflexivity.
Defined.

Lemma collect_files_filtered_sorted_witness :
  exists files,
    HwpHwpxDirectoryLoader._collect_files Fixtures.env Fixtures.directory_loader
    = inr files /\
    StronglySorted String.le files /\
    HwpHwpxDirectoryLoader._collect_files
      (Fixtures.env_with Fixtures.FakeReader (reverse Fixtures.listing))
      Fixtures.directory_loader = inr files /\
    ("/docs/a.HWPX" ∈ files <->
     "/docs/a.HWPX" ∈ Fixtures.listing /\
     fs_is_file Fixtures.env "/docs/a.HWPX" = inr true /\
     exists e, e ∈ [".hwp"; "HWPX "] /\
               PyStr.lower (Path.suffix "/docs/a.HWPX") = normalized_extension e).
Proof.
  destruct (collect_files_filtered_sorted Fixtures.env "/docs" "**/*" true
              [".hwp"; "HWPX "] HwpHwpxLoader.no_kwargs Fixtures.directory_loader
              Fixtures.listing eq_refl eq_refl)
    as (files & Hfiles & Hmem & _ & Hsorted & Hperm & _).
  { intros path _. by eexists. }
  exists files. split; [exact Hfiles|]. split; [exact Hsorted|].
  split; [|exact (Hmem "/docs/a.HWPX")].
  apply (Hperm _ (reverse Fixtures.listing)); [reflexivity| |reflexivity].
  apply (Permutation_sym (Permutation_rev Fixtures.listing)).
Defined.

Lemma empty_hyperlink_skipped_witness :
  let self := Fixtures.loader "elements" "raise" "raise" in
  let result := with_hyperlinks [Fixtures.blank_link; Fixtures.link] Fixtures.fake_result in
  HwpHwpxLoader.hyperlink_element ∅ 5 Fixtures.blank_link = ([], inr 5%nat) /\
  HwpHwpxLoader._build_element_documents Fixtures.env self Fixtures.sample_file
    Fixtures.FakeReader result ∅
  = HwpHwpxLoader._build_element_documents Fixtures.env self Fixtures.sample_file
      Fixtures.FakeReader (with_hyperlinks [Fixtures.link] result) ∅.
Proof.
  intros self result.
  destruct (empty_hyperlink_skipped Fixtures.env self Fixtures.blank_link eq_refl)
    as (Hskip & Hrun & _).
  split; [apply Hskip|].
  apply (Hrun Fixtures.sample_file Fixtures.FakeReader result [] [Fixtures.link] ∅).
  reflexivity.
Defined.

Lemma single_mode_one_document_witness :
  let env := Fixtures.env_with Fixtures.BlankReader Fixtures.listing in
  let out := HwpHwpxLoader.lazy_load env (Fixtures.loader "single" "raise" "raise") in
  snd out = inr tt /\
  exists doc,
    yielded (fst out) = [doc] /\
    element_type doc = Some (PStr "document") /\
    page_content doc = "".
Proof.
  intros env out.
  destruct (single_mode_one_document env (Fixtures.loader "single" "raise" "raise")
              Fixtures.BlankReader Fixtures.empty_result)
    as (Hend & doc & Hy & Hty & Hempty); try reflexivity.
  - split; [reflexivity|]. eexists. split; reflexivity.
  - intros _. exists []. reflexivity.
  - intros _. exists []. split; [reflexivity|]. intros i image Hi. discriminate Hi.
  - split; [exact Hend|]. exists doc. split; [exact Hy|]. split; [exact Hty|].
    apply Hempty; first [reflexivity | right; reflexivity].
Defined.

(** * Further properties of the code *)

(** ** Properties of every event of a run *)

Section AllEvents.
Context (Q : event -> Prop).

Lemma all_events_ret {A} (a : A) : all_events Q (ret a).
Proof. constructor. Qed.

Lemma all_events_raise {A} (e : exn) : all_events Q (@raise A e).
Proof. constructor. Qed.

Lemma all_events_call {A} (r : exn + A) : all_events Q (call r).
Proof. constructor. Qed.

Lemma all_events_emit ev : Q ev -> all_events Q (emit ev).
Proof. intros H. by repeat constructor. Qed.

Lemma all_events_bind {A B} (m : Gen A) (k : A -> Gen B) :
  all_events Q m -> (forall a, all_events Q (k a)) -> all_events Q (bind m k).
Proof.
  unfold all_events. destruct m as [tr [e|a]]; cbn [fst bind]; [done|].
  intros Hm Hk. specialize (Hk a). destruct (k a) as [tr' r]. cbn [fst] in *.
  by apply Forall_app.
Qed.

Lemma all_events_try_except {A} (m : Gen A) (h : exn -> Gen A) :
  all_events Q m -> (forall e, all_events Q (h e)) -> all_events Q (try_except m h).
Proof.
  unfold all_events. destruct m as [tr [e|a]]; cbn [fst try_except]; [|done].
  intros Hm Hh. specialize (Hh e). destruct (h e) as [tr' r]. cbn [fst] in *.
  by apply Forall_app.
Qed.

Lemma all_events_for_each {A S} (xs : list A) (body : S -> A -> Gen S) :
  (forall s x, all_events Q (body s x)) ->
  forall s, all_events Q (HwpHwpxLoader.for_each xs s body).
Proof.
  intros Hb. induction xs as [|x xs IH]; intros s; cbn [HwpHwpxLoader.for_each].
  - apply all_events_ret.
  - apply all_events_bind; [apply Hb|apply IH].
Qed.

Lemma all_events_if {A} (b : bool) (m1 m2 : Gen A) :
  all_events Q m1 -> all_events Q m2 -> all_events Q (if b then m1 else m2).
Proof. by destruct b. Qed.

End AllEvents.

Create HintDb events discriminated.
#[local] Hint Resolve all_events_ret all_events_raise all_events_call all_events_emit
  all_events_bind all_events_try_except all_events_for_each all_events_if : events.

(** Case analysis on a flag of the loader that leaves the hypotheses about
    it as they are. *)
Ltac case_flag f E :=
  destruct (Bool.bool_dec f true) as [E|E];
  [rewrite E | apply Bool.not_true_is_false in E; rewrite E].

(** *** What a run of [lazy_load] can do

    A property of events holds all along a run of [lazy_load] as soon as it
    holds of the events the configuration lets it make. *)

Section RunEvents.
Import HwpHwpxLoader.
Variable env : Env.
Variable self : t.
Variable Q : event -> Prop.
Hypothesis Q_open : forall path, Q (ReaderOpen path).
Hypothesis Q_extract : forall b, Q (ExtractCall b).
Hypothesis Q_yield : forall d, Q (Yield d).
Hypothesis Q_warn : forall m, Q (LogWarning m).
Hypothesis Q_tables : include_tables self = true -> Q GetTablesCall.
Hypothesis Q_images : include_images self = true -> Q GetImagesCall.
Hypothesis Q_materialize :
  include_images self = true ->
  forall path idx image md, all_events Q (_materialize_image env self path idx image md).

Lemma all_events_collect_tables reader result :
  include_tables self = true -> all_events Q (_collect_tables reader result).
Proof.
  intros H. unfold _collect_tables.
  destruct (Result.tables result); [auto with events|].
  destruct (Reader.get_tables reader); auto with events.
Qed.

Lemma all_events_collect_images reader :
  include_images self = true -> all_events Q (_collect_images reader).
Proof.
  intros H. unfold _collect_images.
  destruct (Reader.get_images reader); auto with events.
Qed.

Lemma all_events_append_section (include : bool) render chunks :
  (include = true -> all_events Q render) ->
  all_events Q (append_section include render chunks).
Proof. unfold append_section. destruct include; auto with events. Qed.

Lemma all_events_render_tables reader result :
  include_tables self = true ->
  all_events Q (_render_tables_for_single self reader result).
Proof.
  intros Hi. unfold _render_tables_for_single. apply all_events_bind.
  - by apply all_events_collect_tables.
  - intros [|]; auto with events.
Qed.

Lemma all_events_render_images path reader :
  include_images self = true ->
  all_events Q (_render_images_for_single env self path reader).
Proof.
  intros Hi. unfold _render_images_for_single. apply all_events_bind.
  - by apply all_events_collect_images.
  - intros [|image images]; [auto with events|].
    apply all_events_bind; [|auto with events].
    apply all_events_for_each. intros lines [idx img].
    apply all_events_bind; auto with events.
Qed.

Lemma all_events_build_single path reader result md :
  all_events Q (_build_single_document env self path reader result md).
Proof.
  unfold _build_single_document. cbv zeta.
  apply all_events_bind; [|intros c1].
  { apply all_events_append_section. apply all_events_render_tables. }
  apply all_events_bind; [|intros c2].
  { apply all_events_append_section. auto with events. }
  apply all_events_bind; [|intros c3].
  { apply all_events_append_section. auto with events. }
  apply all_events_bind; [|intros c4].
  { apply all_events_append_section. auto with events. }
  apply all_events_bind; [|intros c5].
  { apply all_events_append_section. apply all_events_render_images. }
  auto with events.
Qed.

Lemma all_events_build_elements path reader result md :
  all_events Q (_build_element_documents env self path reader result md).
Proof.
  unfold _build_element_documents. cbv zeta.
  apply all_events_bind; [destruct (truthy _); auto with events|intros ?].
  apply all_events_bind; [|intros ?].
  { case_flag (include_tables self) E; [|auto with events].
    apply all_events_bind; [by apply all_events_collect_tables|intros tables].
    apply all_events_for_each. intros s x. unfold table_element. auto with events. }
  apply all_events_bind; [|intros ?].
  { destruct (include_notes self); [|auto with events].
    apply all_events_for_each. intros s x. unfold note_element. auto with events. }
  apply all_events_bind; [|intros ?].
  { destruct (include_memos self); [|auto with events].
    apply all_events_for_each. intros s x. unfold memo_element. auto with events. }
  apply all_events_bind; [|intros ?].
  { destruct (include_hyperlinks self); [|auto with events].
    apply all_events_for_each. intros s x. unfold hyperlink_element.
    destruct (_normalize_hyperlink x). destruct (_ && _); auto with events. }
  apply all_events_bind; [|auto with events].
  case_flag (include_images self) E; [|auto with events].
  apply all_events_bind; [by apply all_events_collect_images|intros images].
  apply all_events_for_each. intros s [idx img]. unfold image_element.
  apply all_events_bind; auto with events.
Qed.

Lemma all_events_lazy_load : all_events Q (lazy_load env self).
Proof.
  unfold lazy_load. cbv zeta.
  destruct (negb (str_in _ _)); [auto with events|].
  apply all_events_bind; [auto with events|intros found].
  destruct (negb found); [auto with events|].
  apply all_events_try_except.
  - unfold lazy_load_body. apply all_events_bind.
    { unfold _create_reader, _import_parser.
      destruct (parser_Reader env); auto with events. }
    intros reader. cbv zeta. apply all_events_bind.
    { unfold _handle_file_status, _resolve_status_policy.
      repeat (match goal with |- context [if ?b then _ else _] => destruct b end);
        auto with events. }
    intros [doc|]; [auto with events|].
    apply all_events_bind.
    { unfold _extract_result. destruct (extract_options self); auto with events. }
    intros result. destruct (String.eqb _ _).
    + apply all_events_bind; [apply all_events_build_single|auto with events].
    + apply all_events_build_elements.
  - intros [msg c| |cls msg|cls msg]; auto with events.
    unfold _handle_runtime_error. cbv zeta.
    repeat (match goal with |- context [if ?b then _ else _] => destruct b end);
      auto with events.
Qed.

End RunEvents.

Lemma all_events_materialize env self (Q : event -> Prop) path idx image md :
  (forall dir, Q (Mkdir dir)) -> (forall p, Q (ImageSave p)) ->
  all_events Q (HwpHwpxLoader._materialize_image env self path idx image md).
Proof.
  intros Hm Hs. unfold all_events. rewrite materialize_image_outcome.
  repeat match goal with
         | |- context [match ?x with _ => _ end] => destruct x
         end; cbn [fst]; repeat constructor; auto.
Qed.

Lemma all_events_no_fs {A} (m : Gen A) : all_events no_fs_effect m -> fs_effects (fst m) = [].
Proof.
  unfold all_events, fs_effects, no_fs_effect. induction 1 as [|ev tr Hev _ IH]; [done|].
  cbn [List.filter]. by rewrite Hev.
Qed.

(** A run of [lazy_load] creates no directory and saves no file unless
    images are included, the persistence mode is "save_and_reference" and a
    target directory is configured. *)
Theorem lazy_load_leaves_file_system env self :
  HwpHwpxLoader.include_images self = false
  \/ HwpHwpxLoader.image_document_mode self <> "save_and_reference"
  \/ HwpHwpxLoader.images_dir self = None ->
  fs_effects (fst (HwpHwpxLoader.lazy_load env self)) = [].
Proof.
  intros H. apply all_events_no_fs. apply all_events_lazy_load; try done.
  intros Hi path idx image md.
  destruct H as [H|[H|H]]; [congruence| |];
    unfold HwpHwpxLoader._materialize_image; cbv zeta.
  - apply String.eqb_neq in H. rewrite H. apply all_events_ret.
  - rewrite H. destruct (String.eqb _ _); apply all_events_ret.
Qed.

(** With tables excluded the reader's [get_tables] is never called, and with
    images excluded its [get_images] is never called, in either mode. *)
Theorem excluded_features_not_queried env self :
  (HwpHwpxLoader.include_tables self = false ->
   all_events (fun ev => ev <> GetTablesCall) (HwpHwpxLoader.lazy_load env self)) /\
  (HwpHwpxLoader.include_images self = false ->
   all_events (fun ev => ev <> GetImagesCall) (HwpHwpxLoader.lazy_load env self)).
Proof.
  split; intros H; apply all_events_lazy_load; try done; try congruence.
  intros _ path idx image md. by apply all_events_materialize.
Qed.

(** ** Error containment of the single-file extractor *)

Section Containment.
Import HwpHwpxLoader.
Variable env : Env.
Variable self : t.

Lemma lazy_load_past_checks :
  supported (file_path self) -> fs_exists env (file_path self) = inr true ->
  lazy_load env self =
  try_except (lazy_load_body env self (file_path self))
    (fun exc =>
       match exc with
       | _SkipFile => ret tt
       | HwpHwpxLoaderError _ _ => raise exc
       | PyException _ _ => _handle_runtime_error self (file_path self) exc
       | PyBaseException _ _ => raise exc
       end).
Proof.
  intros Hs He. unfold lazy_load. unfold supported in Hs. by rewrite Hs, He, bind_call.
Qed.

(** An ordinary exception raised anywhere in the [try] block (opening the
    reader, extracting, listing tables or images, saving an image) is
    handled by the error policy: "raise" wraps it with the file path and its
    class name, "warn" logs one warning and ends normally, any other policy
    ends normally in silence.  The documents yielded before the failure stay
    yielded. *)
Theorem runtime_error_contained tr cls msg :
  supported (file_path self) -> fs_exists env (file_path self) = inr true ->
  lazy_load_body env self (file_path self) = (tr, inl (PyException cls msg)) ->
  let out := lazy_load env self in
  yielded (fst out) = yielded tr /\
  (on_error self = "raise" ->
   out = (tr, inl (HwpHwpxLoaderError
                     ("Failed to parse " ++ file_path self ++ ": " ++ cls)
                     (Some (PyException cls msg))))) /\
  (on_error self = "warn" ->
   out = ((tr ++ [LogWarning (("Failed to parse " ++ file_path self ++ ": " ++ cls)
                              ++ " (" ++ msg ++ ")")])%list, inr tt)) /\
  (on_error self <> "raise" -> on_error self <> "warn" -> out = (tr, inr tt)).
Proof.
  intros Hs He Hbody out. subst out.
  rewrite (lazy_load_past_checks Hs He), Hbody.
  unfold try_except, _handle_runtime_error. cbv zeta. cbn [class_name exn_str].
  destruct (String.eqb_spec (on_error self) "raise") as [Hr|Hr].
  { cbn [raise fst snd]. rewrite app_nil_r.
    split; [reflexivity|]. split; [reflexivity|].
    split; [intros Hw; rewrite Hw in Hr; discriminate|intros H; contradiction]. }
  destruct (String.eqb_spec (on_error self) "warn") as [Hw|Hw].
  { cbn [emit fst snd]. rewrite yielded_app. cbn [yielded omap list_omap].
    rewrite app_nil_r. split; [reflexivity|]. split; [intros H; contradiction|].
    split; [reflexivity|intros _ H; contradiction]. }
  cbn [ret fst snd]. rewrite app_nil_r.
  split; [reflexivity|]. split; [intros H; contradiction|].
  split; [intros H; contradiction|reflexivity].
Qed.

(** Once the preconditions hold, the only exceptions that leave
    [lazy_load] are [HwpHwpxLoaderError]s and exceptions that are not
    [Exception]s: neither the internal [_SkipFile] signal nor an ordinary
    exception escapes. *)
Theorem lazy_load_escaping_exception e :
  supported (file_path self) -> fs_exists env (file_path self) = inr true ->
  snd (lazy_load env self) = inl e ->
  (exists msg cause, e = HwpHwpxLoaderError msg cause) \/
  (exists cls msg, e = PyBaseException cls msg).
Proof.
  intros Hs He. rewrite (lazy_load_past_checks Hs He).
  destruct (lazy_load_body env self (file_path self)) as [tr [exc|[]]]; [|done].
  unfold try_except. destruct exc as [msg c| |cls msg|cls msg]; cbn.
  - intros [= <-]. left. eauto.
  - done.
  - unfold _handle_runtime_error. cbv zeta.
    destruct (String.eqb (on_error self) "raise"); cbn.
    + intros [= <-]. left. eauto.
    + destruct (String.eqb (on_error self) "warn"); done.
  - intros [= <-]. right. eauto.
Qed.

(** The handlers of [lazy_load] neither yield a document nor drop one. *)
Lemma lazy_load_yields_of_body :
  supported (file_path self) -> fs_exists env (file_path self) = inr true ->
  yielded (fst (lazy_load env self))
  = yielded (fst (lazy_load_body env self (file_path self))).
Proof.
  intros Hs He. rewrite (lazy_load_past_checks Hs He).
  destruct (lazy_load_body env self (file_path self)) as [tr [exc|[]]]; [|done].
  assert (forall h : Gen unit,
            yielded (fst h) = [] ->
            yielded (fst (let '(tr', r) := h in ((tr ++ tr')%list, r))) = yielded tr) as Hq.
  { intros [tr' r] Hh. cbn [fst] in *. by rewrite yielded_app, Hh, app_nil_r. }
  unfold try_except. apply Hq.
  destruct exc as [msg c| |cls msg|cls msg]; try reflexivity.
  unfold _handle_runtime_error. cbv zeta.
  destruct (String.eqb (on_error self) "raise"); [reflexivity|].
  destruct (String.eqb (on_error self) "warn"); reflexivity.
Qed.

(** Precondition failures are raised before anything else happens, whatever
    the policies are: first an unsupported extension; then, for a supported
    one, an exception of the existence check itself, which leaves
    [lazy_load] as it is, neither wrapped nor handed to the error policy;
    then a missing file. *)
Theorem lazy_load_preconditions :
  (supported (file_path self) \/
   lazy_load env self
   = ([], inl (PyException "ValueError"
                 ("Unsupported extension for " ++ file_path self
                  ++ ". Use .hwp or .hwpx")))) /\
  (supported (file_path self) ->
   (forall e, fs_exists env (file_path self) = inl e -> lazy_load env self = ([], inl e)) /\
   (fs_exists env (file_path self) = inr false ->
    lazy_load env self
    = ([], inl (PyException "FileNotFoundError"
                  ("File not found: " ++ file_path self))))).
Proof.
  unfold lazy_load, supported. cbv zeta. split.
  - destruct (str_in _ _); [by left|by right].
  - intros ->. split; [by intros e ->|by intros ->].
Qed.

End Containment.

(** ** The status gate and the constructor *)

Section StatusGate.
Import HwpHwpxLoader.
Variable env : Env.
Variable self : t.

(** When the status gate applies a policy (the encrypted one first, else
    the invalid one), "raise" makes [lazy_load] raise a [HwpHwpxLoaderError]
    naming the status and the path, and "skip" makes it end normally with no
    document.  In both cases the reader is opened and nothing else is done,
    whatever the mode and the error policy are. *)
Theorem status_gate_raise_skip reader policy status :
  supported (file_path self) -> opens env (file_path self) reader ->
  gate_policy self reader = Some (policy, status) ->
  (policy = "raise" ->
   lazy_load env self
   = ([ReaderOpen (file_path self)],
      inl (HwpHwpxLoaderError
             ("Document skipped because it is " ++ status ++ ": " ++ file_path self)
             None))) /\
  (policy = "skip" -> lazy_load env self = ([ReaderOpen (file_path self)], inr tt)).
Proof.
  intros Hs Ho Hg.
  rewrite (lazy_load_checked _ _ _ Hs Ho). unfold lazy_load_body.
  rewrite (create_reader_opened _ _ _ Ho), bind_pair. cbv beta zeta.
  unfold _handle_file_status. fold (reports_encrypted reader).
  unfold gate_policy in Hg.
  assert (_resolve_status_policy policy status (file_path self)
            (_build_common_metadata env self (file_path self) reader)
          = (if reports_encrypted reader
             then _resolve_status_policy (on_encrypted self) "encrypted" (file_path self)
                    (_build_common_metadata env self (file_path self) reader)
             else if negb (py_bool (getattr (Reader.is_valid reader) (PBool true)))
                  then _resolve_status_policy (on_invalid self) "invalid" (file_path self)
                         (_build_common_metadata env self (file_path self) reader)
                  else ret None)) as <-.
  { destruct (reports_encrypted reader); [by injection Hg as <- <-|].
    fold (reports_invalid reader).
    destruct (reports_invalid reader); [by injection Hg as <- <-|done]. }
  unfold _resolve_status_policy. split; intros ->; reflexivity.
Qed.

(** For a reader that reports the document invalid (and not encrypted), an
    invalid policy other than "raise" and "skip" yields exactly one
    placeholder document, tagged [INVALID], with [status = "invalid"]. *)
Theorem invalid_placeholder reader :
  supported (file_path self) -> opens env (file_path self) reader ->
  reports_encrypted reader = false -> reports_invalid reader = true ->
  on_invalid self <> "raise" -> on_invalid self <> "skip" ->
  exists doc,
    lazy_load env self = ([ReaderOpen (file_path self); Yield doc], inr tt) /\
    page_content doc
    = "[INVALID] " ++ Path.name (file_path self) ++ " cannot be parsed by policy." /\
    metadata doc !! "status" = Some (PStr "invalid") /\
    element_type doc = Some (PStr "placeholder").
Proof.
  intros Hs Ho Henc Hinv Hr Hk.
  rewrite (lazy_load_checked _ _ _ Hs Ho). unfold lazy_load_body.
  rewrite (create_reader_opened _ _ _ Ho), bind_pair. cbv beta zeta.
  unfold _handle_file_status. fold (reports_encrypted reader). rewrite Henc.
  fold (reports_invalid reader). rewrite Hinv.
  unfold _resolve_status_policy.
  apply String.eqb_neq in Hr, Hk. rewrite Hr, Hk, bind_ret.
  eexists. split; [reflexivity|]. cbn [page_content metadata].
  split; [reflexivity|]. unfold element_type. cbn [metadata]. split.
  - rewrite lookup_insert_ne by done. apply lookup_insert_eq.
  - apply lookup_insert_eq.
Qed.

End StatusGate.

Section Init.
Import HwpHwpxLoader.

Lemma validate_literal_cases value name allowed :
  (str_in value allowed = true /\ _validate_literal value name allowed = ret tt) \/
  (str_in value allowed = false /\
   exists msg, _validate_literal value name allowed = raise (PyException "ValueError" msg)).
Proof.
  unfold _validate_literal. destruct (str_in value allowed); [left|right]; eauto.
Qed.

(** [__init__] is fail-fast: it returns a loader, whose five enumerated
    fields are legal values, exactly when the given (or default) values are
    legal; otherwise it raises a [ValueError]. *)
Theorem init_validates path kw :
  (literals_valid kw = true ->
   exists self,
     __init__ path kw = ([], inr self) /\ file_path self = path /\
     str_in (mode self) _VALID_MODES = true /\
     str_in (on_encrypted self) _VALID_STATUS_POLICIES = true /\
     str_in (on_invalid self) _VALID_STATUS_POLICIES = true /\
     str_in (on_error self) _VALID_ERROR_POLICIES = true /\
     str_in (image_document_mode self) _VALID_IMAGE_DOCUMENT_MODES = true) /\
  (literals_valid kw = false ->
   exists msg, __init__ path kw = ([], inl (PyException "ValueError" msg))).
Proof.
  unfold literals_valid, __init__. cbv zeta.
  destruct (validate_literal_cases (getattr (kw_mode kw) "single") "mode" _VALID_MODES)
    as [[H1 ->]|[-> [m ->]]]; [rewrite H1|split; [done|eauto]].
  destruct (validate_literal_cases (getattr (kw_on_encrypted kw) "raise") "on_encrypted"
              _VALID_STATUS_POLICIES)
    as [[H2 ->]|[-> [m ->]]]; [rewrite H2|split; [done|eauto]].
  destruct (validate_literal_cases (getattr (kw_on_invalid kw) "raise") "on_invalid"
              _VALID_STATUS_POLICIES)
    as [[H3 ->]|[-> [m ->]]]; [rewrite H3|split; [done|eauto]].
  destruct (validate_literal_cases (getattr (kw_on_error kw) "raise") "on_error"
              _VALID_ERROR_POLICIES)
    as [[H4 ->]|[-> [m ->]]]; [rewrite H4|split; [done|eauto]].
  destruct (validate_literal_cases (getattr (kw_image_document_mode kw) "metadata_only")
              "image_document_mode" _VALID_IMAGE_DOCUMENT_MODES)
    as [[H5 ->]|[-> [m ->]]]; [rewrite H5|split; [done|eauto]].
  split; [|done]. intros _. eexists. split; [reflexivity|].
  cbn [file_path mode on_encrypted on_invalid on_error image_document_mode]. done.
Qed.

End Init.

(** ** Elements mode in general: the index counter *)

Section Counting.
Import HwpHwpxLoader.
Variable env : Env.
Variable self : t.

Lemma indices_from_app start n n' :
  indices_from start (n + n') = (indices_from start n ++ indices_from (start + n) n')%list.
Proof. unfold indices_from. by rewrite seq_app, map_app. Qed.

Lemma counts_from_ret start : counts_from start (ret start).
Proof. split; [reflexivity|]. cbn. intros next [= <-]. lia. Qed.

Lemma counts_from_bind start (m : Gen nat) (k : nat -> Gen nat) :
  counts_from start m -> (forall s, counts_from s (k s)) -> counts_from start (bind m k).
Proof.
  intros [Hm Hn] Hk. unfold counts_from.
  destruct m as [tr [e|a]]; cbn [fst snd bind] in *.
  - split; [exact Hm|done].
  - specialize (Hk a). destruct Hk as [Hk Hn']. destruct (k a) as [tr' r].
    cbn [fst snd] in *. rewrite (Hn a eq_refl) in Hk, Hn'.
    rewrite yielded_app, length_app, map_app, indices_from_app, Hm, Hk.
    split; [reflexivity|]. intros next Hr. rewrite (Hn' next Hr). lia.
Qed.

Lemma counts_from_quiet_bind {A} start (m : Gen A) (k : A -> Gen nat) :
  yielded (fst m) = [] -> (forall a, counts_from start (k a)) ->
  counts_from start (bind m k).
Proof.
  intros Hq Hk. unfold counts_from. destruct m as [tr [e|a]]; cbn [fst snd bind] in *.
  - rewrite Hq. split; [reflexivity|done].
  - specialize (Hk a). destruct Hk as [Hk Hn]. destruct (k a) as [tr' r].
    cbn [fst snd] in *. rewrite yielded_app, Hq. cbn [app]. by split.
Qed.

Lemma counts_from_for_each {A} (xs : list A) (body : nat -> A -> Gen nat) :
  (forall s x, counts_from s (body s x)) ->
  forall start, counts_from start (for_each xs start body).
Proof.
  intros Hb. induction xs as [|x xs IH]; intros start; cbn [for_each].
  - apply counts_from_ret.
  - apply counts_from_bind; [apply Hb|apply IH].
Qed.

Lemma counts_from_step start d :
  element_index d = Some (PInt (Z.of_nat start)) ->
  counts_from start ([Yield d], inr (start + 1)%nat).
Proof.
  intros Hd. split.
  - cbn. by rewrite Hd.
  - cbn. by intros next [= <-].
Qed.

Lemma counts_from_table md start table : counts_from start (table_element self md start table).
Proof.
  destruct (table_element_spec self md start table) as (d & -> & _ & Hd).
  by apply counts_from_step.
Qed.

Lemma counts_from_note md start note : counts_from start (note_element md start note).
Proof.
  destruct (note_element_spec md start note) as (d & -> & _ & Hd).
  by apply counts_from_step.
Qed.

Lemma counts_from_memo md start memo : counts_from start (memo_element md start memo).
Proof.
  destruct (memo_element_spec md start memo) as (d & -> & _ & Hd).
  by apply counts_from_step.
Qed.

Lemma counts_from_hyperlink md start link :
  counts_from start (hyperlink_element md start link).
Proof.
  destruct (decide (_normalize_hyperlink link = ("", ""))) as [He|He].
  - rewrite (hyperlink_element_empty md start link He). apply counts_from_ret.
  - destruct (hyperlink_element_spec md start link He) as (d & -> & _ & Hd).
    by apply counts_from_step.
Qed.

Lemma counts_from_image path md start item :
  counts_from start (image_element env self path md start item).
Proof.
  destruct item as [idx image]. unfold image_element.
  pose proof (materialize_image_trace env self path idx image
                (_element_metadata md "image" start)) as Htr.
  pose proof (fun r => materialize_image_metadata env self path idx image
                         (_element_metadata md "image" start) r "element_index") as Hix.
  destruct (_materialize_image env self path idx image _) as [tr [e|r]];
    cbn [fst snd] in *.
  - split; cbn [fst snd bind]; [by rewrite Htr|done].
  - rewrite bind_pair, bind_emit. cbn [fst snd ret]. unfold counts_from. cbn [fst snd].
    split.
    + rewrite yielded_app, Htr. cbn. unfold element_index. cbn [metadata].
      rewrite (Hix r eq_refl) by done. by rewrite lookup_index_element_metadata.
    + rewrite yielded_app, Htr. cbn. by intros next [= <-].
Qed.

Lemma counts_from_elements path reader result md :
  List.map element_index
    (yielded (fst (_build_element_documents env self path reader result md)))
  = indices_from 0
      (length (yielded (fst (_build_element_documents env self path reader result md)))).
Proof.
  assert (forall m : Gen nat,
            counts_from 0 m ->
            List.map element_index (yielded (fst (bind m (fun _ => ret tt))))
            = indices_from 0 (length (yielded (fst (bind m (fun _ => ret tt)))))) as Hfin.
  { intros [tr [e|a]] [Hm _]; cbn [fst snd bind] in *; [exact Hm|].
    cbn [ret]. by rewrite app_nil_r. }
  unfold _build_element_documents. cbv zeta.
  rewrite <- !bind_assoc. apply Hfin. rewrite !bind_assoc.
  apply counts_from_bind; [|intros s].
  { destruct (truthy _); [|apply counts_from_ret].
    rewrite bind_emit. apply counts_from_step. apply lookup_index_element_metadata. }
  apply counts_from_bind; [|clear s; intros s].
  { destruct (include_tables self); [|apply counts_from_ret].
    apply counts_from_quiet_bind; [apply collect_tables_trace|intros tables].
    apply counts_from_for_each. intros. apply counts_from_table. }
  apply counts_from_bind; [|clear s; intros s].
  { destruct (include_notes self); [|apply counts_from_ret].
    apply counts_from_for_each. intros. apply counts_from_note. }
  apply counts_from_bind; [|clear s; intros s].
  { destruct (include_memos self); [|apply counts_from_ret].
    apply counts_from_for_each. intros. apply counts_from_memo. }
  apply counts_from_bind; [|clear s; intros s].
  { destruct (include_hyperlinks self); [|apply counts_from_ret].
    apply counts_from_for_each. intros. apply counts_from_hyperlink. }
  destruct (include_images self); [|apply counts_from_ret].
  apply counts_from_quiet_bind; [apply collect_images_trace|intros images].
  apply counts_from_for_each. intros. apply counts_from_image.
Qed.

End Counting.

(** In elements mode the documents [lazy_load] yields are numbered 0, 1, 2,
    ... without a gap, however the run ends; the one exception is the single
    placeholder of the status gate. *)
Theorem element_indices_consecutive env self :
  HwpHwpxLoader.mode self <> "single" ->
  let docs := yielded (fst (HwpHwpxLoader.lazy_load env self)) in
  List.map element_index docs = indices_from 0 (length docs) \/
  exists doc, docs = [doc] /\ element_type doc = Some (PStr "placeholder").
Proof.
  intros Hmode docs. subst docs.
  destruct (str_in (PyStr.lower (Path.suffix (HwpHwpxLoader.file_path self)))
              _SUPPORTED_EXTENSIONS) eqn:Hs;
    [|left; unfold HwpHwpxLoader.lazy_load; by rewrite Hs].
  destruct (fs_exists env (HwpHwpxLoader.file_path self)) as [e|[]] eqn:He;
    [left; unfold HwpHwpxLoader.lazy_load; by rewrite Hs, He| |
     left; unfold HwpHwpxLoader.lazy_load; by rewrite Hs, He].
  rewrite (lazy_load_yields_of_body env self Hs He).
  unfold HwpHwpxLoader.lazy_load_body.
  assert (forall (A : Type) (m : Gen A), yielded (fst m) = [] ->
            forall k : A -> Gen unit,
              (forall a, let docs := yielded (fst (k a)) in
                         List.map element_index docs = indices_from 0 (length docs) \/
                         exists doc, docs = [doc]
                                     /\ element_type doc = Some (PStr "placeholder")) ->
              let docs := yielded (fst (bind m k)) in
              List.map element_index docs = indices_from 0 (length docs) \/
              exists doc, docs = [doc] /\ element_type doc = Some (PStr "placeholder"))
    as Hstep.
  { intros A [tr [e|a]] Hq k Hk; cbn [fst bind] in *.
    - left. by rewrite Hq.
    - specialize (Hk a). destruct (k a) as [tr' r]. cbn [fst] in *.
      by rewrite yielded_app, Hq. }
  apply Hstep.
  { unfold HwpHwpxLoader._create_reader, _import_parser.
    destruct (parser_Reader env) as [mkr|]; [|reflexivity].
    rewrite bind_ret, bind_emit. reflexivity. }
  intros reader. cbv zeta.
  unfold HwpHwpxLoader._handle_file_status, HwpHwpxLoader._resolve_status_policy.
  repeat (match goal with
          | |- context [bind (if ?b then _ else _) _] => destruct b
          end); try (left; reflexivity).
  1,2: rewrite bind_ret; right; eexists; split; [reflexivity|apply lookup_insert_eq].
  rewrite bind_ret. apply Hstep.
  { unfold HwpHwpxLoader._extract_result.
    destruct (HwpHwpxLoader.extract_options self); rewrite bind_emit; reflexivity. }
  intros result. apply String.eqb_neq in Hmode. rewrite Hmode. left.
  apply counts_from_elements.
Qed.

(** ** Elements mode in general: the sequence of element types *)

Section Types.
Import HwpHwpxLoader.
Variable env : Env.
Variable self : t.

Lemma yields_types_ret {A} (a : A) : yields_types (ret a) [].
Proof. exists [], a. by split. Qed.

Lemma yields_types_bind {A B} (m : Gen A) (k : A -> Gen B) tys tys' :
  yields_types m tys -> (forall a, yields_types (k a) tys') ->
  yields_types (bind m k) (tys ++ tys').
Proof.
  intros (tr & a & Hm & Ht) Hk. destruct (Hk a) as (tr' & b & Hk' & Ht').
  exists (tr ++ tr')%list, b. split; [by eapply returns_bind|].
  by rewrite yielded_app, !map_app, Ht, Ht'.
Qed.

Lemma yields_types_bind_quiet {A B} (m : Gen A) (k : A -> Gen B) a tys :
  quiet m a -> yields_types (k a) tys -> yields_types (bind m k) tys.
Proof.
  intros (tr & Hm & Hq) (tr' & b & Hk & Ht).
  exists (tr ++ tr')%list, b. split; [by eapply returns_bind|].
  by rewrite yielded_app, Hq.
Qed.

Lemma yields_types_quiet {A} (m : Gen A) a : quiet m a -> yields_types m [].
Proof. intros (tr & Hm & Hq). exists tr, a. split; [done|by rewrite Hq]. Qed.

Lemma yields_types_step {S} (s : S) d ty :
  element_type d = Some (PStr ty) -> yields_types ([Yield d], inr s) [ty].
Proof. intros Hd. exists [Yield d], s. split; [done|]. cbn. by rewrite Hd. Qed.

Lemma yields_types_for_each {A} (xs : list A) (body : nat -> A -> Gen nat)
    (ty : A -> list string) :
  (forall s x, yields_types (body s x) (ty x)) ->
  forall s, yields_types (for_each xs s body) (List.concat (List.map ty xs)).
Proof.
  intros Hb. induction xs as [|x xs IH]; intros s; cbn [for_each List.map List.concat].
  - apply yields_types_ret.
  - apply yields_types_bind; [apply Hb|apply IH].
Qed.

Lemma concat_map_singleton {A B} (f : A -> B) (xs : list A) :
  List.concat (List.map (fun x => [f x]) xs) = List.map f xs.
Proof. induction xs as [|x xs IH]; [done|]. cbn. by rewrite IH. Qed.

Lemma concat_map_filter {A B} (p : A -> bool) (f : A -> B) (xs : list A) :
  List.concat (List.map (fun x => if p x then [f x] else []) xs)
  = List.map f (List.filter p xs).
Proof.
  induction xs as [|x xs IH]; [done|]. cbn. rewrite IH. by destruct (p x).
Qed.

Lemma yields_types_images path md images :
  forall start s,
    (forall i image, images !! i = Some image ->
                     materializes env self path (start + i) image) ->
    yields_types (for_each (enumerate start images) s (image_element env self path md))
      (List.map (fun _ => "image") images).
Proof.
  induction images as [|image images IH]; intros start s Hm;
    cbn [enumerate for_each List.map].
  - apply yields_types_ret.
  - change ("image" :: List.map (fun _ => "image") images)
      with (["image"] ++ List.map (fun _ : Image.t => "image") images)%list.
    apply yields_types_bind.
    + destruct (image_element_spec env self path md s start image)
        as (tr & d & -> & Htr & Hd & _).
      { specialize (Hm 0%nat image eq_refl). by rewrite Nat.add_0_r in Hm. }
      eexists _, _. split; [reflexivity|]. rewrite yielded_app, Htr. cbn. by rewrite Hd.
    + intros s'. apply IH. intros i img Hi. specialize (Hm (S i) img Hi).
      by rewrite Nat.add_succ_r in Hm.
Qed.

Lemma elements_yield_expected path reader result md tables images :
  (include_tables self = true -> snd (_collect_tables reader result) = inr tables) ->
  (include_images self = true ->
   snd (_collect_images reader) = inr images /\
   forall i image, images !! i = Some image -> materializes env self path i image) ->
  yields_types (_build_element_documents env self path reader result md)
    (expected_types self reader result tables images).
Proof.
  intros Ht Hi. unfold _build_element_documents, expected_types. cbv zeta.
  rewrite <- (app_nil_r (if include_images self then _ else _)), !app_assoc.
  rewrite <- !app_assoc.
  apply yields_types_bind; [|intros s1].
  { destruct (truthy _); [|apply yields_types_ret].
    rewrite bind_emit. apply yields_types_step. apply lookup_type_element_metadata. }
  apply yields_types_bind; [|intros s2].
  { case_flag (include_tables self) E; [|apply yields_types_ret].
    eapply yields_types_bind_quiet; [apply quiet_collect_tables; by apply Ht|].
    rewrite <- (concat_map_singleton (fun _ => "table")).
    apply yields_types_for_each. intros s x.
    destruct (table_element_spec self md s x) as (d & -> & Hd & _).
    by apply yields_types_step. }
  apply yields_types_bind; [|intros s3].
  { destruct (include_notes self); [|apply yields_types_ret].
    rewrite <- (concat_map_singleton note_element_type).
    apply yields_types_for_each. intros s x.
    destruct (note_element_spec md s x) as (d & -> & Hd & _).
    by apply yields_types_step. }
  apply yields_types_bind; [|intros s4].
  { destruct (include_memos self); [|apply yields_types_ret].
    rewrite <- (concat_map_singleton (fun _ => "memo")).
    apply yields_types_for_each. intros s x.
    destruct (memo_element_spec md s x) as (d & -> & Hd & _).
    by apply yields_types_step. }
  apply yields_types_bind; [|intros s5].
  { destruct (include_hyperlinks self); [|apply yields_types_ret].
    rewrite <- (concat_map_filter link_kept (fun _ => "hyperlink")).
    apply yields_types_for_each. intros s x. unfold link_kept.
    destruct (decide (_normalize_hyperlink x = ("", ""))) as [He|He].
    - rewrite (hyperlink_element_empty md s x He), He. apply yields_types_ret.
    - destruct (hyperlink_element_spec md s x He) as (d & -> & Hd & _).
      destruct (_normalize_hyperlink x) as [text url].
      assert (truthy text || truthy url = true) as ->.
      { unfold truthy. destruct text; [|done]. destruct url; done. }
      by apply yields_types_step. }
  apply yields_types_bind; [|intros s6; apply yields_types_ret].
  case_flag (include_images self) E; [|apply yields_types_ret].
  destruct (Hi E) as [Himg Hmat].
  eapply yields_types_bind_quiet; [apply quiet_collect_images; exact Himg|].
  by apply yields_types_images.
Qed.

End Types.

(** In elements mode, when the collaborator calls raise nothing, [lazy_load]
    ends normally and yields: the body if it is not empty, then one document
    per table, per note (a footnote unless its kind is "endnote"), per memo,
    per hyperlink record that is not empty, and per image - each kind only
    when its flag is set. *)
Theorem elements_sequence env self reader result tables images :
  supported (HwpHwpxLoader.file_path self) ->
  opens env (HwpHwpxLoader.file_path self) reader ->
  reports_encrypted reader = false -> reports_invalid reader = false ->
  Reader.extract_text_with_notes reader (HwpHwpxLoader.extract_options self) = inr result ->
  HwpHwpxLoader.mode self <> "single" ->
  (HwpHwpxLoader.include_tables self = true ->
   snd (HwpHwpxLoader._collect_tables reader result) = inr tables) ->
  (HwpHwpxLoader.include_images self = true ->
   snd (HwpHwpxLoader._collect_images reader) = inr images /\
   forall i image, images !! i = Some image ->
                   materializes env self (HwpHwpxLoader.file_path self) i image) ->
  let out := HwpHwpxLoader.lazy_load env self in
  snd out = inr tt /\
  List.map element_type (yielded (fst out))
  = List.map (fun ty => Some (PStr ty)) (expected_types self reader result tables images).
Proof.
  intros Hs Ho Henc Hinv Hx Hmode Ht Hi out. subst out.
  rewrite (lazy_load_checked _ _ _ Hs Ho), (lazy_load_body_pass _ _ _ Ho Henc Hinv), Hx.
  cbv zeta. apply String.eqb_neq in Hmode. rewrite Hmode.
  destruct (elements_yield_expected env self (HwpHwpxLoader.file_path self) reader result
              (HwpHwpxLoader._build_common_metadata env self
                 (HwpHwpxLoader.file_path self) reader) tables images Ht Hi)
    as (tr & [] & Hret & Hty).
  rewrite bind_pair. cbv beta. unfold returns in Hret. rewrite Hret.
  cbn [try_except fst snd]. split; [reflexivity|].
  by rewrite yielded_app.
Qed.

(** ** The directory collector in general *)

Section DirectoryRuns.
Import HwpHwpxDirectoryLoader.
Variable env : Env.
Variable self : t.




Lemma for_each_all_return {A} (xs : list A) (body : A -> Gen unit) :
  (forall x, x ∈ xs -> snd (body x) = inr tt) ->
  HwpHwpxLoader.for_each xs tt (fun _ x => body x)
  = (List.concat (List.map (fun x => fst (body x)) xs), inr tt).
Proof.
  induction xs as [|x xs IH]; intros Hall; cbn [HwpHwpxLoader.for_each List.map List.concat].
  - reflexivity.
  - pose proof (Hall x ltac:(by left)) as Hx.
    destruct (body x) as [tr r]. cbn [snd fst] in *. subst r.
    rewrite bind_pair, IH; [reflexivity|]. intros y Hy. apply Hall. by right.
Qed.

Lemma for_each_first_failure {A} (pre post : list A) (x : A) (body : A -> Gen unit) e :
  (forall y, y ∈ pre -> snd (body y) = inr tt) -> snd (body x) = inl e ->
  HwpHwpxLoader.for_each (pre ++ x :: post) tt (fun _ y => body y)
  = ((List.concat (List.map (fun y => fst (body y)) pre) ++ fst (body x))%list, inl e).
Proof.
  induction pre as [|y pre IH]; intros Hall Hx;
    cbn [app HwpHwpxLoader.for_each List.map List.concat].
  - destruct (body x) as [tr r]. cbn [fst snd] in *. subst r. reflexivity.
  - pose proof (Hall y ltac:(by left)) as Hy.
    destruct (body y) as [tr r] eqn:Hby. cbn [snd fst] in *. subst r.
    rewrite bind_pair, IH; [|intros z Hz; apply Hall; by right|done].
    cbn [fst snd]. by rewrite app_assoc.
Qed.

(** Once the directory is found, an exception of the scan ends the run
    before any file is handled; this is how a non-recursive collector ends
    whose pattern is made of "**/" only, nothing being left of it.
    Otherwise the collector runs the files in the order of
    [_collect_files]: when every file ends normally its run is the runs of
    the files one after the other; when a file raises, the run stops there,
    and the files after it are not touched. *)
Theorem directory_scan :
  fs_exists env (dir_path self) = inr true -> fs_is_dir env (dir_path self) = inr true ->
  (forall e, _collect_files env self = inl e -> lazy_load env self = ([], inl e)) /\
  (recursive self = false ->
   PyStr.replace "**" "*" (PyStr.replace "**/" "" (glob self)) = "" ->
   lazy_load env self = ([], inl (PyException "ValueError" "Unacceptable pattern: ''"))) /\
  (forall files,
     _collect_files env self = inr files ->
     ((forall path, path ∈ files -> snd (load_file env self path) = inr tt) ->
      lazy_load env self
      = (List.concat (List.map (fun path => fst (load_file env self path)) files),
         inr tt)) /\
     (forall pre path post e,
        files = (pre ++ path :: post)%list ->
        (forall p, p ∈ pre -> snd (load_file env self p) = inr tt) ->
        snd (load_file env self path) = inl e ->
        lazy_load env self
        = ((List.concat (List.map (fun p => fst (load_file env self p)) pre)
            ++ fst (load_file env self path))%list, inl e))).
Proof.
  intros Hex Hdir. unfold lazy_load. rewrite Hex, bind_call. cbn [negb].
  rewrite Hdir, bind_call. cbn [negb].
  split; [|split].
  - by intros e ->.
  - intros Hrec Hpat. unfold _collect_files, candidates. cbv zeta.
    by rewrite Hrec, Hpat.
  - intros files ->. rewrite bind_call. split.
    + intros Hall. by apply (for_each_all_return files (load_file env self)).
    + intros pre path post e -> Hpre Hpath.
      by apply (for_each_first_failure pre post path (load_file env self)).
Qed.

(** The per-file containment of the collector forwards every document the
    file's extractor yielded, also when the extractor then fails. *)
Theorem load_file_keeps_documents path :
  yielded (fst (load_file env self path))
  = yielded (fst (bind (HwpHwpxLoader.__init__ path (loader_kwargs self))
                    (HwpHwpxLoader.lazy_load env))).
Proof.
  unfold load_file.
  destruct (bind (HwpHwpxLoader.__init__ path (loader_kwargs self)) _) as [tr [exc|[]]];
    [|done].
  assert (forall h : Gen unit,
            yielded (fst h) = [] ->
            yielded (fst (let '(tr', r) := h in ((tr ++ tr')%list, r))) = yielded tr) as Hq.
  { intros [tr' r] Hh. cbn [fst] in *. by rewrite yielded_app, Hh, app_nil_r. }
  unfold try_except. apply Hq.
  destruct (is_Exception exc); [|reflexivity].
  destruct (String.eqb (on_error self) "raise"); [reflexivity|].
  destruct (String.eqb (on_error self) "warn"); reflexivity.
Qed.

End DirectoryRuns.

(** ** White space, case and the normal forms *)

Section Strip.
Import PyStr.

Lemma lower_ascii_idem c : lower_ascii (lower_ascii c) = lower_ascii c.
Proof. by destruct c as [[] [] [] [] [] [] [] []]. Qed.

Lemma lower_idem s : lower (lower s) = lower s.
Proof. induction s as [|c s IH]; [done|]. cbn. by rewrite lower_ascii_idem, IH. Qed.

Lemma ascii_cases (P : ascii -> Prop) :
  (forall n, (n < 256)%nat -> P (ascii_of_nat n)) -> forall c, P c.
Proof.
  intros H c. rewrite <- (ascii_nat_embedding c). apply H. apply nat_ascii_bounded.
Qed.

Lemma lower_ascii_high c : high c = true -> lower_ascii c = c.
Proof.
  unfold high, lower_ascii. cbv zeta. intros H. apply Nat.leb_le in H.
  destruct (Nat.leb_spec (nat_of_ascii c) 90); [lia|]. by rewrite andb_false_r.
Qed.

Lemma high_lower_ascii c : high (lower_ascii c) = high c.
Proof.
  unfold lower_ascii. cbv zeta.
  destruct (Nat.leb_spec 65 (nat_of_ascii c)); [|done].
  destruct (Nat.leb_spec (nat_of_ascii c) 90); [|done]. cbn [andb].
  unfold high. rewrite nat_ascii_embedding by lia.
  destruct (Nat.leb_spec 128 (nat_of_ascii c + 32)); [lia|].
  destruct (Nat.leb_spec 128 (nat_of_ascii c)); [lia|done].
Qed.

Lemma is_space_lower c : is_space (lower_ascii c) = is_space c.
Proof.
  unfold lower_ascii. cbv zeta.
  destruct (Nat.leb_spec 65 (nat_of_ascii c)); [|done].
  destruct (Nat.leb_spec (nat_of_ascii c) 90); [|done]. cbn [andb].
  unfold is_space. cbv zeta. rewrite nat_ascii_embedding by lia.
  repeat match goal with
         | |- context [(?a <=? ?b)%nat] => destruct (Nat.leb_spec a b); try lia
         end; done.
Qed.

Lemma is_space2_high a b : is_space2 a b = true -> high a = true /\ high b = true.
Proof.
  unfold is_space2, high. rewrite !andb_true_iff, !orb_true_iff, !Nat.eqb_eq, !Nat.leb_le.
  lia.
Qed.

Lemma is_space3_high a b c :
  is_space3 a b c = true -> high a = true /\ high b = true /\ high c = true.
Proof.
  unfold is_space3, high.
  rewrite !orb_true_iff, !andb_true_iff, !orb_true_iff, !andb_true_iff, !Nat.eqb_eq,
    !Nat.leb_le.
  lia.
Qed.

Lemma is_space2_lower a b : is_space2 (lower_ascii a) (lower_ascii b) = is_space2 a b.
Proof.
  destruct (high a && high b) eqn:H.
  - apply andb_true_iff in H as [Ha Hb]. by rewrite !lower_ascii_high.
  - destruct (is_space2 a b) eqn:E1.
    { apply is_space2_high in E1 as (Ha & Hb). by rewrite Ha, Hb in H. }
    destruct (is_space2 (lower_ascii a) (lower_ascii b)) eqn:E2; [|done].
    apply is_space2_high in E2 as (Ha & Hb). rewrite !high_lower_ascii in *.
    by rewrite Ha, Hb in H.
Qed.

Lemma is_space3_lower a b c :
  is_space3 (lower_ascii a) (lower_ascii b) (lower_ascii c) = is_space3 a b c.
Proof.
  destruct (high a && high b && high c) eqn:H.
  - apply andb_true_iff in H as [H Hc]. apply andb_true_iff in H as [Ha Hb].
    by rewrite !lower_ascii_high.
  - destruct (is_space3 a b c) eqn:E1.
    { apply is_space3_high in E1 as (Ha & Hb & Hc). by rewrite Ha, Hb, Hc in H. }
    destruct (is_space3 (lower_ascii a) (lower_ascii b) (lower_ascii c)) eqn:E2; [|done].
    apply is_space3_high in E2 as (Ha & Hb & Hc). rewrite !high_lower_ascii in *.
    by rewrite Ha, Hb, Hc in H.
Qed.

Lemma lstrip_lower s : lstrip (lower s) = lower (lstrip s).
Proof.
  remember (String.length s) as n eqn:Hn. revert s Hn.
  induction n as [n IH] using lt_wf_ind. intros s Hn.
  destruct s as [|a s1]; [done|]. cbn [lower lstrip]. rewrite is_space_lower.
  destruct (is_space a); [apply (IH (String.length s1)); cbn in Hn; [lia|done]|].
  destruct s1 as [|b s2]; [done|]. cbn [lower]. rewrite is_space2_lower.
  destruct (is_space2 a b); [apply (IH (String.length s2)); cbn in Hn; [lia|done]|].
  destruct s2 as [|c s3]; [done|]. cbn [lower]. rewrite is_space3_lower.
  destruct (is_space3 a b c); [apply (IH (String.length s3)); cbn in Hn; [lia|done]|].
  done.
Qed.

Lemma lower_empty s : lower s = "" <-> s = "".
Proof. by destruct s. Qed.

Lemma blank_lower s : blank (lower s) = blank s.
Proof.
  unfold blank. rewrite lstrip_lower. by destruct (lstrip s).
Qed.

Lemma rstrip_lower s : rstrip (lower s) = lower (rstrip s).
Proof.
  induction s as [|c s IH]; [done|].
  change (lower (String c s)) with (String (lower_ascii c) (lower s)).
  cbn [rstrip]. change (String (lower_ascii c) (lower s)) with (lower (String c s)).
  rewrite blank_lower. destruct (blank (String c s)); [done|]. cbn [lower]. by rewrite IH.
Qed.

Lemma strip_lower s : strip (lower s) = lower (strip s).
Proof. unfold strip. by rewrite lstrip_lower, rstrip_lower. Qed.

(** [lstrip] by its steps. *)
Lemma lstrip_step s :
  lstrip s = match skip_space s with Some r => lstrip r | None => s end.
Proof.
  destruct s as [|a [|b [|c s3]]]; cbn [lstrip skip_space]; try done.
  - by destruct (is_space a).
  - destruct (is_space a); [done|]. by destruct (is_space2 a b).
  - destruct (is_space a); [done|]. destruct (is_space2 a b); [done|].
    by destruct (is_space3 a b c).
Qed.

Lemma skip_space_length s r : skip_space s = Some r -> (String.length r < String.length s)%nat.
Proof.
  destruct s as [|a [|b [|c s3]]]; cbn [skip_space]; try done.
  - destruct (is_space a); [|done]. intros [= <-]. cbn. lia.
  - destruct (is_space a); [intros [= <-]; cbn; lia|].
    destruct (is_space2 a b); [|done]. intros [= <-]. cbn. lia.
  - destruct (is_space a); [intros [= <-]; cbn; lia|].
    destruct (is_space2 a b); [intros [= <-]; cbn; lia|].
    destruct (is_space3 a b c); [|done]. intros [= <-]. cbn. lia.
Qed.

Lemma append_cons a (s t : string) : String a s ++ t = String a (s ++ t).
Proof. reflexivity. Qed.

Lemma append_empty (t : string) : "" ++ t = t.
Proof. reflexivity. Qed.

(** A white-space character at the head of [s] is one at the head of
    [s ++ t]. *)
Lemma skip_space_app s r t : skip_space s = Some r -> skip_space (s ++ t) = Some (r ++ t).
Proof.
  destruct s as [|a [|b [|c s3]]]; rewrite ?append_cons, ?append_empty;
    cbn [skip_space]; try done.
  - destruct (is_space a); [|done]. by intros [= <-].
  - destruct (is_space a); [by intros [= <-]|].
    destruct (is_space2 a b); [|done]. by intros [= <-].
  - destruct (is_space a); [by intros [= <-]|].
    destruct (is_space2 a b); [by intros [= <-]|].
    destruct (is_space3 a b c); [|done]. by intros [= <-].
Qed.

Lemma lstrip_induction (P : string -> Prop) :
  (forall s, (forall r, skip_space s = Some r -> P r) -> P s) -> forall s, P s.
Proof.
  intros H s. remember (String.length s) as n eqn:Hn. revert s Hn.
  induction n as [n IH] using lt_wf_ind. intros s ->.
  apply H. intros r Hr. apply (IH (String.length r)); [|done].
  by apply skip_space_length.
Qed.

Lemma lstrip_idem s : lstrip (lstrip s) = lstrip s.
Proof.
  induction s as [s IH] using lstrip_induction.
  rewrite (lstrip_step s). destruct (skip_space s) as [r|] eqn:E; [by apply IH|].
  by rewrite lstrip_step, E.
Qed.

Lemma lstrip_length s : (String.length (lstrip s) <= String.length s)%nat.
Proof.
  induction s as [s IH] using lstrip_induction. rewrite lstrip_step.
  destruct (skip_space s) as [r|] eqn:E; [|done].
  specialize (IH r eq_refl). apply skip_space_length in E. lia.
Qed.

(** The strings [lstrip] leaves alone. *)
Lemma lstrip_fixed s : lstrip s = s <-> s = "" \/ skip_space s = None.
Proof.
  split.
  - intros H. destruct s as [|a s1]; [by left|]. right.
    destruct (skip_space (String a s1)) as [r|] eqn:E; [|done].
    rewrite lstrip_step, E in H.
    pose proof (skip_space_length _ _ E) as Hl.
    pose proof (lstrip_length r) as Hle. rewrite H in Hle. lia.
  - intros [->|H]; [done|]. by rewrite lstrip_step, H.
Qed.

Lemma blank_app s t : blank s = true -> lstrip (s ++ t) = lstrip t.
Proof.
  unfold blank. induction s as [s IH] using lstrip_induction. intros H.
  apply String.eqb_eq in H. rewrite lstrip_step in H.
  destruct (skip_space s) as [r|] eqn:E.
  - rewrite (lstrip_step (s ++ t)), (skip_space_app _ _ _ E).
    apply IH; [done|]. by apply String.eqb_eq.
  - by subst s.
Qed.

Lemma rstrip_split s : exists w, s = rstrip s ++ w /\ blank w = true.
Proof.
  induction s as [|c s (w & Hs & Hw)]; [by exists ""|]. cbn [rstrip].
  destruct (blank (String c s)) eqn:E; [by exists (String c s)|].
  exists w. split; [|done]. by rewrite append_cons, <- Hs.
Qed.

Lemma blank_rstrip p s : blank (p ++ rstrip s) = true -> blank (p ++ s) = true.
Proof.
  destruct (rstrip_split s) as (w & Hs & Hw). intros H.
  rewrite Hs at 1. unfold blank.
  assert (p ++ rstrip s ++ w = (p ++ rstrip s) ++ w) as ->.
  { clear. induction p as [|c p IH]; [done|]. by rewrite !append_cons, IH. }
  rewrite (blank_app _ _ H). exact Hw.
Qed.

Lemma rstrip_idem s : rstrip (rstrip s) = rstrip s.
Proof.
  induction s as [|c s IH]; [done|]. cbn [rstrip].
  destruct (blank (String c s)) eqn:E; [done|]. cbn [rstrip]. rewrite IH.
  destruct (blank (String c (rstrip s))) eqn:E'; [|done].
  apply (blank_rstrip (String c "") s) in E'. rewrite append_cons, append_empty in E'.
  congruence.
Qed.

(** [rstrip] keeps the head of a string that does not start with white
    space. *)
Lemma skip_space_prefix s w r : skip_space s = Some r -> exists r', skip_space (s ++ w) = Some r'.
Proof. intros H. eexists. by apply skip_space_app. Qed.

Lemma lstrip_rstrip s : lstrip s = s -> lstrip (rstrip s) = rstrip s.
Proof.
  intros H. apply lstrip_fixed in H as [->|H]; [done|].
  apply lstrip_fixed. destruct (skip_space (rstrip s)) as [r|] eqn:E; [|by right].
  destruct (rstrip_split s) as (w & Hs & _).
  apply (skip_space_app _ _ w) in E. rewrite <- Hs in E. congruence.
Qed.

Lemma strip_idem s : strip (strip s) = strip s.
Proof.
  unfold strip. rewrite (lstrip_rstrip (lstrip s)) by apply lstrip_idem.
  apply rstrip_idem.
Qed.

Lemma strip_dot s : strip s = s -> s <> "" -> strip ("." ++ s) = "." ++ s.
Proof.
  intros Hs Hne. unfold strip in *.
  change ("." ++ s) with (String "." s).
  assert (lstrip (String "." s) = String "." s) as Hl.
  { destruct s as [|b [|c s]]; done. }
  rewrite Hl. cbn [rstrip]. unfold blank. rewrite Hl. cbn [String.eqb Ascii.eqb].
  assert (rstrip s = s) as Hr.
  { rewrite <- Hs at 1. rewrite rstrip_idem. exact Hs. }
  by rewrite Hr.
Qed.

End Strip.

(** The canonical pair of a hyperlink record has no white space around its
    components, whichever form the record comes in; a tuple, a dict and an
    object with the same text and url normalise alike, and what a tuple
    holds after its second item is ignored. *)
Theorem normalize_hyperlink_canonical :
  (forall link,
     PyStr.strip (fst (_normalize_hyperlink link)) = fst (_normalize_hyperlink link) /\
     PyStr.strip (snd (_normalize_hyperlink link)) = snd (_normalize_hyperlink link)) /\
  (forall text url rest,
     _normalize_hyperlink (HSeq (text :: url :: rest))
     = _normalize_hyperlink (HObj (Some text) (Some url)) /\
     _normalize_hyperlink (HDict (<["text" := text]> (<["url" := url]> ∅)))
     = _normalize_hyperlink (HObj (Some text) (Some url))) /\
  _normalize_hyperlink (HSeq []) = ("", "") /\
  _normalize_hyperlink (HDict ∅) = ("", "") /\
  _normalize_hyperlink (HObj None None) = ("", "").
Proof.
  split; [|split; [|by repeat split]].
  - intros [items|d|t u]; cbn [_normalize_hyperlink fst snd]; split; apply strip_idem.
  - intros text url rest. split; [reflexivity|].
    cbn [_normalize_hyperlink].
    rewrite lookup_insert_eq, lookup_insert_ne, lookup_insert_eq by done.
    reflexivity.
Qed.

Section Extensions.
Import HwpHwpxDirectoryLoader.

Lemma normalize_extension_outcome extension :
  (PyStr.strip extension = "" ->
   _normalize_extension extension
   = ([], inl (PyException "ValueError" "extensions must not contain empty values"))) /\
  (PyStr.strip extension <> "" ->
   exists normal,
     _normalize_extension extension = ([], inr normal) /\
     PyStr.startswith "." normal = true /\
     PyStr.lower normal = normal /\
     _normalize_extension normal = ([], inr normal)).
Proof.
  unfold _normalize_extension. cbv zeta. split.
  - intros ->. reflexivity.
  - intros Hne.
    set (x := PyStr.lower (PyStr.strip extension)).
    assert (x <> "") as Hx by (unfold x; by rewrite lower_empty).
    assert (PyStr.strip x = x) as Hsx by (unfold x; by rewrite strip_lower, strip_idem).
    assert (PyStr.lower x = x) as Hlx by (unfold x; apply lower_idem).
    assert (truthy x = true) as Htx by (unfold truthy; by destruct x).
    rewrite Htx. cbn [negb].
    destruct (PyStr.startswith "." x) eqn:Hdot; cbn [negb].
    + exists x. rewrite Hsx, Hlx, Htx, Hdot.
      split; [reflexivity|]. split; [reflexivity|]. split; reflexivity.
    + exists ("." ++ x). split; [reflexivity|].
      rewrite (strip_dot x Hsx Hx).
      assert (PyStr.lower ("." ++ x) = "." ++ x) as Hl.
      { change ("." ++ x) with (String "." x). cbn [PyStr.lower]. by rewrite Hlx. }
      rewrite Hl. change ("." ++ x) with (String "." x).
      split; [by destruct x|]. split; [reflexivity|]. by destruct x.
Qed.

(** [_normalize_extension] rejects exactly the extensions that are empty or
    white space, and what it returns is in normal form: lower-cased, with a
    leading dot, and left as it is by a second normalisation. *)
Theorem normalize_extension_normal_form extension :
  (PyStr.strip extension = "" ->
   _normalize_extension extension
   = ([], inl (PyException "ValueError" "extensions must not contain empty values"))) /\
  (PyStr.strip extension <> "" ->
   exists normal,
     _normalize_extension extension = ([], inr normal) /\
     PyStr.startswith "." normal = true /\
     PyStr.lower normal = normal /\
     _normalize_extension normal = ([], inr normal)).
Proof. exact (normalize_extension_outcome extension). Qed.

(** What [__init__] of the directory collector establishes: the error policy
    is a legal one and is handed on to the per-file loaders, and the
    extensions are kept in normal form; an empty extension is rejected. *)
Theorem directory_init dir pat rec exts kw :
  (forall self,
     snd (__init__ dir pat rec exts kw) = inr self ->
     on_error self = getattr (HwpHwpxLoader.kw_on_error kw) "raise" /\
     str_in (on_error self) _VALID_ERROR_POLICIES = true /\
     HwpHwpxLoader.kw_on_error (loader_kwargs self) = Some (on_error self) /\
     extensions self = List.map normalized_extension exts /\
     dir_path self = dir /\ glob self = pat /\ recursive self = rec) /\
  (forall extension,
     extension ∈ exts -> PyStr.strip extension = "" ->
     __init__ dir pat rec exts kw
     = ([], inl (PyException "ValueError" "extensions must not contain empty values"))).
Proof.
  split.
  - intros self Hinit. pose proof (init_extensions _ _ _ _ _ _ Hinit) as Hext.
    revert Hinit. unfold __init__.
    destruct (map_gen _normalize_extension exts) as [tr [err|l]]; [done|].
    rewrite bind_pair. cbv beta zeta. unfold _validate_literal.
    destruct (str_in _ _) eqn:Hv; [|done]. cbn [negb].
    rewrite bind_ret. cbn [snd ret]. intros [= <-].
    cbn [on_error loader_kwargs extensions dir_path glob recursive] in *.
    repeat split; try done.
    destruct kw as [? ? ? ? ? ? ? ? ? ? ? [oe|] ? ?]; reflexivity.
  - intros extension Hin Hblank. unfold __init__.
    assert (map_gen _normalize_extension exts
            = ([], inl (PyException "ValueError"
                          "extensions must not contain empty values"))) as ->;
      [|reflexivity].
    induction exts as [|e es IH]; [by apply elem_of_nil in Hin|].
    cbn [map_gen].
    destruct (normalize_extension_outcome e) as [Hb Hn].
    destruct (decide (PyStr.strip e = "")) as [He|He].
    + by rewrite (Hb He).
    + destruct (Hn He) as (n & -> & _).
      apply elem_of_cons in Hin as [->|Hin]; [done|].
      by rewrite bind_pair, (IH Hin).
Qed.

End Extensions.

(** ** The common metadata of every document *)

Section CommonMetadata.
Import HwpHwpxLoader.
Variable env : Env.
Variable self : t.

Lemma common_metadata_lookup reader key :
  key ∈ common_keys ->
  _build_common_metadata env self (file_path self) reader !! key
  = match extra_metadata self !! key with
    | Some v => Some v
    | None => standard_value env self reader key
    end.
Proof.
  intros Hk. unfold _build_common_metadata. cbv zeta.
  rewrite lookup_union. destruct (extra_metadata self !! key) as [v|] eqn:E.
  - by destruct (lookup key (if include_extracted_at self then _ else _)).
  - rewrite (left_id None _).
    unfold common_keys in Hk. rewrite !elem_of_cons, elem_of_nil in Hk.
    unfold standard_value.
    destruct Hk as [->|[->|[->|[->|[->|[->|[]]]]]]]; cbn [String.eqb Ascii.eqb Bool.eqb];
      destruct (include_extracted_at self);
      rewrite ?lookup_insert_eq; repeat (rewrite lookup_insert_ne by done);
      rewrite ?lookup_insert_eq; done.
Qed.

Lemma carries_insert (base md : gmap string PyVal) key v :
  key ∉ common_keys ->
  (forall k, k ∈ common_keys -> md !! k = base !! k) ->
  forall k, k ∈ common_keys -> <[key := v]> md !! k = base !! k.
Proof.
  intros Hkey Hmd k Hk. rewrite lookup_insert_ne; [by apply Hmd|]. by intros ->.
Qed.

Lemma not_common key : bool_decide (key ∈ common_keys) = false -> key ∉ common_keys.
Proof. intros H. by apply bool_decide_eq_false in H. Qed.

(** Solves [carries base {| metadata := <[..]> (.. md) |}] goals. *)
Ltac carry :=
  unfold carries; cbn [metadata];
  repeat (apply carries_insert; [by apply not_common|]);
  try done.

Lemma carries_element_metadata (base : gmap string PyVal) ty i :
  forall k, k ∈ common_keys -> _element_metadata base ty i !! k = base !! k.
Proof. unfold _element_metadata. carry. Qed.

Lemma carries_copy_memo_key (base md : gmap string PyVal) key v :
  key ∉ common_keys ->
  (forall k, k ∈ common_keys -> md !! k = base !! k) ->
  forall k, k ∈ common_keys -> copy_memo_key key v md !! k = base !! k.
Proof.
  intros Hkey Hmd. unfold copy_memo_key.
  destruct v as [| | |s|]; try (by apply carries_insert); [done|].
  destruct s; [done|]. by apply carries_insert.
Qed.

Lemma carried_materialize path idx image md base :
  all_events (carried base) (_materialize_image env self path idx image md).
Proof. by apply all_events_materialize. Qed.

Lemma carries_materialize path idx image (md base : gmap string PyVal) r :
  snd (_materialize_image env self path idx image md) = inr r ->
  (forall k, k ∈ common_keys -> md !! k = base !! k) ->
  forall k, k ∈ common_keys -> snd r !! k = base !! k.
Proof.
  intros Hr Hmd k Hk.
  rewrite (materialize_image_metadata env self path idx image md r k Hr); [by apply Hmd| | |];
    intros ->; revert Hk; by apply not_common.
Qed.

Lemma carried_build_elements path reader result base :
  all_events (carried base) (_build_element_documents env self path reader result base).
Proof.
  unfold _build_element_documents. cbv zeta.
  apply all_events_bind; [|intros ?].
  { destruct (truthy _); [|apply all_events_ret].
    apply all_events_bind; [|intros; apply all_events_ret].
    apply all_events_emit. cbn [carried]. unfold carries. cbn [metadata].
    apply carries_element_metadata. }
  apply all_events_bind; [|intros ?].
  { destruct (include_tables self); [|apply all_events_ret].
    apply all_events_bind.
    { unfold _collect_tables. destruct (Result.tables result); [apply all_events_ret|].
      destruct (Reader.get_tables reader); [|apply all_events_ret].
      apply all_events_bind; [by apply all_events_emit|intros; apply all_events_call]. }
    intros tables. apply all_events_for_each. intros s x. unfold table_element. cbv zeta.
    apply all_events_bind; [|intros; apply all_events_ret].
    apply all_events_emit. cbn [carried]. unfold carries. cbn [metadata].
    destruct (_safe_int (getattr (Table.row_count x) PNone));
      destruct (_safe_int (getattr (Table.col_count x) PNone));
      repeat (apply carries_insert; [by apply not_common|]); done. }
  apply all_events_bind; [|intros ?].
  { destruct (include_notes self); [|apply all_events_ret].
    apply all_events_for_each. intros s x. unfold note_element. cbv zeta.
    apply all_events_bind; [|intros; apply all_events_ret].
    apply all_events_emit. cbn [carried]. unfold carries. cbn [metadata].
    destruct (_safe_int (getattr (Note.number x) PNone));
      repeat (apply carries_insert; [by apply not_common|]); done. }
  apply all_events_bind; [|intros ?].
  { destruct (include_memos self); [|apply all_events_ret].
    apply all_events_for_each. intros s x. unfold memo_element. cbv zeta.
    apply all_events_bind; [|intros; apply all_events_ret].
    apply all_events_emit. cbn [carried]. unfold carries. cbn [metadata].
    repeat (apply carries_copy_memo_key; [by apply not_common|]).
    apply carries_element_metadata. }
  apply all_events_bind; [|intros ?].
  { destruct (include_hyperlinks self); [|apply all_events_ret].
    apply all_events_for_each. intros s x. unfold hyperlink_element.
    destruct (_normalize_hyperlink x) as [text url].
    destruct (_ && _); [apply all_events_ret|].
    apply all_events_bind; [|intros; apply all_events_ret].
    apply all_events_emit. cbn [carried]. unfold carries. cbn [metadata].
    destruct (truthy url); destruct (truthy text);
      repeat (apply carries_insert; [by apply not_common|]); done. }
  apply all_events_bind; [|intros; apply all_events_ret].
  destruct (include_images self); [|apply all_events_ret].
  apply all_events_bind.
  { unfold _collect_images. destruct (Reader.get_images reader); [|apply all_events_ret].
    apply all_events_bind; [by apply all_events_emit|intros; apply all_events_call]. }
  intros images. apply all_events_for_each. intros s [idx image]. unfold image_element.
  cbv zeta.
  pose proof (carried_materialize path idx image (_element_metadata base "image" s) base)
    as Hev.
  pose proof (fun r H => carries_materialize path idx image
                           (_element_metadata base "image" s) base r H
                           (carries_element_metadata base "image" s)) as Hmd.
  destruct (_materialize_image env self path idx image _) as [tr [e|r]].
  - exact Hev.
  - unfold all_events in *. rewrite bind_pair, bind_emit. cbn [fst snd ret] in *.
    apply Forall_app. split; [exact Hev|].
    repeat constructor. cbn [carried]. unfold carries. cbn [metadata].
    by apply Hmd.
Qed.

Lemma carried_quiet {A} (m : Gen A) base :
  yielded (fst m) = [] -> all_events (carried base) m.
Proof.
  unfold all_events. destruct m as [tr r]. cbn [fst].
  induction tr as [|ev tr IH]; [constructor|].
  intros Hy. destruct ev; try discriminate Hy; constructor; try done; by apply IH.
Qed.

Lemma render_tables_trace reader result :
  yielded (fst (_render_tables_for_single self reader result)) = [].
Proof.
  unfold _render_tables_for_single.
  pose proof (collect_tables_trace reader result) as Ht.
  destruct (_collect_tables reader result) as [tr [e|tables]]; [exact Ht|].
  rewrite bind_pair. cbn [fst] in *. rewrite yielded_app, Ht. by destruct tables.
Qed.

Lemma render_images_trace path reader :
  yielded (fst (_render_images_for_single env self path reader)) = [].
Proof.
  unfold _render_images_for_single.
  pose proof (collect_images_trace reader) as Ht.
  destruct (_collect_images reader) as [tr [e|images]]; [exact Ht|].
  rewrite bind_pair. cbn [fst] in *. rewrite yielded_app, Ht. cbn [app].
  destruct images as [|image images]; [reflexivity|].
  assert (forall (items : list (nat * Image.t)) lines,
            yielded (fst (for_each items lines
                            (fun lines '(image_index, image) =>
                               bind (_materialize_image env self path image_index image ∅)
                                 (fun r => ret (lines ++ [fst r])%list)))) = []) as Hloop.
  { induction items as [|[i img] items IH]; intros lines; [reflexivity|].
    cbn [for_each].
    pose proof (materialize_image_trace env self path i img ∅) as Hm.
    destruct (_materialize_image env self path i img ∅) as [trm [e|r]]; [exact Hm|].
    rewrite bind_pair. cbn [fst snd ret] in *. rewrite bind_pair. cbn [fst].
    rewrite !yielded_app, Hm, IH. reflexivity. }
  specialize (Hloop (enumerate 0 (image :: images)) ["## Images"]).
  destruct (for_each _ _ _) as [trl [e|lines]]; [exact Hloop|].
  rewrite bind_pair. cbn [fst] in *. by rewrite yielded_app, Hloop.
Qed.

Lemma carried_build_single path reader result base :
  all_events (carried base) (_build_single_document env self path reader result base).
Proof.
  unfold _build_single_document. cbv zeta.
  repeat (apply all_events_bind;
          [apply all_events_append_section; intros _; apply carried_quiet|intros ?]).
  6: { apply all_events_ret. }
  - apply render_tables_trace.
  - reflexivity.
  - reflexivity.
  - reflexivity.
  - apply render_images_trace.
Qed.

Lemma all_events_bind_val {A B} (Q : event -> Prop) (m : Gen A) (k : A -> Gen B) :
  all_events Q m -> (forall a, snd m = inr a -> all_events Q (k a)) ->
  all_events Q (bind m k).
Proof.
  unfold all_events. destruct m as [tr [e|a]]; cbn [fst snd bind]; [done|].
  intros Hm Hk. specialize (Hk a eq_refl). destruct (k a) as [tr' r]. cbn [fst] in *.
  by apply Forall_app.
Qed.

Lemma bind_inr_inv {A B} (m : Gen A) (k : A -> Gen B) b :
  snd (bind m k) = inr b -> exists a, snd m = inr a /\ snd (k a) = inr b.
Proof.
  destruct m as [tr [e|a]]; [done|]. rewrite bind_pair. cbn [snd]. eauto.
Qed.

Lemma build_single_metadata path reader result base doc :
  snd (_build_single_document env self path reader result base) = inr doc ->
  metadata doc = <["element_type" := PStr "document"]> base.
Proof.
  unfold _build_single_document. cbv zeta. intros H.
  repeat (apply bind_inr_inv in H as (? & _ & H)).
  cbn in H. by injection H as <-.
Qed.

(** Every document [lazy_load] yields - placeholder, single document or
    element - has the common keys with the value of the metadata overlay
    where the overlay has the key, and else with the loader's own value: the
    path, the file name, the file type token, the loader and parser
    identifiers and, when enabled, the time stamp. *)
Theorem documents_carry_common_metadata reader doc key :
  supported (file_path self) -> opens env (file_path self) reader ->
  doc ∈ yielded (fst (lazy_load env self)) -> key ∈ common_keys ->
  metadata doc !! key
  = match extra_metadata self !! key with
    | Some v => Some v
    | None => standard_value env self reader key
    end.
Proof.
  intros Hs Ho Hdoc Hkey.
  rewrite <- (common_metadata_lookup reader key Hkey).
  set (base := _build_common_metadata env self (file_path self) reader).
  assert (all_events (carried base) (lazy_load_body env self (file_path self))) as Hall.
  { unfold lazy_load_body. rewrite (create_reader_opened _ _ _ Ho), bind_pair.
    cbv beta zeta. fold base. unfold all_events. cbn [fst].
    constructor; [done|]. fold (all_events (carried base)
      (bind (_handle_file_status self reader base)
         (fun placeholder =>
            match placeholder with
            | Some doc => emit (Yield doc)
            | None =>
                bind (_extract_result self reader)
                  (fun result =>
                     if String.eqb (mode self) "single"
                     then bind (_build_single_document env self (file_path self) reader
                                  result base) (fun doc => emit (Yield doc))
                     else _build_element_documents env self (file_path self) reader
                            result base)
            end))).
    apply all_events_bind_val.
    { unfold _handle_file_status, _resolve_status_policy.
      repeat (match goal with |- context [if ?b then _ else _] => destruct b end);
        auto using all_events_ret, all_events_raise. }
    intros [placeholder|] Hgate.
    { apply all_events_emit. cbn [carried].
      assert (metadata placeholder
              = <["element_type" := PStr "placeholder"]>
                  (<["status" := PStr "encrypted"]> base)
              \/ metadata placeholder
                 = <["element_type" := PStr "placeholder"]>
                     (<["status" := PStr "invalid"]> base)) as [Hm|Hm].
      { revert Hgate. unfold _handle_file_status, _resolve_status_policy.
        repeat (match goal with |- context [if ?b then _ else _] => destruct b end);
          cbn; try done; intros [= <-]; auto. }
      all: unfold carries; rewrite Hm; carry. }
    apply all_events_bind_val.
    { unfold _extract_result. destruct (extract_options self);
        (apply all_events_bind; [by apply all_events_emit|intros; apply all_events_call]). }
    intros result _. destruct (String.eqb (mode self) "single").
    - apply all_events_bind_val; [apply carried_build_single|].
      intros d Hd. apply all_events_emit. cbn [carried]. unfold carries.
      rewrite (build_single_metadata _ _ _ _ _ Hd). carry.
    - apply carried_build_elements. }
  rewrite (lazy_load_yields_of_body env self Hs (proj1 Ho)) in Hdoc.
  unfold all_events in Hall. rewrite Forall_forall in Hall.
  assert (Yield doc ∈ fst (lazy_load_body env self (file_path self))) as Hin.
  { revert Hdoc. unfold yielded. rewrite list_elem_of_omap.
    intros ([] & Hin & Hy); try done. by injection Hy as ->. }
  exact (Hall _ Hin key Hkey).
Qed.

End CommonMetadata.

(** ** Trimmed contents, saved images and the hyperlinks section *)

Section Trimmed.
Import HwpHwpxLoader.
Variable env : Env.
Variable self : t.

Lemma trimmed_strip s : trimmed (PyStr.strip s).
Proof. apply strip_idem. Qed.

Lemma trimmed_body reader result : trimmed (_extract_body_text reader result).
Proof. unfold _extract_body_text. cbv zeta. destruct (truthy _); apply trimmed_strip. Qed.

Lemma trimmed_render_table table : trimmed (_render_table self table).
Proof.
  unfold _render_table. cbv zeta.
  repeat (match goal with
          | |- context [match ?x with Some _ => _ | None => _ end] => destruct x
          end); apply trimmed_strip.
Qed.

Lemma normalize_hyperlink_trimmed link :
  trimmed (fst (_normalize_hyperlink link)) /\ trimmed (snd (_normalize_hyperlink link)).
Proof.
  destruct link as [items|d|t u]; cbn [_normalize_hyperlink fst snd]; split;
    apply strip_idem.
Qed.

Lemma trimmed_quiet {A} (m : Gen A) : yielded (fst m) = [] -> all_events trimmed_event m.
Proof.
  unfold all_events. destruct m as [tr r]. cbn [fst].
  induction tr as [|ev tr IH]; [constructor|].
  intros Hy. destruct ev; try discriminate Hy; constructor; try done; by apply IH.
Qed.

Lemma trimmed_build_elements path reader result md :
  all_events trimmed_event (_build_element_documents env self path reader result md).
Proof.
  unfold _build_element_documents. cbv zeta.
  apply all_events_bind; [|intros ?].
  { destruct (truthy _); [|apply all_events_ret].
    apply all_events_bind; [|intros; apply all_events_ret].
    apply all_events_emit. unfold trimmed_event. right. right. apply trimmed_body. }
  apply all_events_bind; [|intros ?].
  { destruct (include_tables self); [|apply all_events_ret].
    apply all_events_bind; [apply trimmed_quiet, collect_tables_trace|].
    intros tables. apply all_events_for_each. intros s x. unfold table_element. cbv zeta.
    apply all_events_bind; [|intros; apply all_events_ret].
    apply all_events_emit. unfold trimmed_event. right. right. apply trimmed_render_table. }
  apply all_events_bind; [|intros ?].
  { destruct (include_notes self); [|apply all_events_ret].
    apply all_events_for_each. intros s x. unfold note_element. cbv zeta.
    apply all_events_bind; [|intros; apply all_events_ret].
    apply all_events_emit. unfold trimmed_event. right. right. apply trimmed_strip. }
  apply all_events_bind; [|intros ?].
  { destruct (include_memos self); [|apply all_events_ret].
    apply all_events_for_each. intros s x. unfold memo_element. cbv zeta.
    apply all_events_bind; [|intros; apply all_events_ret].
    apply all_events_emit. unfold trimmed_event. right. right. apply trimmed_strip. }
  apply all_events_bind; [|intros ?].
  { destruct (include_hyperlinks self); [|apply all_events_ret].
    apply all_events_for_each. intros s x. unfold hyperlink_element.
    pose proof (normalize_hyperlink_trimmed x) as Hc.
    destruct (_normalize_hyperlink x) as [text url].
    cbn [fst snd] in Hc. destruct Hc as [Ht Hu].
    destruct (_ && _); [apply all_events_ret|].
    apply all_events_bind; [|intros; apply all_events_ret].
    apply all_events_emit. unfold trimmed_event. right. right. cbn [page_content].
    by destruct (truthy text). }
  apply all_events_bind; [|intros; apply all_events_ret].
  destruct (include_images self); [|apply all_events_ret].
  apply all_events_bind; [apply trimmed_quiet, collect_images_trace|].
  intros images. apply all_events_for_each. intros s [idx image]. unfold image_element.
  cbv zeta.
  pose proof (materialize_image_trace env self path idx image
                (_element_metadata md "image" s)) as Htr.
  pose proof (fun r H => materialize_image_metadata env self path idx image
                           (_element_metadata md "image" s) r "element_type" H) as Hty.
  destruct (_materialize_image env self path idx image _) as [tr [e|r]].
  - by apply trimmed_quiet.
  - unfold all_events. rewrite bind_pair, bind_emit. cbn [fst snd ret] in *.
    apply Forall_app. split; [by apply (trimmed_quiet (tr, inr r))|].
    constructor; [|constructor]. unfold trimmed_event. left.
    unfold element_type. cbn [metadata].
    rewrite (Hty r eq_refl) by done. apply lookup_type_element_metadata.
Qed.

Lemma build_single_trace path reader result md :
  yielded (fst (_build_single_document env self path reader result md)) = [].
Proof.
  assert (forall {A B} (m : Gen A) (k : A -> Gen B),
            yielded (fst m) = [] -> (forall a, yielded (fst (k a)) = []) ->
            yielded (fst (bind m k)) = []) as Hbind.
  { intros A B [tr [e|a]] k Hm Hk; [exact Hm|].
    rewrite bind_pair. cbn [fst] in *. by rewrite yielded_app, Hm, Hk. }
  assert (forall (include : bool) render chunks,
            yielded (fst render) = [] ->
            yielded (fst (append_section include render chunks)) = []) as Hsec.
  { intros include render chunks Hr. unfold append_section.
    destruct include; [|reflexivity]. by apply Hbind. }
  unfold _build_single_document. cbv zeta.
  repeat (apply Hbind; [apply Hsec|intros ?]); try reflexivity.
  - apply render_tables_trace.
  - apply render_images_trace.
Qed.

Lemma build_single_trimmed path reader result md doc :
  snd (_build_single_document env self path reader result md) = inr doc ->
  trimmed (page_content doc).
Proof.
  unfold _build_single_document. cbv zeta. intros H.
  repeat (apply bind_inr_inv in H as (? & _ & H)).
  cbn in H. injection H as <-. apply trimmed_strip.
Qed.

(** Whatever the collaborator returns, the content of every document other
    than an image or a placeholder has no white space at either end. *)
Theorem contents_are_trimmed doc :
  doc ∈ yielded (fst (lazy_load env self)) ->
  element_type doc = Some (PStr "image") \/ element_type doc = Some (PStr "placeholder")
  \/ trimmed (page_content doc).
Proof.
  intros Hdoc.
  assert (all_events trimmed_event (lazy_load env self)) as Hall.
  { unfold lazy_load. cbv zeta.
    destruct (negb (str_in _ _)); [apply all_events_raise|].
    apply all_events_bind; [apply all_events_call|intros found].
    destruct (negb found); [apply all_events_raise|].
    apply all_events_try_except.
    - unfold lazy_load_body. apply all_events_bind.
      { apply trimmed_quiet. unfold _create_reader, _import_parser.
        destruct (parser_Reader env); [|reflexivity]. by rewrite bind_ret, bind_emit. }
      intros reader. cbv zeta. apply all_events_bind_val.
      { apply trimmed_quiet. unfold _handle_file_status, _resolve_status_policy.
        repeat (match goal with |- context [if ?b then _ else _] => destruct b end);
          reflexivity. }
      intros [placeholder|] Hgate.
      { apply all_events_emit. unfold trimmed_event. right. left.
        revert Hgate. unfold _handle_file_status, _resolve_status_policy.
        repeat (match goal with |- context [if ?b then _ else _] => destruct b end);
          cbn; try done; intros [= <-]; apply lookup_insert_eq. }
      apply all_events_bind.
      { apply trimmed_quiet. unfold _extract_result.
        destruct (extract_options self); by rewrite bind_emit. }
      intros result. destruct (String.eqb (mode self) "single").
      + apply all_events_bind_val; [apply trimmed_quiet, build_single_trace|].
        intros d Hd. apply all_events_emit. unfold trimmed_event. right. right.
        by apply (build_single_trimmed _ _ _ _ _ Hd).
      + apply trimmed_build_elements.
    - intros [msg c| |cls msg|cls msg];
        [apply all_events_raise|apply all_events_ret| |apply all_events_raise].
      apply trimmed_quiet. unfold _handle_runtime_error. cbv zeta.
      destruct (String.eqb (on_error self) "raise"); [reflexivity|].
      destruct (String.eqb (on_error self) "warn"); reflexivity. }
  unfold all_events in Hall. rewrite Forall_forall in Hall.
  assert (Yield doc ∈ fst (lazy_load env self)) as Hin.
  { revert Hdoc. unfold yielded. rewrite list_elem_of_omap.
    intros ([] & Hin & Hy); try done. by injection Hy as ->. }
  exact (Hall _ Hin).
Qed.

End Trimmed.

Section SavingImages.
Import HwpHwpxLoader.
Variable env : Env.
Variable self : t.

(** In mode "save_and_reference" with a target directory, an image handle
    that can save is saved after the directory is created, to the path
    [pathlib] forms from the directory and the resolved name: that path is
    the one given to [save], recorded as [saved_path] and shown in the
    content.  A failure of the directory creation, of forming the path or of
    the save is raised as it is, and the first two leave the image
    unsaved. *)
Theorem materialize_image_saves path idx image md dir save :
  image_document_mode self = "save_and_reference" -> images_dir self = Some dir ->
  Image.save image = Some save ->
  let run := _materialize_image env self path idx image md in
  (forall e, fs_mkdir env dir = Some e -> run = ([Mkdir dir], inl e)) /\
  (forall e, fs_mkdir env dir = None -> image_output_path dir idx image = inl e ->
             run = ([Mkdir dir], inl e)) /\
  (forall output,
     fs_mkdir env dir = None -> image_output_path dir idx image = inr output ->
     (forall e, save output = Some e -> run = ([Mkdir dir; ImageSave output], inl e)) /\
     (save output = None ->
      run = ([Mkdir dir; ImageSave output],
             inr (image_name idx image ++ " -> " ++ output,
                  <["saved_path" := PStr output]> (snd (described path idx image md)))))).
Proof.
  intros Hmode Hdir Hsave run. subst run. rewrite materialize_image_outcome.
  rewrite Hmode, Hdir, String.eqb_refl, Hsave.
  split; [|split].
  - by intros e ->.
  - by intros e -> ->.
  - intros output -> ->. split; [by intros e ->|by intros ->].
Qed.

(** The "Hyperlinks" section of single mode lists the records that elements
    mode keeps, one line each, under its heading; it is empty only when the
    result has no hyperlink record at all, so records that are all empty
    leave the heading alone. *)
Theorem hyperlinks_section_lists_kept_links result :
  (_collect_hyperlinks result = [] -> _render_hyperlinks_for_single result = "") /\
  (_collect_hyperlinks result <> [] ->
   _render_hyperlinks_for_single result
   = PyStr.join nl ("## Hyperlinks"
                      :: List.map hyperlink_line
                           (List.filter link_kept (_collect_hyperlinks result)))).
Proof.
  unfold _render_hyperlinks_for_single. split.
  - by intros ->.
  - intros Hne. destruct (_collect_hyperlinks result) as [|l ls] eqn:E; [done|].
    f_equal. f_equal. clear. generalize (l :: ls). intros links.
    assert (forall x, hyperlink_lines x
                      = if link_kept x then [hyperlink_line x] else []) as Hx.
    { intros x. unfold hyperlink_lines, link_kept, hyperlink_line.
      destruct (_normalize_hyperlink x) as [text url].
      destruct (truthy text), (truthy url); reflexivity. }
    induction links as [|x xs IH]; [done|].
    cbn [List.map List.concat List.filter]. rewrite IH, Hx.
    by destruct (link_kept x).
Qed.

End SavingImages.

(** ** Reserved metadata keys *)

Section ElementTypes.
Import HwpHwpxLoader.
Variable env : Env.
Variable self : t.

Lemma tagged_quiet {A} (m : Gen A) types :
  yielded (fst m) = [] -> all_events (tagged_event types) m.
Proof.
  unfold all_events. destruct m as [tr r]. cbn [fst].
  induction tr as [|ev tr IH]; [constructor|].
  intros Hy. destruct ev; try discriminate Hy; constructor; try done; by apply IH.
Qed.

Lemma tagged_elements ty (m md : gmap string PyVal) content i :
  ty ∈ ["body"; "table"; "footnote"; "endnote"; "memo"; "hyperlink"; "image"] ->
  m !! "element_type" = _element_metadata md ty i !! "element_type" ->
  tagged (element_vocabulary "elements") {| page_content := content; metadata := m |}.
Proof.
  intros Hty Hm. exists ty. split.
  - apply elem_of_cons. by right.
  - unfold element_type. cbn [metadata]. rewrite Hm. apply lookup_type_element_metadata.
Qed.

Lemma tagged_build_elements path reader result md :
  all_events (tagged_event (element_vocabulary "elements"))
    (_build_element_documents env self path reader result md).
Proof.
  unfold _build_element_documents. cbv zeta.
  apply all_events_bind; [|intros ?].
  { destruct (truthy _); [|apply all_events_ret].
    apply all_events_bind; [|intros; apply all_events_ret].
    apply all_events_emit. cbn [tagged_event].
    apply (tagged_elements "body" _ md _ 0); [set_solver|done]. }
  apply all_events_bind; [|intros ?].
  { destruct (include_tables self); [|apply all_events_ret].
    apply all_events_bind; [apply tagged_quiet, collect_tables_trace|].
    intros tables. apply all_events_for_each. intros s x. unfold table_element. cbv zeta.
    apply all_events_bind; [|intros; apply all_events_ret].
    apply all_events_emit. cbn [tagged_event].
    apply (tagged_elements "table" _ md _ s); [set_solver|].
    destruct (_safe_int (getattr (Table.row_count x) PNone));
      destruct (_safe_int (getattr (Table.col_count x) PNone));
      by rewrite ?lookup_insert_ne. }
  apply all_events_bind; [|intros ?].
  { destruct (include_notes self); [|apply all_events_ret].
    apply all_events_for_each. intros s x. unfold note_element. cbv zeta.
    apply all_events_bind; [|intros; apply all_events_ret].
    apply all_events_emit. cbn [tagged_event].
    destruct (String.eqb _ "endnote").
    - apply (tagged_elements "endnote" _ md _ s); [set_solver|].
      destruct (_safe_int (getattr (Note.number x) PNone)); by rewrite ?lookup_insert_ne.
    - apply (tagged_elements "footnote" _ md _ s); [set_solver|].
      destruct (_safe_int (getattr (Note.number x) PNone)); by rewrite ?lookup_insert_ne. }
  apply all_events_bind; [|intros ?].
  { destruct (include_memos self); [|apply all_events_ret].
    apply all_events_for_each. intros s x. unfold memo_element. cbv zeta.
    apply all_events_bind; [|intros; apply all_events_ret].
    apply all_events_emit. cbn [tagged_event].
    apply (tagged_elements "memo" _ md _ s); [set_solver|].
    by rewrite !lookup_copy_memo_key by done. }
  apply all_events_bind; [|intros ?].
  { destruct (include_hyperlinks self); [|apply all_events_ret].
    apply all_events_for_each. intros s x. unfold hyperlink_element.
    destruct (_normalize_hyperlink x) as [text url].
    destruct (_ && _); [apply all_events_ret|].
    apply all_events_bind; [|intros; apply all_events_ret].
    apply all_events_emit. cbn [tagged_event].
    apply (tagged_elements "hyperlink" _ md _ s); [set_solver|].
    destruct (truthy url); destruct (truthy text); by rewrite ?lookup_insert_ne. }
  apply all_events_bind; [|intros; apply all_events_ret].
  destruct (include_images self); [|apply all_events_ret].
  apply all_events_bind; [apply tagged_quiet, collect_images_trace|].
  intros images. apply all_events_for_each. intros s [idx image]. unfold image_element.
  cbv zeta.
  pose proof (materialize_image_trace env self path idx image
                (_element_metadata md "image" s)) as Htr.
  pose proof (fun r H => materialize_image_metadata env self path idx image
                           (_element_metadata md "image" s) r "element_type" H) as Hty.
  destruct (_materialize_image env self path idx image _) as [tr [e|r]].
  - by apply tagged_quiet.
  - unfold all_events. rewrite bind_pair, bind_emit. cbn [fst snd ret] in *.
    apply Forall_app. split; [by apply (tagged_quiet (tr, inr r))|].
    constructor; [|constructor]. cbn [tagged_event].
    apply (tagged_elements "image" _ md _ s); [set_solver|].
    by rewrite (Hty r eq_refl).
Qed.

(** Every document [lazy_load] yields is tagged with an element type of the
    loader's mode - "document" in single mode, one of the seven element
    kinds in elements mode, "placeholder" in both - also when the metadata
    overlay itself has an [element_type] entry: the overlay never replaces
    the tag. *)
Theorem element_type_reserved doc :
  doc ∈ yielded (fst (lazy_load env self)) ->
  exists ty, ty ∈ element_vocabulary (mode self) /\ element_type doc = Some (PStr ty).
Proof.
  intros Hdoc.
  assert (all_events (tagged_event (element_vocabulary (mode self))) (lazy_load env self))
    as Hall.
  { unfold lazy_load. cbv zeta.
    destruct (negb (str_in _ _)); [apply all_events_raise|].
    apply all_events_bind; [apply all_events_call|intros found].
    destruct (negb found); [apply all_events_raise|].
    apply all_events_try_except.
    - unfold lazy_load_body. apply all_events_bind.
      { apply tagged_quiet. unfold _create_reader, _import_parser.
        destruct (parser_Reader env); [|reflexivity]. by rewrite bind_ret, bind_emit. }
      intros reader. cbv zeta. apply all_events_bind_val.
      { apply tagged_quiet. unfold _handle_file_status, _resolve_status_policy.
        repeat (match goal with |- context [if ?b then _ else _] => destruct b end);
          reflexivity. }
      intros [placeholder|] Hgate.
      { apply all_events_emit. cbn [tagged_event]. exists "placeholder". split.
        { unfold element_vocabulary. destruct (String.eqb _ _); set_solver. }
        revert Hgate. unfold _handle_file_status, _resolve_status_policy.
        repeat (match goal with |- context [if ?b then _ else _] => destruct b end);
          cbn; try done; intros [= <-]; unfold element_type; cbn [metadata];
          apply lookup_insert_eq. }
      apply all_events_bind.
      { apply tagged_quiet. unfold _extract_result.
        destruct (extract_options self); rewrite bind_emit; cbn [fst];
          unfold call; by destruct (Reader.extract_text_with_notes _ _). }
      intros result. unfold element_vocabulary at 1.
      destruct (String.eqb (mode self) "single").
      + apply all_events_bind_val; [apply tagged_quiet, build_single_trace|].
        intros d Hd. apply all_events_emit. cbn [tagged_event]. exists "document".
        split; [set_solver|]. unfold element_type.
        rewrite (build_single_metadata _ _ _ _ _ _ _ Hd). apply lookup_insert_eq.
      + apply tagged_build_elements.
    - intros e. apply tagged_quiet. destruct e as [msg cause| |cls msg|cls msg];
        try reflexivity.
      unfold _handle_runtime_error. cbv zeta.
      repeat (match goal with |- context [if ?b then _ else _] => destruct b end);
        reflexivity. }
  unfold all_events in Hall. rewrite Forall_forall in Hall.
  assert (Yield doc ∈ fst (lazy_load env self)) as Hin.
  { revert Hdoc. unfold yielded. rewrite list_elem_of_omap.
    intros ([] & Hin & Hy); try done. by injection Hy as ->. }
  exact (Hall _ Hin).
Qed.

End ElementTypes.

(** ** Instances of the further properties *)

Lemma opens_sample reader path : opens (Samples.env_of reader) path reader.
Proof. split; [reflexivity|]. eexists. split; reflexivity. Qed.

Lemma lazy_load_leaves_file_system_witness :
  fs_effects (fst (HwpHwpxLoader.lazy_load (Samples.env_of Fixtures.FakeReader)
                     (Samples.loader "elements" "raise" "raise" true false))) = [].
Proof. apply lazy_load_leaves_file_system. left. reflexivity. Defined.

Lemma excluded_features_not_queried_witness :
  all_events (fun ev => ev <> GetTablesCall)
    (HwpHwpxLoader.lazy_load (Samples.env_of Fixtures.FakeReader)
       (Samples.loader "elements" "raise" "raise" false false)) /\
  all_events (fun ev => ev <> GetImagesCall)
    (HwpHwpxLoader.lazy_load (Samples.env_of Fixtures.FakeReader)
       (Samples.loader "elements" "raise" "raise" false false)).
Proof.
  split.
  - apply (proj1 (excluded_features_not_queried _ _)). reflexivity.
  - apply (proj2 (excluded_features_not_queried _ _)). reflexivity.
Defined.

Lemma runtime_error_contained_witness :
  let out := HwpHwpxLoader.lazy_load (Samples.env_of Samples.NoImagesReader)
               (Samples.loader "elements" "raise" "skip" true true) in
  snd out = inr tt /\
  List.map element_type (yielded (fst out))
  = List.map (fun ty => Some (PStr ty))
      ["body"; "table"; "footnote"; "endnote"; "memo"; "hyperlink"].
Proof.
  intros out.
  destruct (runtime_error_contained (Samples.env_of Samples.NoImagesReader)
              (Samples.loader "elements" "raise" "skip" true true)
              (fst (HwpHwpxLoader.lazy_load_body (Samples.env_of Samples.NoImagesReader)
                      (Samples.loader "elements" "raise" "skip" true true)
                      Fixtures.sample_file))
              "OSError" "unreadable")
    as (Hy & _ & _ & Hskip); [reflexivity|reflexivity|vm_compute; reflexivity|].
  subst out. rewrite Hskip by discriminate. split; [reflexivity|].
  cbn [fst]. vm_compute. reflexivity.
Defined.

Lemma lazy_load_escaping_exception_witness :
  exists msg cause,
    snd (HwpHwpxLoader.lazy_load (Samples.env_of Fixtures.FailingReader)
           (Samples.loader "single" "raise" "raise" true false))
    = inl (HwpHwpxLoaderError msg cause).
Proof.
  destruct (lazy_load_escaping_exception (Samples.env_of Fixtures.FailingReader)
              (Samples.loader "single" "raise" "raise" true false)
              (HwpHwpxLoaderError "Failed to parse /tmp/sample.hwp: RuntimeError"
                 (Some (PyException "RuntimeError" "boom"))))
    as [(msg & cause & H)|(cls & msg & H)];
    [reflexivity|reflexivity|vm_compute; reflexivity| |discriminate H].
  eexists _, _. vm_compute. reflexivity.
Defined.

Lemma lazy_load_preconditions_witness :
  HwpHwpxLoader.lazy_load (Samples.env_of Fixtures.FakeReader) Samples.text_loader
  = ([], inl (PyException "ValueError"
                "Unsupported extension for /tmp/notes.txt. Use .hwp or .hwpx")) /\
  HwpHwpxLoader.lazy_load Samples.unreadable_env
    (Samples.loader "single" "skip" "skip" true false)
  = ([], inl (PyException "OSError"
                "[Errno 36] File name too long: '/tmp/sample.hwp'")) /\
  HwpHwpxLoader.lazy_load Samples.empty_env
    (Samples.loader "single" "skip" "skip" true false)
  = ([], inl (PyException "FileNotFoundError" "File not found: /tmp/sample.hwp")).
Proof.
  split; [|split].
  - destruct (proj1 (lazy_load_preconditions (Samples.env_of Fixtures.FakeReader)
                       Samples.text_loader)) as [H|H]; [discriminate H|exact H].
  - apply (proj1 (proj2 (lazy_load_preconditions Samples.unreadable_env
                           (Samples.loader "single" "skip" "skip" true false))
                    eq_refl)).
    reflexivity.
  - apply (proj2 (proj2 (lazy_load_preconditions Samples.empty_env
                           (Samples.loader "single" "skip" "skip" true false))
                    eq_refl)).
    reflexivity.
Defined.

Lemma status_gate_raise_skip_witness :
  HwpHwpxLoader.lazy_load (Samples.env_of Samples.InvalidReader)
    (Samples.loader "elements" "skip" "raise" true true)
  = ([ReaderOpen "/tmp/sample.hwp"], inr tt) /\
  HwpHwpxLoader.lazy_load (Samples.env_of Samples.InvalidReader)
    (Samples.loader "elements" "raise" "skip" true true)
  = ([ReaderOpen "/tmp/sample.hwp"],
     inl (HwpHwpxLoaderError
            "Document skipped because it is invalid: /tmp/sample.hwp" None)).
Proof.
  split.
  - apply (proj2 (status_gate_raise_skip (Samples.env_of Samples.InvalidReader)
                    (Samples.loader "elements" "skip" "raise" true true)
                    Samples.InvalidReader "skip" "invalid" eq_refl
                    (opens_sample _ _) eq_refl)).
    reflexivity.
  - apply (proj1 (status_gate_raise_skip (Samples.env_of Samples.InvalidReader)
                    (Samples.loader "elements" "raise" "skip" true true)
                    Samples.InvalidReader "raise" "invalid" eq_refl
                    (opens_sample _ _) eq_refl)).
    reflexivity.
Defined.

Lemma invalid_placeholder_witness :
  exists doc,
    HwpHwpxLoader.lazy_load (Samples.env_of Samples.InvalidReader)
      (Samples.loader "elements" "placeholder" "raise" true true)
    = ([ReaderOpen "/tmp/sample.hwp"; Yield doc], inr tt) /\
    page_content doc = "[INVALID] sample.hwp cannot be parsed by policy." /\
    metadata doc !! "status" = Some (PStr "invalid") /\
    element_type doc = Some (PStr "placeholder").
Proof.
  apply (invalid_placeholder (Samples.env_of Samples.InvalidReader)
           (Samples.loader "elements" "placeholder" "raise" true true)
           Samples.InvalidReader eq_refl (opens_sample _ _) eq_refl eq_refl);
    discriminate.
Defined.

Lemma init_validates_witness :
  (exists self,
     HwpHwpxLoader.__init__ Fixtures.sample_file HwpHwpxLoader.no_kwargs = ([], inr self) /\
     HwpHwpxLoader.mode self = "single" /\ HwpHwpxLoader.on_error self = "raise") /\
  (exists msg,
     HwpHwpxLoader.__init__ Fixtures.sample_file
       (HwpHwpxDirectoryLoader.set_on_error "ignore" HwpHwpxLoader.no_kwargs)
     = ([], inl (PyException "ValueError" msg))).
Proof.
  split.
  - destruct (proj1 (init_validates Fixtures.sample_file HwpHwpxLoader.no_kwargs) eq_refl)
      as (self & Hinit & _).
    exists self. split; [exact Hinit|].
    injection Hinit as <-. split; reflexivity.
  - apply (proj2 (init_validates Fixtures.sample_file
                    (HwpHwpxDirectoryLoader.set_on_error "ignore" HwpHwpxLoader.no_kwargs))).
    reflexivity.
Defined.

Lemma element_indices_consecutive_witness :
  let docs := yielded (fst (HwpHwpxLoader.lazy_load (Samples.env_of Samples.NoImagesReader)
                              (Samples.loader "elements" "raise" "warn" false true))) in
  List.map element_index docs = indices_from 0 5.
Proof.
  intros docs.
  destruct (element_indices_consecutive (Samples.env_of Samples.NoImagesReader)
              (Samples.loader "elements" "raise" "warn" false true))
    as [H|(doc & H & _)]; [discriminate| |discriminate H].
  exact H.
Defined.

Lemma elements_sequence_witness :
  let out := HwpHwpxLoader.lazy_load (Samples.env_of Fixtures.FakeReader)
               (Samples.loader "elements" "raise" "raise" true false) in
  snd out = inr tt /\
  List.map element_type (yielded (fst out))
  = List.map (fun ty => Some (PStr ty))
      ["body"; "table"; "footnote"; "endnote"; "memo"; "hyperlink"].
Proof.
  apply (elements_sequence (Samples.env_of Fixtures.FakeReader)
           (Samples.loader "elements" "raise" "raise" true false)
           Fixtures.FakeReader Fixtures.fake_result [Fixtures.FakeTable] []);
    try reflexivity; try discriminate.
  apply opens_sample.
Defined.


Lemma directory_scan_witness :
  HwpHwpxDirectoryLoader.lazy_load Fixtures.encrypted_env Fixtures.directory_loader
  = ([ReaderOpen "/docs/a.HWPX"],
     inl (HwpHwpxLoaderError "Failed to load file /docs/a.HWPX: HwpHwpxLoaderError"
            (Some (HwpHwpxLoaderError
                     "Document skipped because it is encrypted: /docs/a.HWPX" None)))) /\
  List.map (fun doc => metadata doc !! "file_name")
    (yielded (fst (HwpHwpxDirectoryLoader.lazy_load Fixtures.env Fixtures.directory_loader)))
  = [Some (PStr "a.HWPX"); Some (PStr "b.hwp"); Some (PStr "c.hwp")] /\
  HwpHwpxDirectoryLoader.lazy_load Fixtures.env (Samples.skipping_collector "**/" false)
  = ([], inl (PyException "ValueError" "Unacceptable pattern: ''")) /\
  HwpHwpxDirectoryLoader.lazy_load Samples.locked_env
    (Samples.skipping_collector "**/*" true)
  = ([], inl (PyException "PermissionError"
                "[Errno 13] Permission denied: '/docs/sub/c.hwp'")).
Proof.
  split; [|split; [|split]].
  - apply (proj2 (proj2 (proj2 (directory_scan Fixtures.encrypted_env
                                  Fixtures.directory_loader eq_refl eq_refl))
                    ["/docs/a.HWPX"; "/docs/b.hwp"; "/docs/sub/c.hwp"] eq_refl)
             [] "/docs/a.HWPX" ["/docs/b.hwp"; "/docs/sub/c.hwp"]).
    + reflexivity.
    + intros p Hp. by apply elem_of_nil in Hp.
    + vm_compute. reflexivity.
  - rewrite (proj1 (proj2 (proj2 (directory_scan Fixtures.env Fixtures.directory_loader
                                    eq_refl eq_refl))
                      ["/docs/a.HWPX"; "/docs/b.hwp"; "/docs/sub/c.hwp"] eq_refl)).
    + vm_compute. reflexivity.
    + intros path Hp. rewrite !elem_of_cons, elem_of_nil in Hp.
      destruct Hp as [->|[->|[->|[]]]]; vm_compute; reflexivity.
  - apply (proj1 (proj2 (directory_scan Fixtures.env
                           (Samples.skipping_collector "**/" false) eq_refl eq_refl)));
      reflexivity.
  - apply (proj1 (directory_scan Samples.locked_env
                    (Samples.skipping_collector "**/*" true) eq_refl eq_refl)).
    vm_compute. reflexivity.
Defined.

Lemma normalize_extension_normal_form_witness :
  HwpHwpxDirectoryLoader._normalize_extension " HWPX " = ([], inr ".hwpx") /\
  HwpHwpxDirectoryLoader._normalize_extension ".hwpx" = ([], inr ".hwpx") /\
  HwpHwpxDirectoryLoader._normalize_extension "  "
  = ([], inl (PyException "ValueError" "extensions must not contain empty values")).
Proof.
  destruct (proj2 (normalize_extension_normal_form " HWPX ")) as (normal & H1 & _ & _ & H2);
    [discriminate|].
  assert (normal = ".hwpx") as -> by (vm_compute in H1; by injection H1 as <-).
  split; [exact H1|]. split; [exact H2|].
  by apply (proj1 (normalize_extension_normal_form "  ")).
Defined.

Lemma directory_init_witness :
  HwpHwpxLoader.kw_on_error
    (HwpHwpxDirectoryLoader.loader_kwargs Fixtures.directory_loader) = Some "raise" /\
  HwpHwpxDirectoryLoader.extensions Fixtures.directory_loader = [".hwp"; ".hwpx"] /\
  HwpHwpxDirectoryLoader.__init__ "/docs" "**/*" true [".hwp"; " "] HwpHwpxLoader.no_kwargs
  = ([], inl (PyException "ValueError" "extensions must not contain empty values")).
Proof.
  destruct (proj1 (directory_init "/docs" "**/*" true ["HWP"; ".hwpx "]
                     HwpHwpxLoader.no_kwargs) Fixtures.directory_loader eq_refl)
    as (_ & _ & Hkw & Hext & _).
  split; [exact Hkw|]. split; [exact Hext|].
  apply (proj2 (directory_init "/docs" "**/*" true [".hwp"; " "] HwpHwpxLoader.no_kwargs) " ").
  - apply elem_of_cons. right. apply elem_of_cons. by left.
  - reflexivity.
Defined.

Lemma materialize_image_saves_witness :
  HwpHwpxLoader._materialize_image Fixtures.env Fixtures.saving_loader
    Fixtures.sample_file 0 Samples.DottedImage ∅
  = ([Mkdir "/out"; ImageSave "/out/pic.png"],
     inr ("./pic -> /out/pic.png",
          <["saved_path" := PStr "/out/pic.png"]>
            (<["image_format" := PStr "png"]> (<["filename" := PStr "./pic"]> ∅)))).
Proof.
  apply (proj2 (proj2 (materialize_image_saves Fixtures.env Fixtures.saving_loader
                         Fixtures.sample_file 0 Samples.DottedImage ∅ "/out"
                         (fun _ => None) eq_refl eq_refl eq_refl)) "/out/pic.png");
    reflexivity.
Defined.

Lemma hyperlinks_section_lists_kept_links_witness :
  HwpHwpxLoader._render_hyperlinks_for_single Samples.links_result
  = "## Hyperlinks" ++ nl ++ "- site: https://example.com" /\
  HwpHwpxLoader._render_hyperlinks_for_single
    (with_hyperlinks [Fixtures.blank_link] Fixtures.fake_result)
  = "## Hyperlinks".
Proof.
  split.
  - rewrite (proj2 (hyperlinks_section_lists_kept_links Samples.links_result));
      [reflexivity|discriminate].
  - rewrite (proj2 (hyperlinks_section_lists_kept_links
                      (with_hyperlinks [Fixtures.blank_link] Fixtures.fake_result)));
      [reflexivity|discriminate].
Defined.

Lemma element_type_reserved_witness :
  exists doc,
    head (yielded (fst (HwpHwpxLoader.lazy_load (Samples.env_of Fixtures.FakeReader)
                          (Samples.forging_loader "elements")))) = Some doc /\
    HwpHwpxLoader.extra_metadata (Samples.forging_loader "elements") !! "element_type"
    = Some (PStr "forged") /\
    exists ty, ty ∈ element_vocabulary "elements" /\ element_type doc = Some (PStr ty).
Proof.
  eexists. split; [reflexivity|]. split; [reflexivity|].
  apply (element_type_reserved (Samples.env_of Fixtures.FakeReader)
           (Samples.forging_loader "elements")).
  apply head_Some_elem_of. reflexivity.
Defined.

Lemma documents_carry_common_metadata_witness :
  exists doc,
    head (yielded (fst (HwpHwpxLoader.lazy_load (Samples.env_of Fixtures.FakeReader)
                          (Samples.loader "elements" "raise" "raise" true false))))
    = Some doc /\
    metadata doc !! "source" = Some (PStr "archive") /\
    metadata doc !! "file_name" = Some (PStr "sample.hwp") /\
    metadata doc !! "file_type" = Some (PStr "hwp").
Proof.
  eexists. split; [reflexivity|].
  match goal with
  | |- metadata ?doc !! _ = _ /\ _ =>
      assert (doc ∈ yielded (fst (HwpHwpxLoader.lazy_load
                                    (Samples.env_of Fixtures.FakeReader)
                                    (Samples.loader "elements" "raise" "raise" true false))))
        as Hdoc by (apply head_Some_elem_of; reflexivity);
      pose proof (fun key => documents_carry_common_metadata
                    (Samples.env_of Fixtures.FakeReader)
                    (Samples.loader "elements" "raise" "raise" true false)
                    Fixtures.FakeReader doc key eq_refl (opens_sample _ _) Hdoc) as H
  end.
  split; [|split].
  - rewrite (H "source"); [reflexivity|]. apply elem_of_cons. by left.
  - rewrite (H "file_name"); [reflexivity|]. apply elem_of_cons. right.
    apply elem_of_cons. by left.
  - rewrite (H "file_type"); [reflexivity|]. do 2 (apply elem_of_cons; right).
    apply elem_of_cons. by left.
Defined.

Lemma contents_are_trimmed_witness :
  exists doc,
    head (yielded (fst (HwpHwpxLoader.lazy_load (Samples.env_of Fixtures.FakeReader)
                          (Samples.loader "single" "raise" "raise" true false))))
    = Some doc /\
    element_type doc = Some (PStr "document") /\ trimmed (page_content doc).
Proof.
  eexists. split; [reflexivity|]. split; [reflexivity|].
  match goal with
  | |- trimmed (page_content ?doc) =>
      assert (doc ∈ yielded (fst (HwpHwpxLoader.lazy_load
                                    (Samples.env_of Fixtures.FakeReader)
                                    (Samples.loader "single" "raise" "raise" true false))))
        as Hdoc by (apply head_Some_elem_of; reflexivity);
      destruct (contents_are_trimmed (Samples.env_of Fixtures.FakeReader)
                  (Samples.loader "single" "raise" "raise" true false) doc Hdoc)
        as [H|[H|H]]; [discriminate H|discriminate H|exact H]
  end.
Defined.
